(** * geo3dfeatures: geometric features of 3D point clouds

    A shallow embedding of [geo3dfeatures/extract.py], the properties its
    specification states about it, and further properties of the code.

    Numbers.  The program computes with IEEE 754 binary64 values (Python
    [float], numpy [float64]).  They are modelled as exact rationals
    extended with the three special values an operation of the program can
    produce: the two infinities and NaN.  Rounding, overflow and the sign
    of zero are not modelled; what is modelled is which operation yields a
    special value and which one raises (the tables are compared with the
    kernel's binary64 arithmetic in [operations_agree_with_binary64]).  A
    property that depends on it says so: it is stated for exact arithmetic,
    with the magnitudes of its inputs bounded where binary64 would
    overflow, underflow or absorb a term.  The
    rounded functions of the C library that have no rational counterpart
    ([sqrt], [log], [pow]) are parameters of the functions that call them,
    like the library objects the pipeline queries (the k-d tree, the PCA
    and the random generator).

    Errors.  A Python exception is a value of [exn]; a function that can
    raise returns a [result]. *)

From Stdlib Require Import List Bool Arith ZArith QArith Qabs Qround Lia Lqa.
From Corelib Require PrimFloat FloatOps SpecFloat Uint63Axioms.
Import ListNotations.

(** ** Exceptions and results *)

Inductive exn : Type :=
| ValueError
| ZeroDivisionError
| AssertionError
| TypeError
| IndexError.

Inductive result (A : Type) : Type :=
| Ok (a : A)
| Raise (e : exn).

Arguments Ok {A} a.
Arguments Raise {A} e.

Definition bind {A B : Type} (r : result A) (k : A -> result B) : result B :=
  match r with
  | Ok a => k a
  | Raise e => Raise e
  end.

Declare Scope py_scope.
Delimit Scope py_scope with py.
Notation "x <- r ;; k" := (bind r (fun x => k))
  (at level 61, r at next level, right associativity) : py_scope.
Notation "r ;;; k" := (bind r (fun _ => k))
  (at level 61, right associativity) : py_scope.
Open Scope py_scope.

Definition is_ok {A : Type} (r : result A) : bool :=
  match r with Ok _ => true | Raise _ => false end.

(** [assert c]. *)
Definition assert (c : bool) : result unit :=
  if c then Ok tt else Raise AssertionError.

(** [l[i]] on a list or an array. *)
Definition getitem {A : Type} (l : list A) (i : nat) : result A :=
  match nth_error l i with
  | Some x => Ok x
  | None => Raise IndexError
  end.

(** A comprehension whose body can raise: the first exception ends it. *)
Fixpoint mapM {A B : Type} (f : A -> result B) (l : list A) : result (list B) :=
  match l with
  | [] => Ok []
  | x :: l' => y <- f x ;; ys <- mapM f l' ;; Ok (y :: ys)
  end.

(** ** binary64 values *)

Inductive float64 : Type :=
| Fin (q : Q)
| PInf
| NInf
| NaN.

Declare Scope f64_scope.
Delimit Scope f64_scope with f64.
Bind Scope f64_scope with float64.

Definition of_Z (z : Z) : float64 := Fin (inject_Z z).
Definition of_nat (n : nat) : float64 := of_Z (Z.of_nat n).

Definition is_nan (x : float64) : bool :=
  match x with NaN => true | _ => false end.

Definition is_finite (x : float64) : bool :=
  match x with Fin _ => true | _ => false end.

Definition Qsgn_neg (q : Q) : bool := Qle_bool q 0 && negb (Qeq_bool q 0).
Definition Qis_zero (q : Q) : bool := Qeq_bool q 0.

Definition fneg (x : float64) : float64 :=
  match x with
  | Fin q => Fin (- q)
  | PInf => NInf
  | NInf => PInf
  | NaN => NaN
  end.

Definition fadd (x y : float64) : float64 :=
  match x, y with
  | NaN, _ | _, NaN => NaN
  | PInf, NInf | NInf, PInf => NaN
  | PInf, _ | _, PInf => PInf
  | NInf, _ | _, NInf => NInf
  | Fin p, Fin q => Fin (p + q)
  end.

Definition fsub (x y : float64) : float64 := fadd x (fneg y).

Definition inf_signed (negative : bool) : float64 :=
  if negative then NInf else PInf.

Definition fmul (x y : float64) : float64 :=
  match x, y with
  | NaN, _ | _, NaN => NaN
  | Fin p, Fin q => Fin (p * q)
  | PInf, PInf | NInf, NInf => PInf
  | PInf, NInf | NInf, PInf => NInf
  | PInf, Fin q | Fin q, PInf =>
      if Qis_zero q then NaN else inf_signed (Qsgn_neg q)
  | NInf, Fin q | Fin q, NInf =>
      if Qis_zero q then NaN else inf_signed (negb (Qsgn_neg q))
  end.

(** Division of numpy scalars: a zero divisor gives an infinity or NaN (and
    a warning), never an exception. *)
Definition np_div (x y : float64) : float64 :=
  match x, y with
  | NaN, _ | _, NaN => NaN
  | Fin p, Fin q =>
      if Qis_zero q
      then (if Qis_zero p then NaN else inf_signed (Qsgn_neg p))
      else Fin (p / q)
  | Fin _, (PInf | NInf) => Fin 0
  | (PInf | NInf), (PInf | NInf) => NaN
  | PInf, Fin q => inf_signed (Qsgn_neg q)
  | NInf, Fin q => inf_signed (negb (Qsgn_neg q))
  end.

(** Division of Python numbers: a zero divisor raises. *)
Definition py_div (x y : float64) : result float64 :=
  match y with
  | Fin q => if Qis_zero q then Raise ZeroDivisionError else Ok (np_div x y)
  | _ => Ok (np_div x y)
  end.

(** Comparisons: every comparison with NaN is false. *)
Definition feqb (x y : float64) : bool :=
  match x, y with
  | Fin p, Fin q => Qeq_bool p q
  | PInf, PInf | NInf, NInf => true
  | _, _ => false
  end.

Definition fleb (x y : float64) : bool :=
  match x, y with
  | NaN, _ | _, NaN => false
  | NInf, _ | _, PInf => true
  | Fin p, Fin q => Qle_bool p q
  | _, _ => false
  end.

Definition fltb (x y : float64) : bool := fleb x y && negb (feqb x y).

Notation "x + y" := (fadd x y) : f64_scope.
Notation "x - y" := (fsub x y) : f64_scope.
Notation "x * y" := (fmul x y) : f64_scope.
Notation "x / y" := (np_div x y) : f64_scope.
Notation "- x" := (fneg x) : f64_scope.
Notation "x == y" := (feqb x y) (at level 70, no associativity) : f64_scope.
Notation "x <=? y" := (fleb x y) (at level 70, no associativity) : f64_scope.
Notation "x <? y" := (fltb x y) (at level 70, no associativity) : f64_scope.

(** Values that denote the same number. *)
Definition feq (x y : float64) : Prop :=
  match x, y with
  | Fin p, Fin q => (p == q)%Q
  | PInf, PInf | NInf, NInf | NaN, NaN => True
  | _, _ => False
  end.

(** The reduced representative of a value, to display results. *)
Definition canon (x : float64) : float64 :=
  match x with Fin q => Fin (Qred q) | _ => x end.

(** [x ** 2] and [x ** 3]. *)
Definition square (x : float64) : float64 := (x * x)%f64.
Definition cube (x : float64) : float64 := (x * x * x)%f64.

(** ** Normalisation and barycentric coordinates *)

(** Python's [sum]: it starts from the integer 0. *)
Definition py_sum (l : list float64) : float64 :=
  fold_left fadd l (of_Z 0).

Definition normalize_over_1 (l : list float64) : list float64 :=
  map (fun item => (item / py_sum l)%f64) l.

Definition features3d (eigenvalues : list float64) : result (list float64) :=
  e0 <- getitem eigenvalues 0 ;;
  e1 <- getitem eigenvalues 1 ;;
  let a := (e0 - e1)%f64 in
  let b := (of_Z 2 * e0 + of_Z 4 * e1 - of_Z 2)%f64 in
  Ok [a; b].

(** ** The C library

    The rounded [sqrt], [log] and [x ** (1/3)] of positive numbers.  What
    they do outside that domain is written out in the wrappers below; the
    square root of zero is zero. *)

Class Libm : Type := {
  libm_sqrt : Q -> Q;
  libm_log : Q -> Q;
  libm_pow_third : Q -> Q
}.

(** [math.pi], the binary64 value nearest to pi. *)
Definition Qpi : Q := 884279719003555 # 281474976710656.
Definition math_pi : float64 := Fin Qpi.

Section Math.
Context {libm : Libm}.

(** [math.sqrt]: a negative argument is a domain error. *)
Definition math_sqrt (x : float64) : result float64 :=
  match x with
  | NaN => Ok NaN
  | PInf => Ok PInf
  | NInf => Raise ValueError
  | Fin q =>
      if Qis_zero q then Ok (Fin 0)
      else if Qsgn_neg q then Raise ValueError
      else Ok (Fin (libm_sqrt q))
  end.

(** [np.sqrt]: a negative argument gives NaN. *)
Definition np_sqrt (x : float64) : float64 :=
  match math_sqrt x with Ok y => y | Raise _ => NaN end.

(** [math.log]: zero and negative arguments are domain errors. *)
Definition math_log (x : float64) : result float64 :=
  match x with
  | NaN => Ok NaN
  | PInf => Ok PInf
  | NInf => Raise ValueError
  | Fin q =>
      if Qle_bool q 0 then Raise ValueError else Ok (Fin (libm_log q))
  end.

(** [x ** (1/3)] on a numpy scalar: a negative base gives NaN. *)
Definition np_power_third (x : float64) : float64 :=
  match x with
  | NaN => NaN
  | PInf | NInf => PInf
  | Fin q =>
      if Qis_zero q then Fin 0
      else if Qsgn_neg q then NaN
      else Fin (libm_pow_third q)
  end.

End Math.

(** ** Reductions over arrays and lists *)

Definition np_sum (l : list float64) : float64 := fold_left fadd l (Fin 0).

(** [np.maximum] and [np.minimum] of two values: NaN wins. *)
Definition np_maximum (a b : float64) : float64 :=
  if is_nan a || is_nan b then NaN else if (a <? b)%f64 then b else a.

Definition np_minimum (a b : float64) : float64 :=
  if is_nan a || is_nan b then NaN else if (b <? a)%f64 then b else a.

(** [np.max] and [np.min]: an empty array has no maximum. *)
Definition np_max (l : list float64) : result float64 :=
  match l with
  | [] => Raise ValueError
  | x :: l' => Ok (fold_left np_maximum l' x)
  end.

Definition np_min (l : list float64) : result float64 :=
  match l with
  | [] => Raise ValueError
  | x :: l' => Ok (fold_left np_minimum l' x)
  end.

(** [np.ptp]: the range, maximum minus minimum. *)
Definition np_ptp (l : list float64) : result float64 :=
  hi <- np_max l ;; lo <- np_min l ;; Ok (hi - lo)%f64.

(** Python's [max] of a list: the first of the largest items, where an item
    replaces the current one only if it compares greater. *)
Definition py_max (l : list float64) : result float64 :=
  match l with
  | [] => Raise ValueError
  | x :: l' => Ok (fold_left (fun cur y => if (cur <? y)%f64 then y else cur) l' x)
  end.

Definition np_mean (l : list float64) : float64 :=
  (np_sum l / of_nat (length l))%f64.

Section Std.
Context {libm : Libm}.

(** [np.std]: the population standard deviation. *)
Definition np_std (l : list float64) : float64 :=
  let m := np_mean l in
  np_sqrt (np_mean (map (fun x => square (x - m)) l)).

(** The [std] of a pandas aggregation: NaN values are left out, and the
    sum of squares is divided by one less than the number of values; fewer
    than two values have no deviation. *)
Definition pd_std (l : list float64) : float64 :=
  let v := filter (fun x => negb (is_nan x)) l in
  if (length v <=? 1)%nat then NaN
  else
    let m := np_mean v in
    np_sqrt (np_sum (map (fun x => square (x - m)) v) / of_nat (length v - 1)).

End Std.

(** ** Normalisation of a sample *)

(** Column [j] of a 2D array. *)
Definition column (sample : list (list float64)) (j : nat) : list float64 :=
  map (fun row => nth j row NaN) sample.

Section Normalization.
Context {libm : Libm}.

(** [(sample - sample.mean(axis=0)) / sample.std(axis=0)]: the means and
    the deviations of the columns, and every row less the means, over the
    deviations. *)
Definition standard_normalization (sample : list (list float64))
  : list (list float64) :=
  let n_columns := length (hd [] sample) in
  let mean := map (fun j => np_mean (column sample j)) (seq 0 n_columns) in
  let std := map (fun j => np_std (column sample j)) (seq 0 n_columns) in
  map (fun row =>
         map (fun t => match t with (x, m, s) => ((x - m) / s)%f64 end)
             (combine (combine row mean) std))
      sample.

End Normalization.

(** ** Local descriptors *)

Section Descriptors.
Context {libm : Libm}.

Definition compute_3D_properties (z_neighbors distances : list float64)
  : result (list float64) :=
  radius <- np_max distances ;;
  z_range <- np_ptp z_neighbors ;;
  let std_deviation := np_std z_neighbors in
  let density :=
    (of_nat (length distances + 1)
     / (Fin (4 # 3) * math_pi * cube radius))%f64 in
  let verticality := NaN in
  Ok [radius; z_range; std_deviation; density; verticality].

Definition compute_3D_features (lbda : list float64) : result (list float64) :=
  let e := normalize_over_1 lbda in
  e2 <- getitem e 2 ;;
  e0 <- getitem e 0 ;;
  e1 <- getitem e 1 ;;
  let curvature_change := e2 in
  let linearity := ((e0 - e1) / e0)%f64 in
  let planarity := ((e1 - e2) / e0)%f64 in
  let scattering := (e2 / e0)%f64 in
  let omnivariance := np_power_third (e0 * e1 * e2) in
  let anisotropy := ((e0 - e2) / e0)%f64 in
  terms <- mapM (fun i => l <- math_log i ;; Ok (i * l)%f64) e ;;
  let eigenentropy := (of_Z (-1) * np_sum terms)%f64 in
  let eigenvalue_sum := np_sum lbda in
  Ok [curvature_change; linearity; planarity; scattering;
      omnivariance; anisotropy; eigenentropy; eigenvalue_sum].

(** The planar distance from [point] to the neighbor [(x, y)]. *)
Definition planar_distance (point : list float64) (x y : float64)
  : result float64 :=
  px <- getitem point 0 ;;
  py <- getitem point 1 ;;
  math_sqrt (square (x - px) + square (y - py)).

Definition compute_2D_properties (point : list float64)
  (neighbors : list (list float64)) : result (list float64) :=
  xs <- mapM (fun row => getitem row 0) neighbors ;;
  ys <- mapM (fun row => getitem row 1) neighbors ;;
  distances <- mapM (fun xy => planar_distance point (fst xy) (snd xy))
                    (combine xs ys) ;;
  radius_2D <- py_max distances ;;
  density_2D <- py_div (of_nat (length distances + 1))
                       (math_pi * square radius_2D) ;;
  Ok [radius_2D; density_2D].

Definition compute_2D_features (lbda : list float64) : result (list float64) :=
  let eigenvalues_sum_2D := py_sum lbda in
  l0 <- getitem lbda 0 ;;
  l1 <- getitem lbda 1 ;;
  let eigenvalues_ratio_2D := (l0 / l1)%f64 in
  Ok [eigenvalues_sum_2D; eigenvalues_ratio_2D].

End Descriptors.

(** ** The accumulation grid *)

(** [np.arange(start, stop, step)]: [ceil((stop - start) / step)] values
    [start + i * step]. *)
Definition np_arange (start stop step : float64) : result (list float64) :=
  match start, stop, step with
  | Fin a, Fin b, Fin s =>
      if Qis_zero s then Raise ZeroDivisionError
      else
        let n := Z.to_nat (Qceiling ((b - a) / s)) in
        Ok (map (fun i => (start + of_nat i * step)%f64) (seq 0 n))
  | _, _, _ => Raise ValueError
  end.

(** [bins.searchsorted(x, side="right")] on increasing bins: the number of
    edges that are at most [x]. *)
Definition searchsorted_right (bins : list float64) (x : float64) : nat :=
  length (filter (fun b => (b <=? x)%f64) bins).

Fixpoint increasing (bins : list float64) : bool :=
  match bins with
  | a :: (b :: _) as rest => (a <? b)%f64 && increasing rest
  | _ => true
  end.

(** The interval [pd.cut(..., right=False)] puts [x] in: interval [i] is
    [[bins[i], bins[i+1])]; a value outside every interval has none. *)
Definition cut_interval (bins : list float64) (x : float64) : option nat :=
  let ids := searchsorted_right bins x in
  if is_nan x || (ids =? 0)%nat || (ids =? length bins)%nat then None
  else Some (ids - 1)%nat.

(** [pd.cut(xs, bins, right=False)]: the edges must increase. *)
Definition pd_cut (xs bins : list float64) : result (list (option nat)) :=
  if increasing bins then Ok (map (cut_interval bins) xs)
  else Raise ValueError.

(** A row of [df]: the coordinates and the two interval columns. *)
Record binned_point : Type := {
  bp_x : float64;
  bp_y : float64;
  bp_z : float64;
  bp_xbin : option nat;
  bp_ybin : option nat
}.

Definition cell : Type := (nat * nat)%type.

Definition cell_eqb (c d : cell) : bool :=
  (fst c =? fst d)%nat && (snd c =? snd d)%nat.

(** The group key of a row; a row with a missing interval has none and is
    left out of every group. *)
Definition bp_cell (r : binned_point) : option cell :=
  match bp_xbin r, bp_ybin r with
  | Some i, Some j => Some (i, j)
  | _, _ => None
  end.

Definition in_cell (c : cell) (r : binned_point) : bool :=
  match bp_cell r with
  | Some d => cell_eqb c d
  | None => false
  end.

(** A row of [aggdf]. *)
Record cell_stats : Type := {
  cs_cell : cell;
  cs_count : nat;
  cs_std : float64;
  cs_z_range : float64
}.

(** The [min] and [max] of a pandas aggregation: NaN values are left out,
    and a group with no value has NaN. *)
Definition pd_min (l : list float64) : float64 :=
  match np_min (filter (fun x => negb (is_nan x)) l) with
  | Ok m => m
  | Raise _ => NaN
  end.

Definition pd_max (l : list float64) : float64 :=
  match np_max (filter (fun x => negb (is_nan x)) l) with
  | Ok m => m
  | Raise _ => NaN
  end.

Definition pd_count (l : list float64) : nat :=
  length (filter (fun x => negb (is_nan x)) l).

(** A row of the returned table: columns x, y, z, count, std, z_range. *)
Record acc_row : Type := {
  col_x : float64;
  col_y : float64;
  col_z : float64;
  col_count : float64;
  col_std : float64;
  col_z_range : float64
}.

Definition xyz_of (r : acc_row) : list float64 := [col_x r; col_y r; col_z r].

Section Accumulation.
Context {libm : Libm}.

(** The pairs of intervals: the groups of the aggregation. *)
Definition grid_cells (nx ny : nat) : list cell :=
  list_prod (seq 0 nx) (seq 0 ny).

(** The aggregates [count], [std] and [max - min] of the z-coordinates of
    the rows of [df] that lie in the cell [c]. *)
Definition cell_statistics (df : list binned_point) (c : cell) : cell_stats :=
  let zs := map bp_z (filter (in_cell c) df) in
  {| cs_cell := c;
     cs_count := pd_count zs;
     cs_std := pd_std zs;
     cs_z_range := (pd_max zs - pd_min zs)%f64 |}.

(** [df.groupby(["xbin", "ybin"])["z"].agg(["count", "min", "max", "std"])]
    followed by the [z_range] column: one row per pair of intervals. *)
Definition groupby_agg (df : list binned_point) (nx ny : nat) : list cell_stats :=
  map (cell_statistics df) (grid_cells nx ny).

(** A row of [df] beside the row of [aggdf] that has its key, and beside
    missing values. *)
Definition with_stats (r : binned_point) (g : cell_stats) : acc_row :=
  {| col_x := bp_x r; col_y := bp_y r; col_z := bp_z r;
     col_count := of_nat (cs_count g);
     col_std := cs_std g;
     col_z_range := cs_z_range g |}.

Definition without_stats (r : binned_point) : acc_row :=
  {| col_x := bp_x r; col_y := bp_y r; col_z := bp_z r;
     col_count := NaN; col_std := NaN; col_z_range := NaN |}.

(** [df.merge(aggdf, on=["xbin", "ybin"], how="left")]: every row of [df],
    in order, once per row of [aggdf] with its key, and once with missing
    values when no row of [aggdf] has it. *)
Definition merge_left (df : list binned_point) (aggdf : list cell_stats)
  : list acc_row :=
  flat_map
    (fun r =>
       match filter (fun g => in_cell (cs_cell g) r) aggdf with
       | [] => [without_stats r]
       | gs => map (with_stats r) gs
       end)
    df.

(** The edges of the bins along one axis. *)
Definition axis_bins (lo hi bin_size buf : float64) : result (list float64) :=
  np_arange lo (hi + bin_size + buf) bin_size.

(** [df] once it has its two interval columns, with the edges the
    intervals were cut at. *)
Record binning : Type := {
  binned : list binned_point;
  xbins : list float64;
  ybins : list float64
}.

(** The number of intervals between the edges. *)
Definition intervals (bins : list float64) : nat := (length bins - 1)%nat.

(** The first half of [build_accumulation_features], down to the second
    [pd.cut]. *)
Definition bin_points (point_cloud : list (list float64))
  (bin_size buf : float64) : result binning :=
  assert (forallb (fun row => (length row =? 3)%nat) point_cloud) ;;;
  xs <- mapM (fun row => getitem row 0) point_cloud ;;
  ys <- mapM (fun row => getitem row 1) point_cloud ;;
  zs <- mapM (fun row => getitem row 2) point_cloud ;;
  xmin <- np_min xs ;;
  xmax <- np_max xs ;;
  ymin <- np_min ys ;;
  ymax <- np_max ys ;;
  xbins <- axis_bins xmin xmax bin_size buf ;;
  xbin <- pd_cut xs xbins ;;
  ybins <- axis_bins ymin ymax bin_size buf ;;
  ybin <- pd_cut ys ybins ;;
  let df :=
    map (fun t =>
           match t with
           | (x, y, z, i, j) =>
               {| bp_x := x; bp_y := y; bp_z := z; bp_xbin := i; bp_ybin := j |}
           end)
        (combine (combine (combine (combine xs ys) zs) xbin) ybin) in
  Ok {| binned := df; xbins := xbins; ybins := ybins |}.

(** The second half: the aggregation by cell and the merge. *)
Definition build_accumulation_features (point_cloud : list (list float64))
  (bin_size buf : float64) : result (list acc_row) :=
  b <- bin_points point_cloud bin_size buf ;;
  let df := binned b in
  let aggdf := groupby_agg df (intervals (xbins b)) (intervals (ybins b)) in
  Ok (merge_left df aggdf).

End Accumulation.

(** The defaults [bin_size=0.25] and [buf=1e-3]. *)
Definition default_bin_size : float64 := Fin (1 # 4).
Definition default_buf : float64 := Fin (1 # 1000).

(** The condition of the query, [x==@point_x & y==@point_y & z==@point_z],
    on a row of the table. *)
Definition same_point (point_x point_y point_z : float64) (r : acc_row) : bool :=
  (col_x r == point_x)%f64 && (col_y r == point_y)%f64 && (col_z r == point_z)%f64.

Definition retrieve_accumulation_features (point : list float64)
  (features : list acc_row) : result (list float64) :=
  match point with
  | [point_x; point_y; point_z] =>
      let point_features := filter (same_point point_x point_y point_z) features in
      assert (length point_features =? 1)%nat ;;;
      first <- getitem point_features 0 ;;
      let acc_density := col_count first in
      let z_range := col_z_range first in
      let z_std := col_std first in
      Ok [acc_density; z_range; z_std]
  | _ => Raise ValueError
  end.

(** How many rows of the table have the coordinates of the point. *)
Definition occurrences (point_x point_y point_z : float64)
  (features : list acc_row) : nat :=
  length (filter (same_point point_x point_y point_z) features).

(** ** The k-d tree and the PCA

    scikit-learn's two objects are parameters: what a query of the tree
    built on [data] answers for a point and a number of neighbors (the
    distances and the indices, nearest first), and the singular values of
    the PCA of a data set. *)

Class Sklearn : Type := {
  kd_tree_query : list (list float64) -> list float64 -> nat
                  -> list float64 * list nat;
  pca_singular_values : nat -> list (list float64) -> list float64
}.

(** A neighborhood: the dict with keys [distance] and [indices]. *)
Record neighborhood : Type := {
  distance : list float64;
  indices : list nat
}.

Section Pipeline.
Context {libm : Libm} {sk : Sklearn}.

(** [PCA(n_components=k).fit(data).singular_values_]: the data must be
    finite and have at least [k] samples and [k] columns. *)
Definition _pca (data : list (list float64)) (k : nat) : result (list float64) :=
  let n_samples := length data in
  let n_features := length (hd [] data) in
  if (k <=? Nat.min n_samples n_features)%nat
     && forallb (forallb is_finite) data
  then Ok (pca_singular_values k data)
  else Raise ValueError.

(** [kd_tree.query(np.expand_dims(point, 0), k)] on the tree built on
    [data]: asking for more neighbors than there are points is an error. *)
Definition KDTree_query (data : list (list float64)) (point : list float64)
  (k : nat) : result (list float64 * list nat) :=
  if (k <=? length data)%nat then Ok (kd_tree_query data point k)
  else Raise ValueError.

Definition build_neighborhood (point : list float64) (nb_neighbors : nat)
  (kd_tree : list (list float64)) : result neighborhood :=
  q <- KDTree_query kd_tree point nb_neighbors ;;
  Ok {| distance := fst q; indices := snd q |}.

(** [(rgb_data / 255).tolist()]. *)
Definition rgb_tolist (rgb_data : list float64) : list float64 :=
  map (fun c => (c / of_Z 255)%f64) rgb_data.

(** The body of the loop of [generate_features]: the row yielded for
    [point]. *)
Definition point_features (point_cloud : list (list float64))
  (nb_neighbors : nat) (acc_features : list acc_row)
  (kd_tree : list (list float64)) (point : list float64)
  : result (list float64) :=
  let xyz_data := firstn 3 point in
  let rgb_data := skipn 3 point in
  nbh <- build_neighborhood xyz_data nb_neighbors kd_tree ;;
  rows <- mapM (fun i => getitem point_cloud i) (indices nbh) ;;
  let neighbors := map (firstn 3) rows in
  lbda_3D <- _pca neighbors 3 ;;
  lbda_2D <- _pca (map (firstn 2) neighbors) 2 ;;
  f_bary <- features3d lbda_3D ;;
  z <- getitem xyz_data 2 ;;
  z_neighbors <- mapM (fun row => getitem row 2) neighbors ;;
  f_prop3 <- compute_3D_properties z_neighbors (distance nbh) ;;
  f_feat3 <- compute_3D_features lbda_3D ;;
  f_prop2 <- compute_2D_properties (firstn 2 xyz_data) (map (firstn 2) neighbors) ;;
  f_feat2 <- compute_2D_features lbda_2D ;;
  f_acc <- retrieve_accumulation_features xyz_data acc_features ;;
  Ok (f_bary ++ [z] ++ f_prop3 ++ f_feat3 ++ f_prop2 ++ f_feat2 ++ f_acc
      ++ rgb_tolist rgb_data).

(** What a generator has produced when it stops: the rows it yielded and
    the exception that ended it, if one did. *)
Definition stream : Type := (list (list float64) * option exn)%type.

Fixpoint yield_all (f : list float64 -> result (list float64))
  (sample : list (result (list float64))) : stream :=
  match sample with
  | [] => ([], None)
  | p :: rest =>
      match (point <- p ;; f point) with
      | Raise e => ([], Some e)
      | Ok row => let s := yield_all f rest in (row :: fst s, snd s)
      end
  end.

End Pipeline.

(** ** The random generator

    numpy's global generator: a state, and the draw of [size] distinct
    indices below [n] that [np.random.choice(np.arange(n), size,
    replace=False)] makes from it. *)

Class NumpyRandom : Type := {
  rng_state : Type;
  random_choice : rng_state -> nat -> nat -> list nat * rng_state
}.

Section Generate.
Context {libm : Libm} {sk : Sklearn} {rng : NumpyRandom}.

(** The indices of the points to process, and the state the generator is
    left in. *)
Definition sample_mask (n : nat) (nb_points : option nat) (st : rng_state)
  : result (list nat) * rng_state :=
  match nb_points with
  | None => (Ok (seq 0 n), st)
  | Some size =>
      if (size <=? n)%nat
      then let d := random_choice st n size in (Ok (fst d), snd d)
      else (Raise ValueError, st)
  end.

Definition generate_features (point_cloud : list (list float64))
  (nb_neighbors : nat) (nb_points : option nat) (st : rng_state)
  : stream * rng_state :=
  match build_accumulation_features (map (firstn 3) point_cloud)
          default_bin_size default_buf with
  | Raise e => (([], Some e), st)
  | Ok acc_features =>
      match sample_mask (length point_cloud) nb_points st with
      | (Raise e, st') => (([], Some e), st')
      | (Ok mask, st') =>
          let sample := map (fun idx => getitem point_cloud idx) mask in
          let kd_tree := map (firstn 3) point_cloud in
          (yield_all (point_features point_cloud nb_neighbors acc_features kd_tree)
                     sample, st')
      end
  end.

End Generate.

(** ** The request of the specification's resolver

    The specification describes the neighborhood resolver as called with an
    optional neighbor count and an optional radius.  [build_neighborhood]
    has the parameters [(point, nb_neighbors, kd_tree)]: Python binds a
    call's arguments to them before the body runs, and raises [TypeError]
    for an argument no parameter takes ([radius]) and for a parameter left
    without a value ([nb_neighbors] has no default). *)

Section Resolve.
Context {sk : Sklearn}.

Definition call_build_neighborhood (point : list float64)
  (neighbor_count : option nat) (radius : option float64)
  (kd_tree : list (list float64)) : result neighborhood :=
  match radius with
  | Some _ => Raise TypeError
  | None =>
      match neighbor_count with
      | None => Raise TypeError
      | Some nb_neighbors => build_neighborhood point nb_neighbors kd_tree
      end
  end.

End Resolve.

(** ** Instances to run the model on

    A rounded-down C library, an exhaustive nearest-neighbor search, the
    singular values of data whose principal axes are the coordinate axes,
    and a generator that deals consecutive indices. *)

(** The largest [r] with [r ^ 3 <= n], by bisection on [[lo, hi)]. *)
Fixpoint icbrt_between (fuel : nat) (n lo hi : Z) : Z :=
  match fuel with
  | O => lo
  | S fuel' =>
      let mid := ((lo + hi) / 2)%Z in
      if (mid * mid * mid <=? n)%Z
      then icbrt_between fuel' n mid hi
      else icbrt_between fuel' n lo mid
  end.

Definition icbrt (n : Z) : Z :=
  icbrt_between (S (Z.to_nat (Z.log2_up (n + 1)))) n 0 (n + 1).

Definition scale_bits : Z := 30.

(** The square root of [q], rounded down to a multiple of
    [1 / (Qden q * 2 ^ scale_bits)]. *)
Definition Qsqrt_down (q : Q) : Q :=
  let d := Zpos (Qden q) in
  let s := (2 ^ scale_bits)%Z in
  Qred (Qmake (Z.sqrt (Qnum q * d * s * s)) (Qden q * Z.to_pos s)).

Definition Qcbrt_down (q : Q) : Q :=
  let d := Zpos (Qden q) in
  let s := (2 ^ scale_bits)%Z in
  Qred (Qmake (icbrt (Qnum q * d * d * s * s * s)) (Qden q * Z.to_pos s)).

(** The logarithm by the first terms of [2 * atanh ((q - 1) / (q + 1))]. *)
Definition Qlog_series (q : Q) : Q :=
  let t := ((q - 1) / (q + 1))%Q in
  let t2 := (t * t)%Q in
  Qred (2 * t * (1 + t2 * ((1 # 3) + t2 * ((1 # 5) + t2 * (1 # 7)))))%Q.

Definition rounding_libm : Libm := {|
  libm_sqrt := Qsqrt_down;
  libm_log := Qlog_series;
  libm_pow_third := Qcbrt_down
|}.

Definition squared_distance (p q : list float64) : float64 :=
  np_sum (map (fun ab => square (fst ab - snd ab)) (combine p q)).

(** Insertion of a point into a list ordered by squared distance; among
    equal distances the earlier point stays first. *)
Fixpoint insert_by_distance (e : float64 * nat) (l : list (float64 * nat))
  : list (float64 * nat) :=
  match l with
  | [] => [e]
  | h :: t =>
      if (fst e <? fst h)%f64 then e :: l else h :: insert_by_distance e t
  end.

Definition nearest_first (data : list (list float64)) (point : list float64)
  : list (float64 * nat) :=
  fold_left (fun acc e => insert_by_distance e acc)
            (combine (map (squared_distance point) data) (seq 0 (length data)))
            [].

Definition exhaustive_query (data : list (list float64))
  (point : list float64) (k : nat) : list float64 * list nat :=
  let best := firstn k (nearest_first data point) in
  (map (fun e => @np_sqrt rounding_libm (fst e)) best, map snd best).

(** Column [j] of the data, centred on its mean. *)
Definition centred_column (data : list (list float64)) (j : nat) : list float64 :=
  let c := map (fun row => nth j row NaN) data in
  map (fun x => (x - np_mean c)%f64) c.

Definition dot (u v : list float64) : float64 :=
  np_sum (map (fun ab => (fst ab * snd ab)%f64) (combine u v)).

(** The norms of the centred columns: the singular values of data whose
    centred columns are orthogonal and come by decreasing norm. *)
Definition axis_singular_values (k : nat) (data : list (list float64))
  : list float64 :=
  map (fun j => let c := centred_column data j in
                canon (@np_sqrt rounding_libm (dot c c)))
      (seq 0 k).

Definition exhaustive_sklearn : Sklearn := {|
  kd_tree_query := exhaustive_query;
  pca_singular_values := axis_singular_values
|}.

(** A generator whose state is a position: it deals the [size] indices
    that follow it, modulo [n]. *)
Definition dealing_rng : NumpyRandom := {|
  rng_state := nat;
  random_choice := fun st n size =>
    (map (fun i => (st + i) mod n)%nat (seq 0 size), (st + size)%nat)
|}.

Definition point_of (coords : list Z) : list float64 := map of_Z coords.

(** Four points, the corners of a tetrahedron whose centred coordinate
    columns are orthogonal with norms 8, 4 and 2. *)
Definition tetrahedron : list (list float64) :=
  map point_of [[4; 2; 1]; [4; -2; -1]; [-4; 2; -1]; [-4; -2; 1]]%Z.

(** The same points with one extra channel each. *)
Definition tetrahedron_grey : list (list float64) :=
  map point_of [[4; 2; 1; 255]; [4; -2; -1; 51];
                [-4; 2; -1; 0]; [-4; -2; 1; 102]]%Z.

Definition run_all (point_cloud : list (list float64)) (nb_neighbors : nat)
  : stream :=
  fst (@generate_features rounding_libm exhaustive_sklearn dealing_rng
         point_cloud nb_neighbors None 0%nat).

(** A square in the plane z = 0: its third singular value is zero. *)
Definition flat_square : list (list float64) :=
  map point_of [[2; 1; 0]; [2; -1; 0]; [-2; 1; 0]; [-2; -1; 0]]%Z.

(** ** The kernel's binary64

    The tables of the operations above can be compared with IEEE 754
    arithmetic itself, on values that binary64 represents exactly: a
    rational is sent to the quotient of its numerator and its denominator,
    and a binary64 value back to the rational it stands for. *)

Definition Z_to_binary64 (z : Z) : PrimFloat.float :=
  if (z <? 0)%Z
  then PrimFloat.opp (PrimFloat.of_uint63 (Uint63Axioms.of_Z (- z)))
  else PrimFloat.of_uint63 (Uint63Axioms.of_Z z).

Definition to_binary64 (x : float64) : PrimFloat.float :=
  match x with
  | Fin q => PrimFloat.div (Z_to_binary64 (Qnum q)) (Z_to_binary64 (Zpos (Qden q)))
  | PInf => PrimFloat.infinity
  | NInf => PrimFloat.neg_infinity
  | NaN => PrimFloat.nan
  end.

Definition of_binary64 (f : PrimFloat.float) : float64 :=
  match FloatOps.Prim2SF f with
  | SpecFloat.S754_zero _ => Fin 0
  | SpecFloat.S754_infinity negative => if negative then NInf else PInf
  | SpecFloat.S754_nan => NaN
  | SpecFloat.S754_finite negative m e =>
      let scale :=
        if (0 <=? e)%Z then inject_Z (2 ^ e) else (/ inject_Z (2 ^ (- e)))%Q in
      let v := (inject_Z (Zpos m) * scale)%Q in
      Fin (Qred (if negative then - v else v))
  end.

(** The same value, NaN included. *)
Definition same_value (x y : float64) : bool :=
  match x, y with
  | Fin p, Fin q => Qeq_bool p q
  | PInf, PInf | NInf, NInf | NaN, NaN => true
  | _, _ => false
  end.

(** Zero, numbers of both signs whose sums, products and quotients are
    exact, the infinities and NaN. *)
Definition ieee_samples : list float64 :=
  [Fin 0; Fin 1; Fin (-2); Fin (1 # 2); Fin 4; Fin (- (1 # 4)); PInf; NInf; NaN].

Definition agrees_with (op : float64 -> float64 -> float64)
  (ieee : PrimFloat.float -> PrimFloat.float -> PrimFloat.float) : bool :=
  forallb (fun ab =>
             same_value (op (fst ab) (snd ab))
               (of_binary64 (ieee (to_binary64 (fst ab)) (to_binary64 (snd ab)))))
          (list_prod ieee_samples ieee_samples).

(** Squares, a negative number and the special values. *)
Definition sqrt_samples : list float64 :=
  [Fin 0; Fin 1; Fin 4; Fin (1 # 4); Fin (-2); PInf; NInf; NaN].

Definition compares_like (op : float64 -> float64 -> bool)
  (ieee : PrimFloat.float -> PrimFloat.float -> bool) : bool :=
  forallb (fun ab =>
             Bool.eqb (op (fst ab) (snd ab))
                      (ieee (to_binary64 (fst ab)) (to_binary64 (snd ab))))
          (list_prod ieee_samples ieee_samples).

(** ** The words of the specification *)

(** The largest and the smallest item of a list. *)
Definition is_max_of (m : float64) (l : list float64) : Prop :=
  In m l /\ forall x, In x l -> (x <=? m)%f64 = true.

Definition is_min_of (m : float64) (l : list float64) : Prop :=
  In m l /\ forall x, In x l -> (m <=? x)%f64 = true.

(** The densities as the specification writes them. *)
Definition spec_density (neighbor_count : nat) (radius : Q) : Q :=
  ((inject_Z (Z.of_nat neighbor_count) + 1)
   / ((4 # 3) * Qpi * (radius * radius * radius)))%Q.

Definition spec_density_2D (neighbor_count : nat) (radius_2D : Q) : Q :=
  ((inject_Z (Z.of_nat neighbor_count) + 1)
   / (Qpi * (radius_2D * radius_2D)))%Q.

(** Lists of finite values: they are the lists [map Fin qs]. *)
Definition all_finite (l : list float64) : bool := forallb is_finite l.

Section SpecDistance.
Context {libm : Libm}.

(** The rounded square root of a rational that is not negative. *)
Definition Qsqrt (s : Q) : Q := if Qis_zero s then 0%Q else libm_sqrt s.

(** The planar distance from the point [(px, py)] to [(x, y)]. *)
Definition spec_planar_distance (px py x y : Q) : Q :=
  Qsqrt ((x - px) * (x - px) + (y - py) * (y - py)).

End SpecDistance.

(** Finite rows of two and of three columns. *)
Definition row2 (p : Q * Q) : list float64 := [Fin (fst p); Fin (snd p)].

Definition row3 (p : Q * Q * Q) : list float64 :=
  match p with (x, y, z) => [Fin x; Fin y; Fin z] end.

(** Edge [i] of the bins that start at [lo]. *)
Definition edge (lo bin_size : Q) (i : nat) : Q :=
  (lo + inject_Z (Z.of_nat i) * bin_size)%Q.

(** [x] lies in interval [i]: at or above its left edge, below its right
    edge. *)
Definition in_bin (lo bin_size : Q) (i : nat) (x : Q) : Prop :=
  (edge lo bin_size i <= x)%Q /\ (x < edge lo bin_size (S i))%Q.

Definition qx (p : Q * Q * Q) : Q := fst (fst p).
Definition qy (p : Q * Q * Q) : Q := snd (fst p).
Definition qz (p : Q * Q * Q) : Q := snd p.

(** Two finite points at the same place. *)
Definition same_place (p q : Q * Q * Q) : Prop :=
  (qx p == qx q)%Q /\ (qy p == qy q)%Q /\ (qz p == qz q)%Q.

(** The edges [np.arange] lays from [lo] to beyond [hi]. *)
Definition edges (lo hi bin_size buf : Q) : list float64 :=
  map (fun i => Fin (edge lo bin_size i))
      (seq 0 (Z.to_nat (Qceiling ((hi + bin_size + buf - lo) / bin_size)))).

(** The row of [df] for a finite point, its intervals cut at the edges
    [xb] and [yb]. *)
Definition binned_of (xb yb : list float64) (p : Q * Q * Q) : binned_point :=
  {| bp_x := Fin (qx p); bp_y := Fin (qy p); bp_z := Fin (qz p);
     bp_xbin := cut_interval xb (Fin (qx p));
     bp_ybin := cut_interval yb (Fin (qy p)) |}.

(** A point with finite coordinates followed by its extra channels. *)
Definition with_extras (p : (Q * Q * Q) * list float64) : list float64 :=
  row3 (fst p) ++ snd p.

(** Finite clouds to run the model on. *)
Definition tetrahedron_points : list (Q * Q * Q) :=
  [(4, 2, 1); (4, -2, -1); (-4, 2, -1); (-4, -2, 1)]%Q.


Definition no_extras (pts : list (Q * Q * Q)) : list ((Q * Q * Q) * list float64) :=
  map (fun p => (p, [])) pts.

(** Two runs on a sample of one point, one after the other. *)
Definition first_run : stream * nat :=
  @generate_features rounding_libm exhaustive_sklearn dealing_rng
     tetrahedron 4 (Some 1%nat) 0%nat.

Definition second_run : stream * nat :=
  @generate_features rounding_libm exhaustive_sklearn dealing_rng
     tetrahedron 4 (Some 1%nat) (snd first_run).

(** ** Assumptions and words of the further properties *)

(** The sum of a list of rationals. *)
Definition Qsum (qs : list Q) : Q := fold_right Qplus 0%Q qs.

(** A C library whose square root of a positive number is positive. *)
Definition sqrt_positive (libm : Libm) : Prop :=
  forall q : Q, (0 < q)%Q -> (0 < libm_sqrt q)%Q.

(** Two finite points of the plane at the same place. *)
Definition same_xy (px py : Q) (p : Q * Q) : Prop :=
  (fst p == px)%Q /\ (snd p == py)%Q.

(** A 2D array of finite values. *)
Definition array_of (rows : list (list Q)) : list (list float64) :=
  map (map Fin) rows.

(** Column [j] of its rows. *)
Definition Qcolumn (rows : list (list Q)) (j : nat) : list Q :=
  map (fun r => nth j r 0%Q) rows.


(** A k-d tree that answers a query for [k] neighbors, on data of [k]
    points at least, with [k] indices of points of the data. *)
Definition answers_k_neighbors (sk : Sklearn) : Prop :=
  forall (data : list (list float64)) (point : list float64) (k : nat),
    (k <= length data)%nat ->
    length (snd (kd_tree_query data point k)) = k
    /\ Forall (fun i => (i < length data)%nat) (snd (kd_tree_query data point k)).

(** ** The cells, the places and the magnitudes

    The words of the properties that are stated for exact arithmetic:
    the points of a cell, the statistics a row carries, the places of
    the points, and the magnitudes binary64 keeps apart. *)



Section SpecStatistics.
Context {libm : Libm}.


End SpecStatistics.








(** Magnitudes whose squares, cubes and sums of three binary64 represents
    as normal numbers: from 2^-300 to 2^300. *)
Definition tiny : Q := 1 # (2 ^ 300).
Definition huge : Q := inject_Z (2 ^ 300).

Definition in_binary64_range (q : Q) : Prop := (tiny <= q)%Q /\ (q <= huge)%Q.

(** The offsets of the neighbors from the point are in that range: none
    is beyond 2^300, and one of them is 2^-300 at least. *)
Definition offsets_in_binary64_range (px py : Q) (pts : list (Q * Q)) : Prop :=
  (forall p, In p pts ->
     (Qabs (fst p - px) <= huge)%Q /\ (Qabs (snd p - py) <= huge)%Q)
  /\ exists p, In p pts
       /\ ((tiny <= Qabs (fst p - px))%Q \/ (tiny <= Qabs (snd p - py))%Q).

(** The powers of two in binary64, and the product as binary64 rounds
    it. *)
Definition binary64_pow2 (e : Z) : PrimFloat.float :=
  FloatOps.Z.ldexp (to_binary64 (Fin 1)) e.

Definition binary64_square (x : PrimFloat.float) : float64 :=
  of_binary64 (PrimFloat.mul x x).



(** * Properties *)

(** ** Comparisons of finite values *)

Lemma Qle_bool_true (p q : Q) : Qle_bool p q = true <-> (p <= q)%Q.
Proof. apply Qle_bool_iff. Qed.

Lemma Qle_bool_false (p q : Q) : Qle_bool p q = false <-> (q < p)%Q.
Proof.
  split; intro H.
  - apply Qnot_le_lt. intro A. apply Qle_bool_iff in A. congruence.
  - destruct (Qle_bool p q) eqn:E; [|reflexivity].
    apply Qle_bool_iff in E. lra.
Qed.

Lemma Qeq_bool_true (p q : Q) : Qeq_bool p q = true <-> (p == q)%Q.
Proof. apply Qeq_bool_iff. Qed.

Lemma Qeq_bool_false (p q : Q) : Qeq_bool p q = false <-> ~ (p == q)%Q.
Proof.
  split; intro H.
  - intro A. apply Qeq_bool_iff in A. congruence.
  - destruct (Qeq_bool p q) eqn:E; [|reflexivity].
    apply Qeq_bool_iff in E. contradiction.
Qed.

Lemma Qis_zero_true (q : Q) : Qis_zero q = true <-> (q == 0)%Q.
Proof. apply Qeq_bool_true. Qed.

Lemma Qis_zero_false (q : Q) : Qis_zero q = false <-> ~ (q == 0)%Q.
Proof. apply Qeq_bool_false. Qed.

Lemma Qsgn_neg_true (q : Q) : Qsgn_neg q = true <-> (q < 0)%Q.
Proof.
  unfold Qsgn_neg. rewrite andb_true_iff, negb_true_iff, Qle_bool_true, Qeq_bool_false.
  split; [intros [A B] | intro A; split]; lra.
Qed.

Lemma Qsgn_neg_false (q : Q) : Qsgn_neg q = false <-> (0 <= q)%Q.
Proof.
  split; intro H.
  - apply Qnot_lt_le. intro A. apply Qsgn_neg_true in A. congruence.
  - destruct (Qsgn_neg q) eqn:E; [|reflexivity].
    apply Qsgn_neg_true in E. lra.
Qed.

Lemma fltb_Fin_true (p q : Q) : (Fin p <? Fin q)%f64 = true <-> (p < q)%Q.
Proof.
  unfold fltb. simpl. rewrite andb_true_iff, negb_true_iff, Qle_bool_true, Qeq_bool_false.
  split; [intros [A B] | intro A; split]; lra.
Qed.

Lemma fltb_Fin_false (p q : Q) : (Fin p <? Fin q)%f64 = false <-> (q <= p)%Q.
Proof.
  split; intro H.
  - apply Qnot_lt_le. intro A. apply fltb_Fin_true in A. congruence.
  - destruct (Fin p <? Fin q)%f64 eqn:E; [|reflexivity].
    apply fltb_Fin_true in E. lra.
Qed.

Lemma fleb_Fin_true (p q : Q) : (Fin p <=? Fin q)%f64 = true <-> (p <= q)%Q.
Proof. simpl. apply Qle_bool_true. Qed.

Lemma fleb_Fin_false (p q : Q) : (Fin p <=? Fin q)%f64 = false <-> (q < p)%Q.
Proof. simpl. apply Qle_bool_false. Qed.

(** ** The model at work *)

Example np_arange_quarters :
  np_arange (Fin 0) (Fin (9 # 10)) (Fin (1 # 4))
  = Ok (map Fin [0 + 0 * (1 # 4); 0 + 1 * (1 # 4); 0 + 2 * (1 # 4); 0 + 3 * (1 # 4)]%Q).
Proof. reflexivity. Qed.

(** A value on an edge belongs to the interval that starts there; a value
    on the last edge, or beyond it, or before the first edge, has none. *)
Example cut_interval_on_edges :
  let bins := map Fin [0; 1 # 4; 1 # 2]%Q in
  map (cut_interval bins) (map Fin [0; 1 # 8; 1 # 4; 3 # 8; 1 # 2; 1; -1]%Q)
  = [Some 0; Some 0; Some 1; Some 1; None; None; None]%nat.
Proof. reflexivity. Qed.

Example division_by_zero :
  (Fin 1 / Fin 0)%f64 = PInf
  /\ (Fin (-1) / Fin 0)%f64 = NInf
  /\ (Fin 0 / Fin 0)%f64 = NaN
  /\ py_div (Fin 1) (Fin 0) = Raise ZeroDivisionError.
Proof. repeat split. Qed.

(** On the samples, the four operations, the three comparisons and the
    square root are those of IEEE 754 binary64, special values included. *)
Example operations_agree_with_binary64 :
  map of_binary64 (map to_binary64 ieee_samples) = ieee_samples
  /\ agrees_with fadd PrimFloat.add = true
  /\ agrees_with fsub PrimFloat.sub = true
  /\ agrees_with fmul PrimFloat.mul = true
  /\ agrees_with np_div PrimFloat.div = true
  /\ compares_like feqb PrimFloat.eqb = true
  /\ compares_like fleb PrimFloat.leb = true
  /\ compares_like fltb PrimFloat.ltb = true
  /\ map (@np_sqrt rounding_libm) sqrt_samples
     = map (fun x => of_binary64 (PrimFloat.sqrt (to_binary64 x))) sqrt_samples.
Proof. repeat split; vm_compute; reflexivity. Qed.

(** The run over the tetrahedron: four rows of 23 columns and no
    exception; each point is alone in its cell, so its accumulation features
    are the count 1, the range 0 and no deviation. *)
Example run_over_the_tetrahedron :
  snd (run_all tetrahedron 4) = None
  /\ map (fun row => length row) (fst (run_all tetrahedron 4)) = [23; 23; 23; 23]%nat
  /\ map (fun row => map canon (skipn 20 row)) (fst (run_all tetrahedron 4))
     = [[Fin 1; Fin 0; NaN]; [Fin 1; Fin 0; NaN];
        [Fin 1; Fin 0; NaN]; [Fin 1; Fin 0; NaN]].
Proof. repeat split; vm_compute; reflexivity. Qed.

(** ** C1: barycentric coordinates *)

(** The centred coordinate columns of the tetrahedron are orthogonal, and
    their squared norms are 64, 16 and 4: its singular values are 8, 4
    and 2. *)
Example tetrahedron_axes :
  let c := centred_column tetrahedron in
  map canon [dot (c 0%nat) (c 1%nat); dot (c 0%nat) (c 2%nat); dot (c 1%nat) (c 2%nat)]
  = [Fin 0; Fin 0; Fin 0]
  /\ map canon [dot (c 0%nat) (c 0%nat); dot (c 1%nat) (c 1%nat); dot (c 2%nat) (c 2%nat)]
     = [Fin 64; Fin 16; Fin 4].
Proof. split; vm_compute; reflexivity. Qed.

(** C1.  [generate_features] hands [features3d] the singular values of the
    PCA as they are.  On the tetrahedron, with four neighbors, they are 8,
    4 and 2: every row starts with alpha = 4 and beta = 30, and
    alpha + beta <= 1 does not hold. *)
Theorem barycentric_sum_exceeds_one :
  axis_singular_values 3 tetrahedron = [Fin 8; Fin 4; Fin 2]
  /\ features3d [Fin 8; Fin 4; Fin 2] = Ok [Fin 4; Fin 30]
  /\ (Fin 4 + Fin 30 <=? Fin 1)%f64 = false
  /\ length (fst (run_all tetrahedron 4)) = 4%nat
  /\ Forall (fun row => firstn 2 row = [Fin 4; Fin 30])
            (fst (run_all tetrahedron 4)).
Proof.
  repeat split; try (vm_compute; reflexivity).
  vm_compute. repeat constructor.
Qed.

(** On eigenvalues that sum to one, as the docstring of [features3d] asks
    for, the third barycentric coordinate is three times the smallest
    eigenvalue, so alpha + beta <= 1. *)
Lemma features3d_normalized (e0 e1 e2 : Q) :
  (e0 + e1 + e2 == 1)%Q -> (0 <= e2)%Q ->
  exists a b : Q,
    features3d [Fin e0; Fin e1; Fin e2] = Ok [Fin a; Fin b]
    /\ (1 - a - b == 3 * e2)%Q
    /\ (Fin a + Fin b <=? Fin 1)%f64 = true.
Proof.
  intros Hsum Hpos.
  eexists. eexists. split; [reflexivity|].
  split.
  - unfold inject_Z. lra.
  - apply fleb_Fin_true. unfold inject_Z. lra.
Qed.

(** The eigenvalues 4/7, 2/7 and 1/7 of the tetrahedron, once normalised. *)
Lemma features3d_normalized_witness :
  exists a b : Q,
    features3d [Fin (4 # 7); Fin (2 # 7); Fin (1 # 7)] = Ok [Fin a; Fin b]
    /\ (1 - a - b == 3 * (1 # 7))%Q
    /\ (Fin a + Fin b <=? Fin 1)%f64 = true.
Proof.
  apply (features3d_normalized (4 # 7) (2 # 7) (1 # 7));
    [reflexivity | discriminate].
Defined.

(** ** C2: degenerate neighborhoods *)

Section Degenerate.
Context {libm : Libm}.

(** A zero eigenvalue beside a positive one: the comprehension of the
    eigenentropy reaches [math.log(0.0)] and the function raises. *)
Lemma compute_3D_features_zero_eigenvalue (a b c : Q) :
  (0 < a)%Q -> (0 <= b)%Q -> (c == 0)%Q ->
  compute_3D_features [Fin a; Fin b; Fin c] = Raise ValueError.
Proof.
  intros Ha Hb Hc.
  unfold compute_3D_features, normalize_over_1, py_sum. simpl.
  assert (Hs : ~ (inject_Z 0 + a + b + c == 0)%Q) by (unfold inject_Z; lra).
  apply Qis_zero_false in Hs. rewrite Hs. simpl.
  assert (Hsum : (0 < inject_Z 0 + a + b + c)%Q) by (unfold inject_Z; lra).
  assert (Ea : Qle_bool (a / (inject_Z 0 + a + b + c)) 0 = false).
  { apply Qle_bool_false. apply Qlt_shift_div_l; lra. }
  rewrite Ea. simpl.
  destruct (Qle_bool (b / (inject_Z 0 + a + b + c)) 0); [reflexivity|]. simpl.
  assert (Ec : Qle_bool (c / (inject_Z 0 + a + b + c)) 0 = true).
  { apply Qle_bool_true. apply Qle_shift_div_r; lra. }
  rewrite Ec. reflexivity.
Qed.

Lemma compute_3D_features_all_zero (a b c : Q) :
  (a == 0)%Q -> (b == 0)%Q -> (c == 0)%Q ->
  compute_3D_features [Fin a; Fin b; Fin c]
  = Ok [NaN; NaN; NaN; NaN; NaN; NaN; NaN; Fin (0 + a + b + c)].
Proof.
  intros Ha Hb Hc.
  unfold compute_3D_features, normalize_over_1, py_sum. simpl.
  assert (Hs : (inject_Z 0 + a + b + c == 0)%Q) by (unfold inject_Z; lra).
  apply Qis_zero_true in Hs. rewrite Hs.
  apply Qis_zero_true in Ha, Hb, Hc. rewrite Ha, Hb, Hc.
  reflexivity.
Qed.

Lemma compute_2D_features_total (l0 l1 : float64) :
  compute_2D_features [l0; l1] = Ok [py_sum [l0; l1]; (l0 / l1)%f64].
Proof. reflexivity. Qed.

Lemma compute_2D_features_zero_divisor (p q : Q) :
  (q == 0)%Q ->
  compute_2D_features [Fin p; Fin q]
  = Ok [Fin (0 + p + q);
        if Qis_zero p then NaN else if Qsgn_neg p then NInf else PInf].
Proof.
  intro Hq. unfold compute_2D_features. simpl.
  apply Qis_zero_true in Hq. rewrite Hq. reflexivity.
Qed.

End Degenerate.

(** The eigenvalues 4, 2 and 0 of the flat square. *)
Lemma compute_3D_features_zero_eigenvalue_witness :
  @compute_3D_features rounding_libm [Fin 4; Fin 2; Fin 0] = Raise ValueError.
Proof.
  apply (@compute_3D_features_zero_eigenvalue rounding_libm 4 2 0);
    [reflexivity | discriminate | reflexivity].
Defined.

(** C2, as the code has it.  When the three eigenvalues are zero,
    [compute_3D_features] returns NaN for its seven normalised descriptors
    and does not raise.  [compute_2D_features] does not raise on two
    eigenvalues; when the second one is zero its ratio is NaN if the first
    one is zero too, and an infinity otherwise. *)
Theorem degenerate_descriptors (libm : Libm) :
  (forall a b c : Q, (a == 0)%Q -> (b == 0)%Q -> (c == 0)%Q ->
     compute_3D_features [Fin a; Fin b; Fin c]
     = Ok [NaN; NaN; NaN; NaN; NaN; NaN; NaN; Fin (0 + a + b + c)])
  /\ (forall l0 l1 : float64,
        compute_2D_features [l0; l1] = Ok [py_sum [l0; l1]; (l0 / l1)%f64])
  /\ (forall p q : Q, (q == 0)%Q ->
        compute_2D_features [Fin p; Fin q]
        = Ok [Fin (0 + p + q);
              if Qis_zero p then NaN else if Qsgn_neg p then NInf else PInf]).
Proof.
  split; [|split].
  - apply compute_3D_features_all_zero.
  - apply compute_2D_features_total.
  - apply compute_2D_features_zero_divisor.
Qed.

(** All eigenvalues zero; a zero second eigenvalue after a zero and after a
    positive first one. *)
Lemma degenerate_descriptors_witness :
  @compute_3D_features rounding_libm [Fin 0; Fin 0; Fin 0]
  = Ok [NaN; NaN; NaN; NaN; NaN; NaN; NaN; Fin (0 + 0 + 0 + 0)]
  /\ compute_2D_features [Fin 0; Fin 0] = Ok [Fin (0 + 0 + 0); NaN]
  /\ compute_2D_features [Fin 3; Fin 0] = Ok [Fin (0 + 3 + 0); PInf].
Proof.
  destruct (degenerate_descriptors rounding_libm) as [A [_ C]].
  split; [|split].
  - apply A; reflexivity.
  - apply (C 0%Q 0%Q). reflexivity.
  - apply (C 3%Q 0%Q). reflexivity.
Defined.

(** C2, as stated, fails.  A zero eigenvalue beside nonzero ones makes
    [compute_3D_features] raise: no descriptor of the function comes out,
    and the run over a flat square yields no row at all.  And the ratio of
    [compute_2D_features] over a zero second eigenvalue is infinite, not
    NaN. *)
Lemma zero_eigenvalue_raises :
  @compute_3D_features rounding_libm [Fin 2; Fin 1; Fin 0] = Raise ValueError
  /\ axis_singular_values 3 flat_square = [Fin 4; Fin 2; Fin 0]
  /\ run_all flat_square 4 = ([], Some ValueError)
  /\ @compute_2D_features [Fin 4; Fin 0] = Ok [Fin 4; PInf].
Proof. repeat split; vm_compute; reflexivity. Qed.

(** ** Finite lists *)

Lemma all_finite_map_Fin (l : list float64) :
  all_finite l = true -> exists qs, l = map Fin qs.
Proof.
  induction l as [|x l IH]; simpl; intro H.
  - exists []. reflexivity.
  - apply andb_true_iff in H. destruct H as [Hx Hl].
    destruct (IH Hl) as [qs ->].
    destruct x as [q| | |]; try discriminate.
    exists (q :: qs). reflexivity.
Qed.

Lemma np_maximum_Fin (a b : Q) :
  np_maximum (Fin a) (Fin b) = Fin (if Qle_bool b a then a else b).
Proof.
  unfold np_maximum. simpl.
  destruct (Fin a <? Fin b)%f64 eqn:E.
  - apply fltb_Fin_true in E. assert (F : Qle_bool b a = false) by (apply Qle_bool_false; lra).
    rewrite F. reflexivity.
  - apply fltb_Fin_false in E. apply Qle_bool_true in E. rewrite E. reflexivity.
Qed.

Lemma np_minimum_Fin (a b : Q) :
  np_minimum (Fin a) (Fin b) = Fin (if Qle_bool a b then a else b).
Proof.
  unfold np_minimum. simpl.
  destruct (Fin b <? Fin a)%f64 eqn:E.
  - apply fltb_Fin_true in E. assert (F : Qle_bool a b = false) by (apply Qle_bool_false; lra).
    rewrite F. reflexivity.
  - apply fltb_Fin_false in E. apply Qle_bool_true in E. rewrite E. reflexivity.
Qed.

(** The running maximum of finite values is one of them and bounds them. *)
Lemma fold_maximum_Fin (qs : list Q) (a : Q) :
  exists m : Q,
    fold_left np_maximum (map Fin qs) (Fin a) = Fin m
    /\ In m (a :: qs)
    /\ (forall q, In q (a :: qs) -> (q <= m)%Q).
Proof.
  revert a. induction qs as [|b qs IH]; intro a; simpl.
  - exists a. split; [reflexivity|]. split; [now left|].
    intros q [<-|[]]. lra.
  - rewrite np_maximum_Fin.
    destruct (IH (if Qle_bool b a then a else b)) as [m [E [I B]]].
    exists m. split; [exact E|]. split.
    + destruct I as [I|I]; [|now right; right].
      destruct (Qle_bool b a); subst m; [now left | now right; left].
    + intros q Hq.
      assert (Hc : ((if Qle_bool b a then a else b) <= m)%Q) by (apply B; now left).
      destruct (Qle_bool b a) eqn:Eb.
      * apply Qle_bool_true in Eb.
        destruct Hq as [<-|[<-|Hq]]; [lra | lra | apply B; now right].
      * apply Qle_bool_false in Eb.
        destruct Hq as [<-|[<-|Hq]]; [lra | lra | apply B; now right].
Qed.

Lemma fold_minimum_Fin (qs : list Q) (a : Q) :
  exists m : Q,
    fold_left np_minimum (map Fin qs) (Fin a) = Fin m
    /\ In m (a :: qs)
    /\ (forall q, In q (a :: qs) -> (m <= q)%Q).
Proof.
  revert a. induction qs as [|b qs IH]; intro a; simpl.
  - exists a. split; [reflexivity|]. split; [now left|].
    intros q [<-|[]]. lra.
  - rewrite np_minimum_Fin.
    destruct (IH (if Qle_bool a b then a else b)) as [m [E [I B]]].
    exists m. split; [exact E|]. split.
    + destruct I as [I|I]; [|now right; right].
      destruct (Qle_bool a b); subst m; [now left | now right; left].
    + intros q Hq.
      assert (Hc : (m <= (if Qle_bool a b then a else b))%Q) by (apply B; now left).
      destruct (Qle_bool a b) eqn:Eb.
      * apply Qle_bool_true in Eb.
        destruct Hq as [<-|[<-|Hq]]; [lra | lra | apply B; now right].
      * apply Qle_bool_false in Eb.
        destruct Hq as [<-|[<-|Hq]]; [lra | lra | apply B; now right].
Qed.

Lemma np_max_Fin (qs : list Q) :
  qs <> [] ->
  exists m : Q,
    np_max (map Fin qs) = Ok (Fin m)
    /\ In m qs /\ (forall q, In q qs -> (q <= m)%Q).
Proof.
  destruct qs as [|a qs]; [congruence|]. intros _.
  destruct (fold_maximum_Fin qs a) as [m [E H]].
  exists m. simpl. rewrite E. split; [reflexivity | exact H].
Qed.

Lemma np_min_Fin (qs : list Q) :
  qs <> [] ->
  exists m : Q,
    np_min (map Fin qs) = Ok (Fin m)
    /\ In m qs /\ (forall q, In q qs -> (m <= q)%Q).
Proof.
  destruct qs as [|a qs]; [congruence|]. intros _.
  destruct (fold_minimum_Fin qs a) as [m [E H]].
  exists m. simpl. rewrite E. split; [reflexivity | exact H].
Qed.

Lemma py_max_np_max (qs : list Q) : py_max (map Fin qs) = np_max (map Fin qs).
Proof.
  destruct qs as [|a qs]; [reflexivity|]. simpl. f_equal.
  revert a. induction qs as [|b qs IH]; intro a; [reflexivity|].
  simpl. rewrite np_maximum_Fin.
  destruct (Fin a <? Fin b)%f64 eqn:E.
  - apply fltb_Fin_true in E. assert (F : Qle_bool b a = false) by (apply Qle_bool_false; lra).
    rewrite F. apply IH.
  - apply fltb_Fin_false in E. apply Qle_bool_true in E. rewrite E. apply IH.
Qed.

Lemma is_max_of_Fin (m : Q) (qs : list Q) :
  In m qs -> (forall q, In q qs -> (q <= m)%Q) -> is_max_of (Fin m) (map Fin qs).
Proof.
  intros I B. split.
  - apply in_map. exact I.
  - intros x Hx. apply in_map_iff in Hx. destruct Hx as [q [<- Hq]].
    apply fleb_Fin_true. apply B. exact Hq.
Qed.

Lemma is_min_of_Fin (m : Q) (qs : list Q) :
  In m qs -> (forall q, In q qs -> (m <= q)%Q) -> is_min_of (Fin m) (map Fin qs).
Proof.
  intros I B. split.
  - apply in_map. exact I.
  - intros x Hx. apply in_map_iff in Hx. destruct Hx as [q [<- Hq]].
    apply fleb_Fin_true. apply B. exact Hq.
Qed.

(** ** C8: verticality *)

Section Properties3D.
Context {libm : Libm}.

Lemma compute_3D_properties_nonempty (z0 : float64) (z : list float64)
  (d0 : float64) (d : list float64) :
  exists radius z_range std_deviation density,
    compute_3D_properties (z0 :: z) (d0 :: d)
    = Ok [radius; z_range; std_deviation; density; NaN].
Proof.
  unfold compute_3D_properties, np_ptp. simpl.
  do 4 eexists. reflexivity.
Qed.

Lemma compute_3D_properties_empty (z d : list float64) :
  z = [] \/ d = [] -> compute_3D_properties z d = Raise ValueError.
Proof.
  intros [-> | ->].
  - unfold compute_3D_properties. destruct d; reflexivity.
  - reflexivity.
Qed.

End Properties3D.

(** C8, as the code has it.  On a z-coordinate array and a distance array
    that are not empty, [compute_3D_properties] returns five values, the
    fifth of which, the verticality, is NaN.  On an empty array it raises
    [ValueError] ([np.max] and [np.ptp] have no value there). *)
Theorem verticality_is_nan (libm : Libm) (z_neighbors distances : list float64) :
  (z_neighbors <> [] -> distances <> [] ->
   exists radius z_range std_deviation density,
     compute_3D_properties z_neighbors distances
     = Ok [radius; z_range; std_deviation; density; NaN])
  /\ (z_neighbors = [] \/ distances = [] ->
      compute_3D_properties z_neighbors distances = Raise ValueError).
Proof.
  split.
  - intros Hz Hd.
    destruct z_neighbors as [|z0 z]; [congruence|].
    destruct distances as [|d0 d]; [congruence|].
    apply compute_3D_properties_nonempty.
  - apply compute_3D_properties_empty.
Qed.

(** Two neighbors, at heights 1 and -1 and at distances 0 and 2. *)
Lemma verticality_is_nan_witness :
  exists radius z_range std_deviation density,
    @compute_3D_properties rounding_libm [Fin 1; Fin (-1)] [Fin 0; Fin 2]
    = Ok [radius; z_range; std_deviation; density; NaN].
Proof.
  apply (verticality_is_nan rounding_libm [Fin 1; Fin (-1)] [Fin 0; Fin 2]);
    discriminate.
Defined.

(** C8, as stated, fails: on empty arrays the function raises and returns
    no verticality. *)
Lemma verticality_of_empty_neighborhood :
  @compute_3D_properties rounding_libm [] [] = Raise ValueError
  /\ @compute_3D_properties rounding_libm [Fin 1] [] = Raise ValueError
  /\ @compute_3D_properties rounding_libm [] [Fin 1] = Raise ValueError.
Proof. repeat split. Qed.

(** ** C9: local surface properties *)

Lemma Qpi_pos : (0 < Qpi)%Q.
Proof. reflexivity. Qed.

Lemma inject_succ (n : nat) :
  (inject_Z (Z.of_nat (n + 1)) == inject_Z (Z.of_nat n) + 1)%Q.
Proof.
  rewrite Nat2Z.inj_add, inject_Z_plus. reflexivity.
Qed.

Lemma Qsquare_nonneg (a : Q) : (0 <= a * a)%Q.
Proof.
  destruct (Qlt_le_dec a 0) as [H|H].
  - setoid_replace (a * a)%Q with ((- a) * (- a))%Q by ring.
    apply Qmult_le_0_compat; lra.
  - apply Qmult_le_0_compat; lra.
Qed.

Section Surface.
Context {libm : Libm}.

(** The 3D properties of finite neighbors. *)
Lemma compute_3D_properties_spec (zs ds : list Q) :
  zs <> [] -> ds <> [] ->
  exists radius zmax zmin : Q, exists density : float64,
    is_max_of (Fin radius) (map Fin ds)
    /\ is_max_of (Fin zmax) (map Fin zs)
    /\ is_min_of (Fin zmin) (map Fin zs)
    /\ compute_3D_properties (map Fin zs) (map Fin ds)
       = Ok [Fin radius; Fin (zmax - zmin); np_std (map Fin zs); density; NaN]
    /\ (~ (radius == 0)%Q ->
        feq density (Fin (spec_density (length ds) radius)))
    /\ ((forall d, In d ds -> (0 <= d)%Q) ->
        (exists d, In d ds /\ ~ (d == 0)%Q) -> (0 < radius)%Q).
Proof.
  intros Hz Hd.
  destruct (np_max_Fin _ Hd) as [r [Er [Ir Br]]].
  destruct (np_max_Fin _ Hz) as [zmax [Ezmax [Izmax Bzmax]]].
  destruct (np_min_Fin _ Hz) as [zmin [Ezmin [Izmin Bzmin]]].
  exists r, zmax, zmin.
  eexists. split; [apply is_max_of_Fin; assumption|].
  split; [apply is_max_of_Fin; assumption|].
  split; [apply is_min_of_Fin; assumption|].
  split.
  - unfold compute_3D_properties, np_ptp.
    rewrite Er, Ezmax, Ezmin. simpl. reflexivity.
  - split.
    + intro Hr. simpl.
      assert (Hq : ~ ((4 # 3) * Qpi * (r * r * r) == 0)%Q).
      { intro A. apply Hr.
        assert (P := Qpi_pos).
        destruct (Qmult_integral _ _ A) as [B|B].
        - destruct (Qmult_integral _ _ B) as [C|C]; [discriminate C | lra].
        - destruct (Qmult_integral _ _ B) as [C|C]; [|exact C].
          destruct (Qmult_integral _ _ C) as [D|D]; exact D. }
      apply Qis_zero_false in Hq.
       rewrite Hq.
      simpl. unfold spec_density. rewrite length_map.
      rewrite inject_succ. reflexivity.
    + intros Hpos [d [Id Hd0]].
      assert (A := Br d Id). assert (B := Hpos d Id). lra.
Qed.

Lemma planar_distance_Fin (px py x y : Q) :
  planar_distance [Fin px; Fin py] (Fin x) (Fin y)
  = Ok (Fin (spec_planar_distance px py x y)).
Proof.
  unfold planar_distance, spec_planar_distance, Qsqrt, math_sqrt. simpl.
  set (s := ((x + - px) * (x + - px) + (y + - py) * (y + - py))%Q).
  assert (Hs : (0 <= s)%Q).
  { unfold s. assert (A := Qsquare_nonneg (x + - px)).
    assert (B := Qsquare_nonneg (y + - py)). lra. }
  assert (Es : (((x - px) * (x - px) + (y - py) * (y - py)) == s)%Q)
    by (unfold s; ring).
  destruct (Qis_zero s) eqn:Z.
  - apply Qis_zero_true in Z.
    assert (Z' : Qis_zero ((x - px) * (x - px) + (y - py) * (y - py)) = true)
      by (apply Qis_zero_true; lra).
    rewrite Z'. reflexivity.
  - apply Qsgn_neg_false in Hs. rewrite Hs.
    apply Qis_zero_false in Z.
    assert (Z' : Qis_zero ((x - px) * (x - px) + (y - py) * (y - py)) = false)
      by (apply Qis_zero_false; lra).
    rewrite Z'. reflexivity.
Qed.

Lemma mapM_getitem_row2 (pts : list (Q * Q)) :
  mapM (fun row => getitem row 0) (map row2 pts) = Ok (map (fun p => Fin (fst p)) pts)
  /\ mapM (fun row => getitem row 1) (map row2 pts) = Ok (map (fun p => Fin (snd p)) pts).
Proof.
  induction pts as [|p pts [IH0 IH1]]; [split; reflexivity|].
  simpl. rewrite IH0, IH1. split; reflexivity.
Qed.

Lemma planar_distances_Fin (px py : Q) (pts : list (Q * Q)) :
  mapM (fun xy => planar_distance [Fin px; Fin py] (fst xy) (snd xy))
       (combine (map (fun p => Fin (fst p)) pts) (map (fun p => Fin (snd p)) pts))
  = Ok (map Fin (map (fun p => spec_planar_distance px py (fst p) (snd p)) pts)).
Proof.
  induction pts as [|p pts IH]; [reflexivity|].
  cbn [map combine mapM fst snd].
  rewrite planar_distance_Fin, IH. reflexivity.
Qed.

(** The 2D properties of finite neighbors. *)
Lemma compute_2D_properties_spec (px py : Q) (pts : list (Q * Q)) :
  pts <> [] ->
  let distances := map (fun p => spec_planar_distance px py (fst p) (snd p)) pts in
  exists radius_2D : Q,
    is_max_of (Fin radius_2D) (map Fin distances)
    /\ ((radius_2D == 0)%Q ->
        compute_2D_properties [Fin px; Fin py] (map row2 pts)
        = Raise ZeroDivisionError)
    /\ (~ (radius_2D == 0)%Q ->
        exists density_2D : Q,
          compute_2D_properties [Fin px; Fin py] (map row2 pts)
          = Ok [Fin radius_2D; Fin density_2D]
          /\ (density_2D == spec_density_2D (length pts) radius_2D)%Q).
Proof.
  intros Hp distances.
  assert (Hd : distances <> []).
  { unfold distances. destruct pts; [congruence | discriminate]. }
  destruct (np_max_Fin _ Hd) as [r [Er [Ir Br]]].
  exists r. split; [apply is_max_of_Fin; assumption|].
  assert (Hlen : length (map Fin distances) = length pts).
  { unfold distances. rewrite !length_map. reflexivity. }
  assert (Hzero : Qis_zero (Qpi * (r * r)) = Qis_zero r).
  { destruct (Qis_zero r) eqn:Z.
    - apply Qis_zero_true in Z. apply Qis_zero_true. rewrite Z. ring.
    - apply Qis_zero_false in Z. apply Qis_zero_false.
      intro A. apply Z. assert (P := Qpi_pos).
      destruct (Qmult_integral _ _ A) as [B|B]; [lra|].
      destruct (Qmult_integral _ _ B); assumption. }
  unfold compute_2D_properties.
  destruct (mapM_getitem_row2 pts) as [E0 E1]. rewrite E0, E1.
  cbn [bind]. rewrite planar_distances_Fin. cbn [bind].
  fold distances. rewrite py_max_np_max, Er. cbn [bind].
  rewrite Hlen. unfold py_div, math_pi, square. cbn [fmul].
  
  rewrite Hzero.
  split.
  - intro Hr. apply Qis_zero_true in Hr. rewrite Hr. reflexivity.
  - intro Hr. apply Qis_zero_false in Hr. rewrite Hr.
    cbn [bind np_div of_nat of_Z]. rewrite Hzero, Hr.
    eexists. split; [reflexivity|].
    unfold spec_density_2D. rewrite inject_succ. reflexivity.
Qed.

End Surface.

(** The magnitudes of binary64. *)
Lemma tiny_pos : (0 < tiny)%Q.
Proof. reflexivity. Qed.

Lemma tiny_le_huge : (tiny <= huge)%Q.
Proof. apply Qle_bool_imp_le. vm_compute. reflexivity. Qed.

Lemma in_binary64_range_pos (q : Q) : in_binary64_range q -> (0 < q)%Q.
Proof. intros [H _]. assert (P := tiny_pos). lra. Qed.

Lemma Qabs_tiny_not_zero (q : Q) : (tiny <= Qabs q)%Q -> ~ (q == 0)%Q.
Proof.
  intros H Z. assert (P := tiny_pos).
  assert (A : (Qabs q == 0)%Q) by (rewrite Z; reflexivity).
  lra.
Qed.

(** C9, as the code has it (exact arithmetic).  For finite neighbors: the
    radius is the largest neighbor distance, the z-range is the largest
    z-coordinate minus the smallest, and for a radius between 2^-300 and
    2^300, whose cube binary64 represents, the density is
    (neighbor_count + 1) / ((4/3) pi radius^3); radius_2D is the largest
    planar distance, and when it is between 2^-300 and 2^300 density_2D is
    (neighbor_count + 1) / (pi radius_2D^2).  When radius_2D is zero,
    [compute_2D_properties] raises [ZeroDivisionError]. *)
Theorem surface_properties (libm : Libm) (zs ds : list Q) (px py : Q)
  (pts : list (Q * Q)) :
  zs <> [] -> ds <> [] -> pts <> [] ->
  (exists radius zmax zmin : Q, exists density : float64,
     is_max_of (Fin radius) (map Fin ds)
     /\ is_max_of (Fin zmax) (map Fin zs)
     /\ is_min_of (Fin zmin) (map Fin zs)
     /\ compute_3D_properties (map Fin zs) (map Fin ds)
        = Ok [Fin radius; Fin (zmax - zmin); np_std (map Fin zs); density; NaN]
     /\ (in_binary64_range radius ->
         feq density (Fin (spec_density (length ds) radius))))
  /\ (exists radius_2D : Q,
        is_max_of (Fin radius_2D)
          (map Fin (map (fun p => spec_planar_distance px py (fst p) (snd p)) pts))
        /\ ((radius_2D == 0)%Q ->
            compute_2D_properties [Fin px; Fin py] (map row2 pts)
            = Raise ZeroDivisionError)
        /\ (in_binary64_range radius_2D ->
            exists density_2D : Q,
              compute_2D_properties [Fin px; Fin py] (map row2 pts)
              = Ok [Fin radius_2D; Fin density_2D]
              /\ (density_2D == spec_density_2D (length pts) radius_2D)%Q)).
Proof.
  intros Hz Hd Hp. split.
  - destruct (compute_3D_properties_spec zs ds Hz Hd)
      as [r [zmax [zmin [dens [A [B [C [D [E _]]]]]]]]].
    exists r, zmax, zmin, dens.
    split; [exact A|]. split; [exact B|]. split; [exact C|]. split; [exact D|].
    intro Hr. apply E. apply in_binary64_range_pos in Hr. lra.
  - destruct (compute_2D_properties_spec px py pts Hp) as [r [A [B C]]].
    exists r. split; [exact A|]. split; [exact B|].
    intro Hr. apply C. apply in_binary64_range_pos in Hr. lra.
Qed.

(** The first point of the tetrahedron with its nearest other point: the
    radius is 2, and the density 2 / ((4/3) pi 2^3). *)
Lemma surface_properties_witness :
  exists (z_range std_deviation density : float64),
    @compute_3D_properties rounding_libm (map Fin [1; -1]%Q) (map Fin [0; 2]%Q)
    = Ok [Fin 2; z_range; std_deviation; density; NaN]
    /\ is_max_of (Fin 2) (map Fin [0; 2]%Q)
    /\ feq density (Fin (spec_density 2 2)).
Proof.
  destruct (surface_properties rounding_libm [1; -1]%Q [0; 2]%Q 4%Q 2%Q
              [(4, 2); (4, -2)]%Q)
    as [[r [zmax [zmin [dens [A [_ [_ [D E]]]]]]]] _]; try discriminate.
  assert (Er : r = 2%Q).
  { unfold compute_3D_properties in D. simpl in D.
    injection D as D _. exact (eq_sym D). }
  subst r.
  exists (Fin (zmax - zmin)), (@np_std rounding_libm (map Fin [1; -1]%Q)), dens.
  split; [exact D|]. split; [exact A|].
  apply E. split; apply Qle_bool_imp_le; vm_compute; reflexivity.
Defined.

(** C9, as stated, fails.  Two neighbors stacked above the point: one of
    them is at distance 1, and the 3D properties come out, but every
    planar distance is zero and [compute_2D_properties] raises. *)
Lemma density_2D_of_stacked_neighbors :
  is_ok (@compute_3D_properties rounding_libm [Fin 0; Fin 1] [Fin 0; Fin 1]) = true
  /\ @compute_2D_properties rounding_libm [Fin 0; Fin 0]
       [[Fin 0; Fin 0]; [Fin 0; Fin 0]]
     = Raise ZeroDivisionError.
Proof. split; reflexivity. Qed.

(** Why the range.  In binary64 the square of 2^-600 is zero, and the
    division by pi times it raises [ZeroDivisionError]; the square of
    2^600 is infinite, and the quotient by it is zero. *)
Lemma squares_beyond_binary64 :
  of_binary64 (binary64_pow2 (-600)) = Fin (1 # (2 ^ 600))
  /\ binary64_square (binary64_pow2 (-600)) = Fin 0
  /\ py_div (Fin 2) (math_pi * binary64_square (binary64_pow2 (-600)))
     = Raise ZeroDivisionError
  /\ binary64_square (binary64_pow2 600) = PInf
  /\ py_div (Fin 2) (math_pi * binary64_square (binary64_pow2 600)) = Ok (Fin 0).
Proof.
  split; [vm_compute; reflexivity|].
  split; [vm_compute; reflexivity|].
  split; [vm_compute; reflexivity|].
  split; [vm_compute; reflexivity|].
  vm_compute. reflexivity.
Qed.

(** ** C5: neighborhood resolution *)

(** C5, as the code has it.  [build_neighborhood] has one mode, the fixed
    number of neighbors: a call that gives a radius, or that gives no
    number of neighbors, is refused with [TypeError] when its arguments are
    bound; a call with the number of neighbors alone returns what the query
    of the tree answers, or [ValueError] when the tree has fewer points. *)
Theorem build_neighborhood_count_only (sk : Sklearn) (point : list float64)
  (neighbor_count : option nat) (radius : option float64)
  (kd_tree : list (list float64)) :
  call_build_neighborhood point neighbor_count radius kd_tree
  = match neighbor_count, radius with
    | Some k, None =>
        if (k <=? length kd_tree)%nat
        then Ok {| distance := fst (kd_tree_query kd_tree point k);
                   indices := snd (kd_tree_query kd_tree point k) |}
        else Raise ValueError
    | _, _ => Raise TypeError
    end.
Proof.
  unfold call_build_neighborhood, build_neighborhood, KDTree_query.
  destruct radius, neighbor_count as [k|]; try reflexivity.
  destruct (k <=? length kd_tree)%nat; reflexivity.
Qed.

(** C5, as stated, fails: a request with a radius alone, one of the two
    modes, gets no neighborhood, while the same index answers the request
    with a number of neighbors. *)
Lemma radius_mode_is_refused :
  @call_build_neighborhood exhaustive_sklearn (point_of [4; 2; 1]%Z)
     None (Some (Fin 100)) tetrahedron
  = Raise TypeError
  /\ is_ok (@call_build_neighborhood exhaustive_sklearn (point_of [4; 2; 1]%Z)
              (Some 4%nat) None tetrahedron) = true.
Proof. split; reflexivity. Qed.

(** ** The edges of the grid *)

Lemma edge_lt (lo bs : Q) (i j : nat) :
  (0 < bs)%Q -> ((edge lo bs i < edge lo bs j)%Q <-> (i < j)%nat).
Proof.
  intro Hbs. unfold edge. split; intro H.
  - assert (A : (inject_Z (Z.of_nat i) * bs < inject_Z (Z.of_nat j) * bs)%Q) by lra.
    apply Qmult_lt_r in A; [|exact Hbs].
    rewrite <- Zlt_Qlt in A. lia.
  - assert (A : (inject_Z (Z.of_nat i) < inject_Z (Z.of_nat j))%Q)
      by (rewrite <- Zlt_Qlt; lia).
    apply (Qmult_lt_r _ _ bs Hbs) in A. lra.
Qed.

Lemma edge_le (lo bs : Q) (i j : nat) :
  (0 < bs)%Q -> (i <= j)%nat -> (edge lo bs i <= edge lo bs j)%Q.
Proof.
  intros Hbs H. destruct (Nat.eq_dec i j) as [->|N]; [lra|].
  apply Qlt_le_weak. apply edge_lt; [exact Hbs | lia].
Qed.

(** What [np.arange] returns on finite arguments. *)
Lemma np_arange_Fin (a b s : Q) :
  ~ (s == 0)%Q ->
  np_arange (Fin a) (Fin b) (Fin s)
  = Ok (map (fun i => Fin (edge a s i))
            (seq 0 (Z.to_nat (Qceiling ((b - a) / s))))).
Proof.
  intro Hs. unfold np_arange. apply Qis_zero_false in Hs. rewrite Hs.
  reflexivity.
Qed.

(** The number of edges: at least two, and the last one lies beyond the
    largest coordinate, by the margin [buf]. *)
Lemma edges_cover (lo hi bs buf : Q) :
  (lo <= hi)%Q -> (0 < bs)%Q -> (0 < buf)%Q ->
  let n := Z.to_nat (Qceiling ((hi + bs + buf - lo) / bs)) in
  (2 <= n)%nat /\ (hi < edge lo bs (n - 1))%Q.
Proof.
  intros Hlh Hbs Hbuf n.
  set (X := ((hi + bs + buf - lo) / bs)%Q) in *.
  assert (HX : (X * bs == hi + bs + buf - lo)%Q).
  { unfold X. field. lra. }
  assert (Hc : (X <= inject_Z (Qceiling X))%Q) by apply Qle_ceiling.
  assert (HX1 : (1 < X)%Q).
  { apply Qnot_le_lt. intro A.
    assert (B : (X * bs <= 1 * bs)%Q) by (apply Qmult_le_compat_r; lra).
    lra. }
  assert (Hc2 : (2 <= Qceiling X)%Z).
  { assert (A : (inject_Z 1 < inject_Z (Qceiling X))%Q) by (unfold inject_Z at 1; lra).
    rewrite <- Zlt_Qlt in A. lia. }
  assert (Hn : Z.of_nat n = Qceiling X) by (unfold n; lia).
  split; [lia|].
  unfold edge.
  replace (Z.of_nat (n - 1)) with (Qceiling X - 1)%Z by lia.
  unfold Zminus. rewrite inject_Z_plus. 
  change (inject_Z (- (1))) with (- (1))%Q.
  assert (B : (X * bs <= inject_Z (Qceiling X) * bs)%Q)
    by (apply Qmult_le_compat_r; lra).
  lra.
Qed.

Lemma increasing_edges (lo bs : Q) (k n : nat) :
  (0 < bs)%Q ->
  increasing (map (fun i => Fin (edge lo bs i)) (seq k n)) = true.
Proof.
  intro Hbs. revert k. induction n as [|n IH]; intro k; [reflexivity|].
  destruct n as [|n]; [reflexivity|].
  change (seq k (S (S n))) with (k :: seq (S k) (S n)).
  rewrite map_cons.
  change (seq (S k) (S n)) with (S k :: seq (S (S k)) n) at 1.
  rewrite map_cons. cbn [increasing].
  apply andb_true_iff. split.
  - apply fltb_Fin_true. apply edge_lt; [exact Hbs | lia].
  - specialize (IH (S k)). exact IH.
Qed.

(** ** Counting the edges at most [x] *)

(** A test that, once false, stays false selects an initial segment. *)
Lemma filter_seq_antitone (P : nat -> bool) (n : nat) :
  (forall i, P (S i) = true -> P i = true) ->
  exists k, (k <= n)%nat
    /\ filter P (seq 0 n) = seq 0 k
    /\ (forall i, (i < k)%nat -> P i = true)
    /\ ((k < n)%nat -> P k = false).
Proof.
  intro Hanti.
  assert (Hdown : forall j i, (i <= j)%nat -> P j = true -> P i = true).
  { induction j as [|j IHj]; intros i Hi Hj.
    - replace i with 0%nat by lia. exact Hj.
    - destruct (Nat.eq_dec i (S j)) as [->|N]; [exact Hj|].
      apply IHj; [lia | apply Hanti; exact Hj]. }
  induction n as [|n [k [Hk [Hf [Ht Hfalse]]]]].
  - exists 0%nat. repeat split; [lia | | lia]. intros i Hi. lia.
  - rewrite seq_S, filter_app, Hf. simpl.
    destruct (P n) eqn:En.
    + exists (S n). split; [lia|]. split.
      * assert (k = n).
        { destruct (Nat.eq_dec k n) as [E|N]; [exact E|].
          assert (A : P k = false) by (apply Hfalse; lia).
          assert (B : P k = true) by (apply (Hdown n); [lia | exact En]).
          congruence. }
        subst k. rewrite seq_S. reflexivity.
      * split; [|lia]. intros i Hi. apply (Hdown n); [lia | exact En].
    + exists k. split; [lia|]. split; [apply app_nil_r|].
      split; [exact Ht|]. intros Hlt.
      destruct (Nat.eq_dec k n) as [->|N]; [exact En | apply Hfalse; lia].
Qed.

Lemma filter_map_comm {A B : Type} (g : A -> B) (p : B -> bool) (l : list A) :
  filter p (map g l) = map g (filter (fun a => p (g a)) l).
Proof.
  induction l as [|a l IH]; [reflexivity|].
  simpl. destruct (p (g a)); simpl; rewrite IH; reflexivity.
Qed.

(** The interval [pd.cut] gives a coordinate between the first edge and the
    last one: it contains the coordinate, and no other interval does. *)
Lemma cut_interval_edges (lo bs x : Q) (n : nat) :
  (0 < bs)%Q -> (2 <= n)%nat ->
  (lo <= x)%Q -> (x < edge lo bs (n - 1))%Q ->
  exists i, (i < n - 1)%nat
    /\ cut_interval (map (fun i => Fin (edge lo bs i)) (seq 0 n)) (Fin x) = Some i
    /\ in_bin lo bs i x
    /\ (forall j, in_bin lo bs j x -> j = i).
Proof.
  intros Hbs Hn Hlo Hhi.
  set (P := fun i => Qle_bool (edge lo bs i) x).
  assert (Hanti : forall i, P (S i) = true -> P i = true).
  { intros i H. unfold P in *. apply Qle_bool_true in H. apply Qle_bool_true.
    assert (A : (edge lo bs i <= edge lo bs (S i))%Q) by (apply edge_le; [exact Hbs | lia]).
    lra. }
  destruct (filter_seq_antitone P n Hanti) as [k [Hk [Hf [Ht Hfalse]]]].
  assert (Hcount : searchsorted_right (map (fun i => Fin (edge lo bs i)) (seq 0 n)) (Fin x) = k).
  { unfold searchsorted_right. rewrite filter_map_comm. rewrite length_map.
    change (fun a : nat => (Fin (edge lo bs a) <=? Fin x)%f64) with P.
    rewrite Hf. apply length_seq. }
  assert (Hk1 : (1 <= k)%nat).
  { destruct k as [|k]; [|lia].
    assert (A : P 0%nat = false) by (apply Hfalse; lia).
    unfold P in A. apply Qle_bool_false in A. unfold edge in A. simpl in A.
    unfold inject_Z in A. lra. }
  assert (Hk2 : (k <= n - 1)%nat).
  { destruct (Nat.eq_dec k n) as [->|N]; [|lia].
    assert (A : P (n - 1)%nat = true) by (apply Ht; lia).
    unfold P in A. apply Qle_bool_true in A. lra. }
  exists (k - 1)%nat. split; [lia|]. split.
  - unfold cut_interval. rewrite Hcount. rewrite length_map, length_seq. simpl.
    replace (k =? 0)%nat with false by (symmetry; apply Nat.eqb_neq; lia).
    replace (k =? n)%nat with false by (symmetry; apply Nat.eqb_neq; lia).
    reflexivity.
  - assert (Hin : in_bin lo bs (k - 1) x).
    { split.
      - assert (A : P (k - 1)%nat = true) by (apply Ht; lia).
        unfold P in A. apply Qle_bool_true in A. exact A.
      - replace (S (k - 1)) with k by lia.
        assert (A : P k = false) by (apply Hfalse; lia).
        unfold P in A. apply Qle_bool_false in A. exact A. }
    split; [exact Hin|].
    intros j [Hj1 Hj2]. destruct Hin as [Hi1 Hi2].
    assert (A : (edge lo bs j < edge lo bs (S (k - 1)))%Q) by lra.
    assert (B : (edge lo bs (k - 1) < edge lo bs (S j))%Q) by lra.
    apply edge_lt in A; [|exact Hbs]. apply edge_lt in B; [|exact Hbs]. lia.
Qed.

(** ** Groups and the merge *)

Lemma cell_eqb_true (c d : cell) : cell_eqb c d = true <-> c = d.
Proof.
  destruct c as [i j], d as [i' j']. unfold cell_eqb. simpl.
  rewrite andb_true_iff, !Nat.eqb_eq. split.
  - intros [-> ->]. reflexivity.
  - intro H. inversion H. split; reflexivity.
Qed.

Lemma cell_eqb_refl (c : cell) : cell_eqb c c = true.
Proof. apply cell_eqb_true. reflexivity. Qed.

Lemma in_cell_of (r : binned_point) (c d : cell) :
  bp_cell r = Some c -> in_cell d r = cell_eqb d c.
Proof. intro H. unfold in_cell. rewrite H. reflexivity. Qed.

Lemma NoDup_list_prod {A B : Type} (l : list A) (l' : list B) :
  NoDup l -> NoDup l' -> NoDup (list_prod l l').
Proof.
  intros Hl Hl'. induction Hl as [|a l Ha Hl IH]; [constructor|].
  simpl. apply NoDup_app.
  - clear -Hl'. induction Hl' as [|b l' Hb Hl' IH]; [constructor|].
    simpl. constructor; [|exact IH].
    intro H. apply in_map_iff in H. destruct H as [b' [E I]].
    inversion E. subst b'. contradiction.
  - exact IH.
  - intros [x y] H1 H2. apply in_map_iff in H1. destruct H1 as [b [E I]].
    inversion E. subst x y. apply in_prod_iff in H2. destruct H2 as [H2 _].
    contradiction.
Qed.

Lemma NoDup_grid_cells (nx ny : nat) : NoDup (grid_cells nx ny).
Proof. apply NoDup_list_prod; apply seq_NoDup. Qed.

Lemma in_grid_cells (nx ny i j : nat) :
  In (i, j) (grid_cells nx ny) <-> (i < nx)%nat /\ (j < ny)%nat.
Proof.
  unfold grid_cells. rewrite in_prod_iff, !in_seq. lia.
Qed.

(** In a list without repetition one item equals a given member. *)
Lemma filter_cell_eqb (c : cell) (l : list cell) :
  NoDup l -> In c l -> filter (fun d => cell_eqb d c) l = [c].
Proof.
  intros Hl. induction Hl as [|a l Ha Hl IH]; intro Hc; [destruct Hc|].
  simpl. destruct (cell_eqb a c) eqn:E.
  - apply cell_eqb_true in E. subst a. f_equal.
    clear -Ha. induction l as [|b l IHl]; [reflexivity|].
    simpl. destruct (cell_eqb b c) eqn:E.
    + apply cell_eqb_true in E. subst b. exfalso. apply Ha. now left.
    + apply IHl. intro H. apply Ha. now right.
  - apply IH. destruct Hc as [->|Hc]; [|exact Hc].
    rewrite cell_eqb_refl in E. discriminate.
Qed.


Section Merge.
Context {libm : Libm}.

(** A row whose cell is one of the grid finds exactly one row of [aggdf]. *)
Lemma merge_finds_one (df : list binned_point) (nx ny : nat)
  (r : binned_point) (c : cell) :
  bp_cell r = Some c -> In c (grid_cells nx ny) ->
  filter (fun g => in_cell (cs_cell g) r) (groupby_agg df nx ny)
  = [cell_statistics df c].
Proof.
  intros Hr Hc. unfold groupby_agg. rewrite filter_map_comm.
  replace (filter (fun a => in_cell (cs_cell (cell_statistics df a)) r) (grid_cells nx ny))
    with (filter (fun d => cell_eqb d c) (grid_cells nx ny)).
  - rewrite (filter_cell_eqb c _ (NoDup_grid_cells nx ny) Hc). reflexivity.
  - apply filter_ext. intro d. simpl. symmetry. apply in_cell_of. exact Hr.
Qed.

(** When every row has a cell of the grid, the merge keeps the rows one
    for one, each beside the statistics of its cell. *)
Lemma merge_left_rows (df part : list binned_point) (nx ny : nat) :
  Forall (fun r => exists c, bp_cell r = Some c /\ In c (grid_cells nx ny)) part ->
  Forall2 (fun r row => exists c, bp_cell r = Some c
                                  /\ row = with_stats r (cell_statistics df c))
          part (merge_left part (groupby_agg df nx ny)).
Proof.
  induction 1 as [|r part [c [Hr Hc]] Hpart IH]; [constructor|].
  unfold merge_left. cbn [flat_map].
  rewrite (merge_finds_one df nx ny r c Hr Hc). cbn [map app].
  constructor; [|exact IH].
  exists c. split; [exact Hr | reflexivity].
Qed.






End Merge.

(** ** C3: the accumulation grid *)

Lemma combine_map_map {A B C : Type} (f : A -> B) (g : A -> C) (l : list A) :
  combine (map f l) (map g l) = map (fun a => (f a, g a)) l.
Proof.
  induction l as [|a l IH]; [reflexivity|]. simpl. rewrite IH. reflexivity.
Qed.

Lemma row3_shape (pts : list (Q * Q * Q)) :
  forallb (fun row => (length row =? 3)%nat) (map row3 pts) = true.
Proof.
  induction pts as [|[[x y] z] pts IH]; [reflexivity | exact IH].
Qed.

Lemma row3_columns (pts : list (Q * Q * Q)) :
  mapM (fun row => getitem row 0) (map row3 pts) = Ok (map Fin (map qx pts))
  /\ mapM (fun row => getitem row 1) (map row3 pts) = Ok (map Fin (map qy pts))
  /\ mapM (fun row => getitem row 2) (map row3 pts) = Ok (map Fin (map qz pts)).
Proof.
  induction pts as [|[[x y] z] pts [IH0 [IH1 IH2]]]; [repeat split|].
  simpl. rewrite IH0, IH1, IH2. repeat split.
Qed.

Lemma axis_bins_Fin (lo hi bs buf : Q) :
  (0 < bs)%Q ->
  axis_bins (Fin lo) (Fin hi) (Fin bs) (Fin buf) = Ok (edges lo hi bs buf).
Proof.
  intro Hbs. unfold axis_bins. cbn [fadd].
  rewrite np_arange_Fin; [reflexivity | lra].
Qed.

Lemma pd_cut_edges (xs : list float64) (lo hi bs buf : Q) :
  (0 < bs)%Q ->
  pd_cut xs (edges lo hi bs buf) = Ok (map (cut_interval (edges lo hi bs buf)) xs).
Proof.
  intro Hbs. unfold pd_cut, edges. rewrite increasing_edges; [reflexivity | exact Hbs].
Qed.

(** The least and the largest of the coordinates along one axis. *)
Lemma axis_extent (qs : list Q) :
  qs <> [] ->
  exists lo hi : Q,
    np_min (map Fin qs) = Ok (Fin lo)
    /\ np_max (map Fin qs) = Ok (Fin hi)
    /\ In lo qs /\ In hi qs
    /\ (forall q, In q qs -> (lo <= q)%Q /\ (q <= hi)%Q).
Proof.
  intro H.
  destruct (np_min_Fin qs H) as [lo [El [Il Bl]]].
  destruct (np_max_Fin qs H) as [hi [Eh [Ih Bh]]].
  exists lo, hi. repeat split; auto.
Qed.

Section Binning.
Context {libm : Libm}.

(** [df] and the edges, on a cloud of finite points. *)
Lemma bin_points_finite (pts : list (Q * Q * Q)) (bs buf : Q) :
  pts <> [] -> (0 < bs)%Q ->
  exists xmin xmax ymin ymax : Q,
    (forall p, In p pts -> (xmin <= qx p)%Q /\ (qx p <= xmax)%Q
                           /\ (ymin <= qy p)%Q /\ (qy p <= ymax)%Q)
    /\ (xmin <= xmax)%Q /\ (ymin <= ymax)%Q
    /\ is_min_of (Fin xmin) (map Fin (map qx pts))
    /\ is_min_of (Fin ymin) (map Fin (map qy pts))
    /\ bin_points (map row3 pts) (Fin bs) (Fin buf)
       = Ok {| binned := map (binned_of (edges xmin xmax bs buf)
                                        (edges ymin ymax bs buf)) pts;
               xbins := edges xmin xmax bs buf;
               ybins := edges ymin ymax bs buf |}.
Proof.
  intros Hp Hbs.
  assert (Hx : map qx pts <> []) by (destruct pts; [congruence | discriminate]).
  assert (Hy : map qy pts <> []) by (destruct pts; [congruence | discriminate]).
  destruct (axis_extent _ Hx) as [xmin [xmax [Exmin [Exmax [Ixmin [Ixmax Bx]]]]]].
  destruct (axis_extent _ Hy) as [ymin [ymax [Eymin [Eymax [Iymin [Iymax By]]]]]].
  exists xmin, xmax, ymin, ymax.
  split.
  { intros p Hin.
    destruct (Bx (qx p) (in_map qx _ _ Hin)).
    destruct (By (qy p) (in_map qy _ _ Hin)). auto. }
  split; [apply Bx; exact Ixmin|].
  split; [apply By; exact Iymin|].
  split; [apply is_min_of_Fin; [exact Ixmin | intros q Hq; apply Bx; exact Hq]|].
  split; [apply is_min_of_Fin; [exact Iymin | intros q Hq; apply By; exact Hq]|].
  unfold bin_points. rewrite row3_shape. cbn [assert bind].
  destruct (row3_columns pts) as [E0 [E1 E2]]. rewrite E0, E1, E2. cbn [bind].
  rewrite Exmin, Exmax, Eymin, Eymax. cbn [bind].
  rewrite !axis_bins_Fin by exact Hbs. cbn [bind].
  rewrite !pd_cut_edges by exact Hbs. cbn [bind].
  do 2 f_equal.
  rewrite !map_map.
  rewrite !combine_map_map. rewrite map_map. reflexivity.
Qed.

End Binning.

Lemma Forall2_map_of {A B : Type} (R : A -> B -> Prop) (f : A -> B) (l : list A) :
  (forall a, In a l -> R a (f a)) -> Forall2 R l (map f l).
Proof.
  induction l as [|a l IH]; intro H; [constructor|].
  simpl. constructor; [apply H; now left | apply IH; intros b Hb; apply H; now right].
Qed.

Lemma Forall_map_of {A B : Type} (P : B -> Prop) (f : A -> B) (l : list A) :
  (forall a, In a l -> P (f a)) -> Forall P (map f l).
Proof.
  induction l as [|a l IH]; intro H; [constructor|].
  simpl. constructor; [apply H; now left | apply IH; intros b Hb; apply H; now right].
Qed.

Lemma length_edges (lo hi bs buf : Q) :
  length (edges lo hi bs buf)
  = Z.to_nat (Qceiling ((hi + bs + buf - lo) / bs)).
Proof. unfold edges. rewrite length_map, length_seq. reflexivity. Qed.

(** The interval of a coordinate between the least and the largest one. *)
Lemma cut_interval_covered (lo hi bs buf x : Q) :
  (0 < bs)%Q -> (0 < buf)%Q -> (lo <= x)%Q -> (x <= hi)%Q ->
  exists i, (i < intervals (edges lo hi bs buf))%nat
    /\ cut_interval (edges lo hi bs buf) (Fin x) = Some i
    /\ in_bin lo bs i x
    /\ (forall j, in_bin lo bs j x -> j = i).
Proof.
  intros Hbs Hbuf Hlo Hhi.
  assert (Hlh : (lo <= hi)%Q) by lra.
  destruct (edges_cover lo hi bs buf Hlh Hbs Hbuf) as [Hn Hlast].
  unfold intervals. rewrite length_edges.
  apply cut_interval_edges; [exact Hbs | exact Hn | exact Hlo | lra].
Qed.

Lemma cell_of_row_not_empty (df : list binned_point) (c : cell) (r : binned_point) :
  In r df -> in_cell c r = true -> (1 <= length (filter (in_cell c) df))%nat.
Proof.
  intros Hin Hc.
  assert (A : In r (filter (in_cell c) df)) by (apply filter_In; split; assumption).
  destruct (filter (in_cell c) df); [destruct A | simpl; lia].
Qed.

Lemma Forall2_Forall_l {A B : Type} (R : A -> B -> Prop) (P : A -> Prop)
  (l : list A) (l' : list B) :
  Forall2 R l l' -> Forall P l -> Forall2 (fun a b => R a b /\ P a) l l'.
Proof.
  induction 1 as [|a b l l' Hab Hll IH]; intro H; [constructor|].
  inversion H; subst. constructor; [split; assumption | apply IH; assumption].
Qed.

Lemma Forall2_map_eq {A B C : Type} (R : A -> B -> Prop) (f : A -> C) (g : B -> C)
  (l : list A) (l' : list B) :
  Forall2 R l l' -> (forall a b, R a b -> g b = f a) -> map g l' = map f l.
Proof.
  induction 1 as [|a b l l' Hab Hll IH]; intro H; [reflexivity|].
  simpl. rewrite (H a b Hab), IH; [reflexivity | exact H].
Qed.

(** The cell of a point whose coordinates lie between the least and the
    largest ones. *)
Lemma point_cell (xmin xmax ymin ymax bs buf : Q) (p : Q * Q * Q) :
  (0 < bs)%Q -> (0 < buf)%Q ->
  (xmin <= qx p)%Q -> (qx p <= xmax)%Q -> (ymin <= qy p)%Q -> (qy p <= ymax)%Q ->
  let xb := edges xmin xmax bs buf in
  let yb := edges ymin ymax bs buf in
  exists i j,
    bp_cell (binned_of xb yb p) = Some (i, j)
    /\ In (i, j) (grid_cells (intervals xb) (intervals yb))
    /\ in_bin xmin bs i (qx p)
    /\ in_bin ymin bs j (qy p)
    /\ (forall i' j', in_bin xmin bs i' (qx p) -> in_bin ymin bs j' (qy p) ->
                      (i', j') = (i, j)).
Proof.
  intros Hbs Hbuf A1 A2 A3 A4 xb yb.
  destruct (cut_interval_covered xmin xmax bs buf (qx p) Hbs Hbuf A1 A2)
    as [i [Hi [Ci [Bi Ui]]]].
  destruct (cut_interval_covered ymin ymax bs buf (qy p) Hbs Hbuf A3 A4)
    as [j [Hj [Cj [Bj Uj]]]].
  exists i, j. split.
  - unfold bp_cell, binned_of. cbn [bp_xbin bp_ybin].
    unfold xb, yb. rewrite Ci, Cj. reflexivity.
  - split; [apply in_grid_cells; split; assumption|].
    split; [exact Bi|]. split; [exact Bj|].
    intros i' j' Hi' Hj'. rewrite (Ui i' Hi'), (Uj j' Hj'). reflexivity.
Qed.

Section Table.
Context {libm : Libm}.

(** The table of a finite cloud: [df] merged with the statistics of the
    cells, row for row. *)
Lemma accumulation_table (pts : list (Q * Q * Q)) (bs buf : Q) :
  pts <> [] -> (0 < bs)%Q -> (0 < buf)%Q ->
  exists xmin xmax ymin ymax : Q,
    let xb := edges xmin xmax bs buf in
    let yb := edges ymin ymax bs buf in
    let df := map (binned_of xb yb) pts in
    let aggdf := groupby_agg df (intervals xb) (intervals yb) in
    (forall p, In p pts -> (xmin <= qx p)%Q /\ (qx p <= xmax)%Q
                           /\ (ymin <= qy p)%Q /\ (qy p <= ymax)%Q)
    /\ is_min_of (Fin xmin) (map Fin (map qx pts))
    /\ is_min_of (Fin ymin) (map Fin (map qy pts))
    /\ bin_points (map row3 pts) (Fin bs) (Fin buf)
       = Ok {| binned := df; xbins := xb; ybins := yb |}
    /\ build_accumulation_features (map row3 pts) (Fin bs) (Fin buf)
       = Ok (merge_left df aggdf)
    /\ Forall (fun r => exists c, bp_cell r = Some c
                 /\ In c (grid_cells (intervals xb) (intervals yb))) df
    /\ Forall2 (fun r row => exists c, bp_cell r = Some c
                  /\ row = with_stats r (cell_statistics df c))
               df (merge_left df aggdf).
Proof.
  intros Hp Hbs Hbuf.
  destruct (bin_points_finite pts bs buf Hp Hbs)
    as [xmin [xmax [ymin [ymax [Hext [Hx [Hy [Mx [My Eb]]]]]]]]].
  exists xmin, xmax, ymin, ymax. intros xb yb df aggdf.
  assert (Hgrid : Forall (fun r => exists c, bp_cell r = Some c
                            /\ In c (grid_cells (intervals xb) (intervals yb))) df).
  { apply Forall_map_of. intros p Hin. destruct (Hext p Hin) as [A1 [A2 [A3 A4]]].
    destruct (point_cell xmin xmax ymin ymax bs buf p Hbs Hbuf A1 A2 A3 A4)
      as [i [j [E [I _]]]].
    exists (i, j). split; assumption. }
  split; [exact Hext|]. split; [exact Mx|]. split; [exact My|].
  split; [exact Eb|].
  split; [unfold build_accumulation_features; rewrite Eb; reflexivity|].
  split; [exact Hgrid|].
  apply merge_left_rows. exact Hgrid.
Qed.

(** The table has the coordinates of the points, row for row. *)
Lemma accumulation_rows (pts : list (Q * Q * Q)) (bs buf : Q) :
  pts <> [] -> (0 < bs)%Q -> (0 < buf)%Q ->
  exists table,
    build_accumulation_features (map row3 pts) (Fin bs) (Fin buf) = Ok table
    /\ map xyz_of table = map row3 pts.
Proof.
  intros Hp Hbs Hbuf.
  destruct (accumulation_table pts bs buf Hp Hbs Hbuf)
    as [xmin [xmax [ymin [ymax [_ [_ [_ [_ [Et [_ Hrows]]]]]]]]]].
  eexists. split; [exact Et|].
  transitivity (map (fun r => [bp_x r; bp_y r; bp_z r])
                    (map (binned_of (edges xmin xmax bs buf) (edges ymin ymax bs buf)) pts)).
  - apply (Forall2_map_eq _ _ _ _ _ Hrows).
    intros r row [c [_ ->]]. reflexivity.
  - rewrite map_map. apply map_ext. intros [[x y] z]. reflexivity.
Qed.

End Table.


(** ** C10: the lookup of a point in the table *)


Lemma retrieve_not_one (px py pz : float64) (features : list acc_row) :
  occurrences px py pz features <> 1%nat ->
  retrieve_accumulation_features [px; py; pz] features = Raise AssertionError.
Proof.
  unfold occurrences, retrieve_accumulation_features. intro H.
  apply Nat.eqb_neq in H. rewrite H. reflexivity.
Qed.



Lemma same_point_row3 (p q : Q * Q * Q) (r : acc_row) :
  same_place p q -> xyz_of r = row3 q ->
  same_point (Fin (qx p)) (Fin (qy p)) (Fin (qz p)) r = true.
Proof.
  intros [Hx [Hy Hz]] Hr. destruct q as [[x y] z]. unfold xyz_of in Hr. simpl in Hr.
  injection Hr as Ex Ey Ez. unfold same_point. rewrite Ex, Ey, Ez. simpl.
  unfold qx, qy, qz in *. simpl in *.
  rewrite !andb_true_iff, !Qeq_bool_true. repeat split; symmetry; assumption.
Qed.


Lemma row3_eta (p : Q * Q * Q) : row3 p = [Fin (qx p); Fin (qy p); Fin (qz p)].
Proof. destruct p as [[x y] z]. reflexivity. Qed.


(** ** The run over all points *)

Lemma getitem_all {A : Type} (l : list A) :
  map (fun idx => getitem l idx) (seq 0 (length l)) = map Ok l.
Proof.
  assert (H : forall pre, map (fun idx => getitem (pre ++ l) idx)
                              (seq (length pre) (length l)) = map Ok l).
  { induction l as [|a l IH]; intro pre; [reflexivity|].
    simpl. f_equal.
    - unfold getitem. rewrite nth_error_app2 by lia.
      rewrite Nat.sub_diag. reflexivity.
    - specialize (IH (pre ++ [a])). rewrite <- app_assoc in IH. simpl in IH.
      rewrite length_app in IH. simpl in IH.
      replace (length pre + 1)%nat with (S (length pre)) in IH by lia. exact IH. }
  apply (H []).
Qed.


Lemma firstn_with_extras (pe : (Q * Q * Q) * list float64) :
  firstn 3 (with_extras pe) = row3 (fst pe).
Proof. destruct pe as [[[x y] z] extras]. reflexivity. Qed.

Lemma skipn_with_extras (pe : (Q * Q * Q) * list float64) :
  skipn 3 (with_extras pe) = snd pe.
Proof. destruct pe as [[[x y] z] extras]. reflexivity. Qed.

Lemma firstn_cloud (pes : list ((Q * Q * Q) * list float64)) :
  map (firstn 3) (map with_extras pes) = map row3 (map fst pes).
Proof.
  rewrite !map_map. apply map_ext. apply firstn_with_extras.
Qed.

Section Run.
Context {libm : Libm} {sk : Sklearn}.


End Run.

Section RunAll.
Context {libm : Libm} {sk : Sklearn} {rng : NumpyRandom}.


End RunAll.


(** ** C4 and C7: the row of a point *)

Section Row.
Context {libm : Libm} {sk : Sklearn}.

Lemma features3d_shape (l v : list float64) :
  features3d l = Ok v -> exists alpha beta, v = [alpha; beta].
Proof.
  unfold features3d. intro H.
  destruct (getitem l 0); [|discriminate].
  destruct (getitem l 1); [|discriminate].
  cbn [bind] in H. injection H as <-. eauto.
Qed.

Lemma compute_3D_properties_shape (z d v : list float64) :
  compute_3D_properties z d = Ok v ->
  exists radius z_range std_deviation density,
    v = [radius; z_range; std_deviation; density; NaN].
Proof.
  unfold compute_3D_properties. intro H.
  destruct (np_max d); [|discriminate].
  destruct (np_ptp z); [|discriminate].
  cbn [bind] in H. injection H as <-. eauto.
Qed.

Lemma compute_3D_features_shape (l v : list float64) :
  compute_3D_features l = Ok v ->
  exists curvature_change linearity planarity scattering omnivariance
         anisotropy eigenentropy eigenvalue_sum,
    v = [curvature_change; linearity; planarity; scattering; omnivariance;
         anisotropy; eigenentropy; eigenvalue_sum].
Proof.
  unfold compute_3D_features. intro H.
  destruct (getitem (normalize_over_1 l) 2); [|discriminate].
  destruct (getitem (normalize_over_1 l) 0); [|discriminate].
  destruct (getitem (normalize_over_1 l) 1); [|discriminate].
  cbn [bind] in H.
  destruct (mapM _ (normalize_over_1 l)); [|discriminate].
  cbn [bind] in H. injection H as <-. do 8 eexists. reflexivity.
Qed.

Lemma compute_2D_properties_shape (p : list float64) (n : list (list float64))
  (v : list float64) :
  compute_2D_properties p n = Ok v ->
  exists radius_2D density_2D, v = [radius_2D; density_2D].
Proof.
  unfold compute_2D_properties. intro H.
  destruct (mapM (fun row => getitem row 0) n); [|discriminate].
  destruct (mapM (fun row => getitem row 1) n); [|discriminate].
  cbn [bind] in H.
  destruct (mapM _ (combine _ _)); [|discriminate]. cbn [bind] in H.
  destruct (py_max _); [|discriminate]. cbn [bind] in H.
  destruct (py_div _ _); [|discriminate]. cbn [bind] in H.
  injection H as <-. eauto.
Qed.

Lemma compute_2D_features_shape (l v : list float64) :
  compute_2D_features l = Ok v ->
  exists eigenvalues_sum_2D eigenvalues_ratio_2D,
    v = [eigenvalues_sum_2D; eigenvalues_ratio_2D].
Proof.
  unfold compute_2D_features. intro H.
  destruct (getitem l 0); [|discriminate].
  destruct (getitem l 1); [|discriminate].
  cbn [bind] in H. injection H as <-. eauto.
Qed.

Lemma retrieve_shape (p : list float64) (t : list acc_row) (v : list float64) :
  retrieve_accumulation_features p t = Ok v ->
  exists acc_density z_range z_std, v = [acc_density; z_range; z_std].
Proof.
  unfold retrieve_accumulation_features. intro H.
  destruct p as [|px [|py [|pz [|]]]]; try discriminate.
  destruct (assert _); [|discriminate]. cbn [bind] in H.
  destruct (getitem _ 0); [|discriminate]. cbn [bind] in H.
  injection H as <-. eauto.
Qed.

(** A row is the concatenation of what its steps return, followed by the
    extra channels divided by 255. *)
Lemma point_features_parts (point_cloud : list (list float64))
  (nb_neighbors : nat) (acc_features : list acc_row)
  (kd_tree : list (list float64)) (point row : list float64) :
  point_features point_cloud nb_neighbors acc_features kd_tree point = Ok row ->
  exists lbda_3D lbda_2D z_neighbors distances neighbors_2D
         f_bary z f_prop3 f_feat3 f_prop2 f_feat2 f_acc,
    features3d lbda_3D = Ok f_bary
    /\ nth_error point 2 = Some z
    /\ compute_3D_properties z_neighbors distances = Ok f_prop3
    /\ compute_3D_features lbda_3D = Ok f_feat3
    /\ compute_2D_properties (firstn 2 (firstn 3 point)) neighbors_2D = Ok f_prop2
    /\ compute_2D_features lbda_2D = Ok f_feat2
    /\ retrieve_accumulation_features (firstn 3 point) acc_features = Ok f_acc
    /\ row = f_bary ++ [z] ++ f_prop3 ++ f_feat3 ++ f_prop2 ++ f_feat2 ++ f_acc
             ++ rgb_tolist (skipn 3 point).
Proof.
  unfold point_features. cbv zeta. intro H.
  destruct (build_neighborhood _ _ _) as [nbh|]; [|discriminate]. cbn [bind] in H.
  destruct (mapM _ (indices nbh)) as [rows|]; [|discriminate]. cbn [bind] in H.
  destruct (_pca (map (firstn 3) rows) 3) as [lbda_3D|]; [|discriminate].
  cbn [bind] in H.
  destruct (_pca _ 2) as [lbda_2D|]; [|discriminate]. cbn [bind] in H.
  destruct (features3d lbda_3D) as [f_bary|] eqn:E1; [|discriminate].
  cbn [bind] in H.
  destruct (getitem (firstn 3 point) 2) as [z|] eqn:Ez; [|discriminate].
  cbn [bind] in H.
  destruct (mapM _ (map (firstn 3) rows)) as [zn|]; [|discriminate].
  cbn [bind] in H.
  destruct (compute_3D_properties zn (distance nbh)) as [f2|] eqn:E2; [|discriminate].
  cbn [bind] in H.
  destruct (compute_3D_features lbda_3D) as [f3|] eqn:E3; [|discriminate].
  cbn [bind] in H.
  destruct (compute_2D_properties _ _) as [f4|] eqn:E4; [|discriminate].
  cbn [bind] in H.
  destruct (compute_2D_features lbda_2D) as [f5|] eqn:E5; [|discriminate].
  cbn [bind] in H.
  destruct (retrieve_accumulation_features _ _) as [f6|] eqn:E6; [|discriminate].
  cbn [bind] in H. injection H as <-.
  exists lbda_3D, lbda_2D, zn, (distance nbh), (map (firstn 2) (map (firstn 3) rows)),
         f_bary, z, f2, f3, f4, f5, f6.
  split; [first [reflexivity | assumption]|].
  split.
  { unfold getitem in Ez.
    destruct (nth_error (firstn 3 point) 2) as [z'|] eqn:En; [|discriminate].
    injection Ez as ->.
    destruct point as [|a [|b [|c rest]]]; try discriminate.
    exact En. }
  do 5 (split; [first [reflexivity | assumption]|]). reflexivity.
Qed.

End Row.

(** A row that the generator yields is the row of the point at its place
    in the sample. *)
Lemma yield_all_nth (f : list float64 -> result (list float64))
  (sample : list (result (list float64))) (i : nat) (row : list float64) :
  nth_error (fst (yield_all f sample)) i = Some row ->
  exists point, nth_error sample i = Some (Ok point) /\ f point = Ok row.
Proof.
  revert i. induction sample as [|p rest IH]; intros i H.
  - destruct i; discriminate.
  - simpl in H. destruct p as [point|e]; [|destruct i; discriminate].
    cbn [bind] in H. destruct (f point) as [r|e] eqn:E; [|destruct i; discriminate].
    cbn [fst] in H. destruct i as [|i].
    + simpl in H. injection H as ->. exists point. split; [reflexivity | exact E].
    + simpl in H. apply IH in H. exact H.
Qed.

Lemma nth_error_seq_0 (n i idx : nat) :
  nth_error (seq 0 n) i = Some idx -> idx = i.
Proof.
  intro H.
  assert (L : (i < length (seq 0 n))%nat) by (apply nth_error_Some; congruence).
  rewrite length_seq in L.
  rewrite (nth_error_nth' (seq 0 n) 0%nat) in H by (rewrite length_seq; exact L).
  rewrite seq_nth in H by exact L. injection H as <-. reflexivity.
Qed.

Section Rows.
Context {libm : Libm} {sk : Sklearn} {rng : NumpyRandom}.

(** Row [i] of a run is the row of a point of the cloud; in a run over all
    the points, of point [i]. *)
Lemma generate_features_nth (point_cloud : list (list float64))
  (nb_neighbors : nat) (nb_points : option nat) (st : rng_state)
  (i : nat) (row : list float64) :
  nth_error (fst (fst (generate_features point_cloud nb_neighbors nb_points st))) i
  = Some row ->
  exists acc_features point,
    build_accumulation_features (map (firstn 3) point_cloud)
      default_bin_size default_buf = Ok acc_features
    /\ In point point_cloud
    /\ (nb_points = None -> nth_error point_cloud i = Some point)
    /\ point_features point_cloud nb_neighbors acc_features
         (map (firstn 3) point_cloud) point = Ok row.
Proof.
  unfold generate_features. intro H.
  destruct (build_accumulation_features _ _ _) as [acc|e];
    [|destruct i; discriminate].
  destruct (sample_mask (length point_cloud) nb_points st) as [[mask|e] st'] eqn:Em;
    [|destruct i; discriminate].
  cbn [fst] in H. apply yield_all_nth in H. destruct H as [point [Hn Hf]].
  rewrite nth_error_map in Hn.
  destruct (nth_error mask i) as [idx|] eqn:Ei; [|discriminate].
  simpl in Hn. injection Hn as Hg. unfold getitem in Hg.
  destruct (nth_error point_cloud idx) as [p|] eqn:Ep; [|discriminate].
  injection Hg as ->.
  exists acc, point. split; [reflexivity|].
  split; [apply (nth_error_In _ _ Ep)|].
  split; [|exact Hf].
  intros ->. cbn [sample_mask] in Em. injection Em as <- _.
  apply nth_error_seq_0 in Ei. subst idx. exact Ep.
Qed.

End Rows.

Section Columns.
Context {libm : Libm} {sk : Sklearn}.

(** The columns of the row of a point, in their order. *)
Lemma point_features_columns (point_cloud : list (list float64))
  (nb_neighbors : nat) (acc_features : list acc_row)
  (kd_tree : list (list float64)) (point row : list float64) :
  point_features point_cloud nb_neighbors acc_features kd_tree point = Ok row ->
  exists alpha beta z radius z_range std_deviation density
         curvature_change linearity planarity scattering omnivariance
         anisotropy eigenentropy eigenvalue_sum
         radius_2D density_2D eigenvalues_sum_2D eigenvalues_ratio_2D
         acc_density bin_z_range bin_z_std,
    nth_error point 2 = Some z
    /\ row = [alpha; beta; z; radius; z_range; std_deviation; density; NaN;
              curvature_change; linearity; planarity; scattering; omnivariance;
              anisotropy; eigenentropy; eigenvalue_sum;
              radius_2D; density_2D; eigenvalues_sum_2D; eigenvalues_ratio_2D;
              acc_density; bin_z_range; bin_z_std]
             ++ rgb_tolist (skipn 3 point).
Proof.
  intro H.
  destruct (point_features_parts _ _ _ _ _ _ H)
    as [l3 [l2 [zn [ds [n2 [f1 [z [f2 [f3 [f4 [f5 [f6
         [E1 [Ez [E2 [E3 [E4 [E5 [E6 ->]]]]]]]]]]]]]]]]]]].
  destruct (features3d_shape _ _ E1) as [alpha [beta ->]].
  destruct (compute_3D_properties_shape _ _ _ E2) as [r [zr [sd [dens ->]]]].
  destruct (compute_3D_features_shape _ _ E3)
    as [cc [lin [pla [sca [omn [ani [ent [esum ->]]]]]]]].
  destruct (compute_2D_properties_shape _ _ _ E4) as [r2 [d2 ->]].
  destruct (compute_2D_features_shape _ _ E5) as [es2 [er2 ->]].
  destruct (retrieve_shape _ _ _ E6) as [ad [bzr [bzs ->]]].
  exists alpha, beta, z, r, zr, sd, dens, cc, lin, pla, sca, omn, ani, ent, esum,
         r2, d2, es2, er2, ad, bzr, bzs.
  split; [exact Ez | reflexivity].
Qed.

End Columns.

Lemma first_grey_row_ok :
  exists row, nth_error (fst (run_all tetrahedron_grey 4)) 0 = Some row.
Proof. vm_compute. eexists. reflexivity. Qed.

Section Steps.
Context {libm : Libm} {sk : Sklearn}.

(** The steps of the row of a point, each with what it is called on, and
    the row they make. *)
Lemma point_features_steps (point_cloud : list (list float64))
  (nb_neighbors : nat) (acc_features : list acc_row)
  (kd_tree : list (list float64)) (point row : list float64) :
  point_features point_cloud nb_neighbors acc_features kd_tree point = Ok row ->
  exists (nbh : neighborhood) (rows : list (list float64))
         (lbda_3D lbda_2D z_neighbors : list float64),
    build_neighborhood (firstn 3 point) nb_neighbors kd_tree = Ok nbh
    /\ mapM (fun i => getitem point_cloud i) (indices nbh) = Ok rows
    /\ _pca (map (firstn 3) rows) 3 = Ok lbda_3D
    /\ _pca (map (firstn 2) (map (firstn 3) rows)) 2 = Ok lbda_2D
    /\ mapM (fun r => getitem r 2) (map (firstn 3) rows) = Ok z_neighbors
    /\ exists alpha beta z radius z_range std_deviation density
              curvature_change linearity planarity scattering omnivariance
              anisotropy eigenentropy eigenvalue_sum
              radius_2D density_2D eigenvalues_sum_2D eigenvalues_ratio_2D
              acc_density bin_z_range bin_z_std,
         features3d lbda_3D = Ok [alpha; beta]
         /\ nth_error point 2 = Some z
         /\ compute_3D_properties z_neighbors (distance nbh)
            = Ok [radius; z_range; std_deviation; density; NaN]
         /\ compute_3D_features lbda_3D
            = Ok [curvature_change; linearity; planarity; scattering;
                  omnivariance; anisotropy; eigenentropy; eigenvalue_sum]
         /\ compute_2D_properties (firstn 2 (firstn 3 point))
              (map (firstn 2) (map (firstn 3) rows))
            = Ok [radius_2D; density_2D]
         /\ compute_2D_features lbda_2D
            = Ok [eigenvalues_sum_2D; eigenvalues_ratio_2D]
         /\ retrieve_accumulation_features (firstn 3 point) acc_features
            = Ok [acc_density; bin_z_range; bin_z_std]
         /\ row = [alpha; beta; z; radius; z_range; std_deviation; density; NaN;
                   curvature_change; linearity; planarity; scattering;
                   omnivariance; anisotropy; eigenentropy; eigenvalue_sum;
                   radius_2D; density_2D; eigenvalues_sum_2D;
                   eigenvalues_ratio_2D; acc_density; bin_z_range; bin_z_std]
                  ++ rgb_tolist (skipn 3 point).
Proof.
  unfold point_features. cbv zeta. intro H.
  destruct (build_neighborhood _ _ _) as [nbh|] eqn:En; [|discriminate].
  cbn [bind] in H.
  destruct (mapM _ (indices nbh)) as [rows|] eqn:Er; [|discriminate].
  cbn [bind] in H.
  destruct (_pca (map (firstn 3) rows) 3) as [lbda_3D|] eqn:E3D; [|discriminate].
  cbn [bind] in H.
  destruct (_pca _ 2) as [lbda_2D|] eqn:E2D; [|discriminate]. cbn [bind] in H.
  destruct (features3d lbda_3D) as [f_bary|] eqn:E1; [|discriminate].
  cbn [bind] in H.
  destruct (getitem (firstn 3 point) 2) as [z|] eqn:Ez; [|discriminate].
  cbn [bind] in H.
  destruct (mapM _ (map (firstn 3) rows)) as [zn|] eqn:Ezn; [|discriminate].
  cbn [bind] in H.
  destruct (compute_3D_properties zn (distance nbh)) as [f2|] eqn:E2; [|discriminate].
  cbn [bind] in H.
  destruct (compute_3D_features lbda_3D) as [f3|] eqn:E3; [|discriminate].
  cbn [bind] in H.
  destruct (compute_2D_properties _ _) as [f4|] eqn:E4; [|discriminate].
  cbn [bind] in H.
  destruct (compute_2D_features lbda_2D) as [f5|] eqn:E5; [|discriminate].
  cbn [bind] in H.
  destruct (retrieve_accumulation_features _ _) as [f6|] eqn:E6; [|discriminate].
  cbn [bind] in H. injection H as <-.
  exists nbh, rows, lbda_3D, lbda_2D, zn.
  split; [reflexivity|]. split; [exact Er|]. split; [exact E3D|].
  split; [exact E2D|]. split; [exact Ezn|].
  destruct (features3d_shape _ _ E1) as [alpha [beta ->]].
  destruct (compute_3D_properties_shape _ _ _ E2) as [r [zr [sd [dens ->]]]].
  destruct (compute_3D_features_shape _ _ E3)
    as [cc [lin [pla [sca [omn [ani [ent [esum ->]]]]]]]].
  destruct (compute_2D_properties_shape _ _ _ E4) as [r2 [d2 ->]].
  destruct (compute_2D_features_shape _ _ E5) as [es2 [er2 ->]].
  destruct (retrieve_shape _ _ _ E6) as [ad [bzr [bzs ->]]].
  exists alpha, beta, z, r, zr, sd, dens, cc, lin, pla, sca, omn, ani, ent, esum,
         r2, d2, es2, er2, ad, bzr, bzs.
  split; [exact E1|].
  split.
  { unfold getitem in Ez.
    destruct (nth_error (firstn 3 point) 2) as [z'|] eqn:En'; [|discriminate].
    injection Ez as ->.
    destruct point as [|a [|b [|c rest]]]; try discriminate.
    exact En'. }
  split; [exact E2|]. split; [exact E3|]. split; [exact E4|].
  split; [exact E5|]. split; reflexivity.
Qed.

End Steps.

(** C4, as the code has it.  Row [i] of a run of [generate_features] is the
    row of a point of the cloud (point [i] when all the points are
    processed).  It has 23 feature columns in a fixed order, each the
    result of a step of the loop on the neighborhood of the point: alpha
    and beta, from [features3d] on the singular values of the neighbors;
    the z of the point; radius, z_range, std_deviation, density and a
    missing verticality, from [compute_3D_properties] on the z-coordinates
    of the neighbors and their distances; the eight 3D features, from
    [compute_3D_features]; radius_2D and density_2D, from
    [compute_2D_properties]; the two 2D features, from
    [compute_2D_features]; and the three accumulation features, from the
    lookup of the point in the table of the cloud.  The extra channels of
    the point follow, each divided by 255.  Of the coordinates of the point
    only z is in the row, as its third column. *)
Theorem row_layout (libm : Libm) (sk : Sklearn) (rng : NumpyRandom)
  (point_cloud : list (list float64)) (nb_neighbors : nat)
  (nb_points : option nat) (st : rng_state) (i : nat) (row : list float64) :
  nth_error (fst (fst (generate_features point_cloud nb_neighbors nb_points st))) i
  = Some row ->
  exists (point : list float64) (acc_features : list acc_row)
         (nbh : neighborhood) (neighbors : list (list float64))
         (lbda_3D lbda_2D z_neighbors : list float64),
    In point point_cloud
    /\ (nb_points = None -> nth_error point_cloud i = Some point)
    /\ build_accumulation_features (map (firstn 3) point_cloud)
         default_bin_size default_buf = Ok acc_features
    /\ build_neighborhood (firstn 3 point) nb_neighbors
         (map (firstn 3) point_cloud) = Ok nbh
    /\ mapM (fun i => getitem point_cloud i) (indices nbh) = Ok neighbors
    /\ _pca (map (firstn 3) neighbors) 3 = Ok lbda_3D
    /\ _pca (map (firstn 2) (map (firstn 3) neighbors)) 2 = Ok lbda_2D
    /\ mapM (fun r => getitem r 2) (map (firstn 3) neighbors) = Ok z_neighbors
    /\ exists alpha beta z radius z_range std_deviation density
              curvature_change linearity planarity scattering omnivariance
              anisotropy eigenentropy eigenvalue_sum
              radius_2D density_2D eigenvalues_sum_2D eigenvalues_ratio_2D
              acc_density bin_z_range bin_z_std,
         features3d lbda_3D = Ok [alpha; beta]
         /\ nth_error point 2 = Some z
         /\ compute_3D_properties z_neighbors (distance nbh)
            = Ok [radius; z_range; std_deviation; density; NaN]
         /\ compute_3D_features lbda_3D
            = Ok [curvature_change; linearity; planarity; scattering;
                  omnivariance; anisotropy; eigenentropy; eigenvalue_sum]
         /\ compute_2D_properties (firstn 2 (firstn 3 point))
              (map (firstn 2) (map (firstn 3) neighbors))
            = Ok [radius_2D; density_2D]
         /\ compute_2D_features lbda_2D
            = Ok [eigenvalues_sum_2D; eigenvalues_ratio_2D]
         /\ retrieve_accumulation_features (firstn 3 point) acc_features
            = Ok [acc_density; bin_z_range; bin_z_std]
         /\ row = [alpha; beta; z; radius; z_range; std_deviation; density; NaN;
                   curvature_change; linearity; planarity; scattering;
                   omnivariance; anisotropy; eigenentropy; eigenvalue_sum;
                   radius_2D; density_2D; eigenvalues_sum_2D;
                   eigenvalues_ratio_2D; acc_density; bin_z_range; bin_z_std]
                  ++ rgb_tolist (skipn 3 point).
Proof.
  intro H.
  destruct (generate_features_nth _ _ _ _ _ _ H) as [acc [point [Eb [Hin [Hi Hf]]]]].
  destruct (point_features_steps _ _ _ _ _ _ Hf)
    as [nbh [rows [l3 [l2 [zn [E1 [E2 [E3 [E4 [E5 Hcols]]]]]]]]]].
  exists point, acc, nbh, rows, l3, l2, zn.
  split; [exact Hin|]. split; [exact Hi|]. split; [exact Eb|].
  split; [exact E1|]. split; [exact E2|]. split; [exact E3|].
  split; [exact E4|]. split; [exact E5 | exact Hcols].
Qed.

(** The row of the first point of the grey tetrahedron. *)
Lemma row_layout_witness :
  exists row z,
    nth_error (fst (run_all tetrahedron_grey 4)) 0 = Some row
    /\ nth_error (point_of [4; 2; 1; 255]%Z) 2 = Some z
    /\ nth_error row 2 = Some z
    /\ nth_error row 7 = Some NaN.
Proof.
  destruct first_grey_row_ok as [row E].
  destruct (row_layout rounding_libm exhaustive_sklearn dealing_rng
              tetrahedron_grey 4 None 0%nat 0%nat row E)
    as [point [acc [nbh [rows [l3 [l2 [zn [_ [Hi [_ [_ [_ [_ [_ [_
         [alpha [beta [z [radius [z_range [std_deviation [density
         [curvature_change [linearity [planarity [scattering [omnivariance
         [anisotropy [eigenentropy [eigenvalue_sum [radius_2D [density_2D
         [eigenvalues_sum_2D [eigenvalues_ratio_2D [acc_density [bin_z_range
         [bin_z_std [_ [Ez [_ [_ [_ [_ [_ Er]]]]]]]]]]]]]]]]]]]]]]]]]]]]]]]]]]]]]]]]]]]].
  specialize (Hi eq_refl). simpl in Hi. injection Hi as <-.
  exists row, z. split; [exact E|]. split; [exact Ez|].
  rewrite Er. split; reflexivity.
Defined.

(** C4, as stated, fails.  The first point of the grey tetrahedron is
    (4, 2, 1) with the extra channel 255; its row starts with alpha = 4,
    beta = 30 and z = 1, has 24 columns, and ends with 255 / 255 = 1: the
    second column is not y, and the fourth is not the extra channel. *)
Lemma row_starts_with_alpha_beta :
  exists row,
    nth_error (fst (run_all tetrahedron_grey 4)) 0 = Some row
    /\ nth_error tetrahedron_grey 0 = Some [Fin 4; Fin 2; Fin 1; Fin 255]
    /\ firstn 3 row = [Fin 4; Fin 30; Fin 1]
    /\ length row = 24%nat
    /\ map canon (skipn 23 row) = [Fin 1]
    /\ firstn 4 row <> [Fin 4; Fin 2; Fin 1; Fin 255].
Proof.
  eexists. split; [vm_compute; reflexivity|].
  repeat split; try (vm_compute; reflexivity).
  vm_compute. discriminate.
Qed.

(** C7, as the code has it.  The extra channels of a point come last in
    its row, after the 23 feature columns, each divided by 255. *)
Theorem extra_channels_divided (libm : Libm) (sk : Sklearn) (rng : NumpyRandom)
  (point_cloud : list (list float64)) (nb_neighbors : nat)
  (nb_points : option nat) (st : rng_state) (i : nat) (row : list float64) :
  nth_error (fst (fst (generate_features point_cloud nb_neighbors nb_points st))) i
  = Some row ->
  exists point,
    In point point_cloud
    /\ (nb_points = None -> nth_error point_cloud i = Some point)
    /\ length row = (23 + length (skipn 3 point))%nat
    /\ skipn 23 row = map (fun c => (c / of_Z 255)%f64) (skipn 3 point).
Proof.
  intro H.
  destruct (generate_features_nth _ _ _ _ _ _ H) as [acc [point [_ [Hin [Hi Hf]]]]].
  exists point. split; [exact Hin|]. split; [exact Hi|].
  destruct (point_features_columns _ _ _ _ _ _ Hf)
    as [alpha [beta [z [radius [z_range [std_deviation [density
         [curvature_change [linearity [planarity [scattering [omnivariance
         [anisotropy [eigenentropy [eigenvalue_sum [radius_2D [density_2D
         [eigenvalues_sum_2D [eigenvalues_ratio_2D [acc_density [bin_z_range
         [bin_z_std [_ ->]]]]]]]]]]]]]]]]]]]]]]].
  split.
  - rewrite length_app. unfold rgb_tolist. rewrite length_map. reflexivity.
  - reflexivity.
Qed.

(** The row of the first point of the grey tetrahedron: 24 columns, the last
    one 255 / 255. *)
Lemma extra_channels_divided_witness :
  exists row,
    nth_error (fst (run_all tetrahedron_grey 4)) 0 = Some row
    /\ length row = 24%nat
    /\ skipn 23 row = [(Fin 255 / of_Z 255)%f64].
Proof.
  destruct first_grey_row_ok as [row E].
  destruct (extra_channels_divided rounding_libm exhaustive_sklearn dealing_rng
              tetrahedron_grey 4 None 0%nat 0%nat row E)
    as [point [_ [Hi [L S]]]].
  specialize (Hi eq_refl). simpl in Hi. injection Hi as <-.
  exists row. split; [exact E|]. split; [exact L | exact S].
Defined.

(** C7, as stated, fails.  The extra channels of the four points of the
    grey tetrahedron are 255, 51, 0 and 102; their rows end with 1, 1/5, 0
    and 2/5. *)
Lemma extra_channels_are_scaled :
  map (fun point => skipn 3 point) tetrahedron_grey
  = [[Fin 255]; [Fin 51]; [Fin 0]; [Fin 102]]
  /\ map (fun row => map canon (skipn 23 row)) (fst (run_all tetrahedron_grey 4))
     = [[Fin 1]; [Fin (1 # 5)]; [Fin 0]; [Fin (2 # 5)]]
  /\ snd (run_all tetrahedron_grey 4) = None.
Proof. repeat split; vm_compute; reflexivity. Qed.

(** ** C6: reproducible runs *)

Section Reproducible.
Context {libm : Libm} {sk : Sklearn} {rng : NumpyRandom}.

Lemma generate_features_all_points (point_cloud : list (list float64))
  (nb_neighbors : nat) (st st' : rng_state) :
  fst (generate_features point_cloud nb_neighbors None st)
  = fst (generate_features point_cloud nb_neighbors None st')
  /\ snd (generate_features point_cloud nb_neighbors None st) = st.
Proof.
  unfold generate_features.
  destruct (build_accumulation_features _ _ _); split; reflexivity.
Qed.

Lemma generate_features_same_draw (point_cloud : list (list float64))
  (nb_neighbors size : nat) (st st' : rng_state) :
  fst (random_choice st (length point_cloud) size)
  = fst (random_choice st' (length point_cloud) size) ->
  fst (generate_features point_cloud nb_neighbors (Some size) st)
  = fst (generate_features point_cloud nb_neighbors (Some size) st').
Proof.
  intro H. unfold generate_features, sample_mask.
  destruct (build_accumulation_features _ _ _); [|reflexivity].
  destruct (size <=? length point_cloud)%nat; [|reflexivity].
  cbn [fst snd]. rewrite H. reflexivity.
Qed.

End Reproducible.

(** C6, as the code has it.  [generate_features] takes no seed.  Without
    [nb_points] it does not touch the generator, and two runs on the same
    cloud and the same number of neighbors produce the same stream.  With
    [nb_points] the stream is that of the indices the global generator
    deals: two runs produce the same stream whenever it deals the same
    indices, as it does from one state. *)
Theorem runs_agree_on_equal_draws (libm : Libm) (sk : Sklearn)
  (rng : NumpyRandom) (point_cloud : list (list float64)) (nb_neighbors : nat) :
  (forall st st' : rng_state,
     fst (generate_features point_cloud nb_neighbors None st)
     = fst (generate_features point_cloud nb_neighbors None st')
     /\ snd (generate_features point_cloud nb_neighbors None st) = st)
  /\ (forall (size : nat) (st st' : rng_state),
        fst (random_choice st (length point_cloud) size)
        = fst (random_choice st' (length point_cloud) size) ->
        fst (generate_features point_cloud nb_neighbors (Some size) st)
        = fst (generate_features point_cloud nb_neighbors (Some size) st')).
Proof.
  split.
  - intros st st'. apply generate_features_all_points.
  - intros size st st'. apply generate_features_same_draw.
Qed.

(** The dealing generator deals the index 0 from the states 0 and 4. *)
Lemma runs_agree_on_equal_draws_witness :
  fst (@generate_features rounding_libm exhaustive_sklearn dealing_rng
         tetrahedron 4 (Some 1%nat) 0%nat)
  = fst (@generate_features rounding_libm exhaustive_sklearn dealing_rng
           tetrahedron 4 (Some 1%nat) 4%nat).
Proof.
  destruct (runs_agree_on_equal_draws rounding_libm exhaustive_sklearn dealing_rng
              tetrahedron 4) as [_ H].
  apply (H 1%nat 0%nat 4%nat). reflexivity.
Defined.

(** C6, as stated, fails.  Two runs on the tetrahedron with a sample of
    one point, the second from the state the first left the generator in:
    the first yields the row of the first point (z = 1), the second the row
    of the second point (z = -1). *)
Lemma consecutive_runs_differ :
  map (fun row => nth 2 row NaN) (fst (fst first_run)) = [Fin 1]
  /\ map (fun row => nth 2 row NaN) (fst (fst second_run)) = [Fin (-1)]
  /\ fst first_run <> fst second_run.
Proof.
  split; [vm_compute; reflexivity|].
  split; [vm_compute; reflexivity|].
  intro H.
  assert (A : map (fun row => nth 2 row NaN) (fst (fst first_run))
              = map (fun row => nth 2 row NaN) (fst (fst second_run)))
    by (rewrite H; reflexivity).
  vm_compute in A. discriminate A.
Qed.

(** * Further properties of the code *)

(** ** Sums of finite values *)

Lemma fold_left_Qplus (qs : list Q) (a : Q) :
  (fold_left Qplus qs a == a + Qsum qs)%Q.
Proof.
  revert a. induction qs as [|q qs IH]; intro a; simpl.
  - ring.
  - rewrite IH. ring.
Qed.

Lemma fold_left_fadd_Fin (qs : list Q) (a : Q) :
  fold_left fadd (map Fin qs) (Fin a) = Fin (fold_left Qplus qs a).
Proof.
  revert a. induction qs as [|q qs IH]; intro a; [reflexivity|].
  simpl. apply IH.
Qed.

Lemma py_sum_Fin (qs : list Q) :
  exists s : Q, py_sum (map Fin qs) = Fin s /\ (s == Qsum qs)%Q.
Proof.
  exists (fold_left Qplus qs (inject_Z 0)). split.
  - apply fold_left_fadd_Fin.
  - rewrite fold_left_Qplus. unfold inject_Z. ring.
Qed.

Lemma np_sum_Fin (qs : list Q) :
  exists s : Q, np_sum (map Fin qs) = Fin s /\ (s == Qsum qs)%Q.
Proof.
  exists (fold_left Qplus qs 0%Q). split.
  - apply fold_left_fadd_Fin.
  - rewrite fold_left_Qplus. ring.
Qed.

Lemma Qsum_nonneg (qs : list Q) :
  (forall q, In q qs -> (0 <= q)%Q) -> (0 <= Qsum qs)%Q.
Proof.
  induction qs as [|a qs IH]; intro H; simpl; [lra|].
  assert (0 <= a)%Q by (apply H; now left).
  assert (0 <= Qsum qs)%Q by (apply IH; intros q Hq; apply H; now right).
  lra.
Qed.

Lemma Qsum_bounds (qs : list Q) (q : Q) :
  (forall x, In x qs -> (0 <= x)%Q) -> In q qs -> (q <= Qsum qs)%Q.
Proof.
  induction qs as [|a qs IH]; intros H Hq; [destruct Hq|].
  simpl.
  assert (Ha : (0 <= a)%Q) by (apply H; now left).
  assert (Hs : (0 <= Qsum qs)%Q) by (apply Qsum_nonneg; intros x Hx; apply H; now right).
  destruct Hq as [<-|Hq]; [lra|].
  assert (q <= Qsum qs)%Q by (apply IH; [intros x Hx; apply H; now right | exact Hq]).
  lra.
Qed.

Lemma Qsum_map_div (qs : list Q) (s : Q) :
  ~ (s == 0)%Q -> (Qsum (map (fun q => q / s) qs) == Qsum qs / s)%Q.
Proof.
  intro Hs. induction qs as [|a qs IH]; simpl.
  - field. exact Hs.
  - rewrite IH. field. exact Hs.
Qed.

(** The normalised values of a finite list whose sum is not zero. *)
Lemma normalize_over_1_Fin (qs : list Q) (s : Q) :
  py_sum (map Fin qs) = Fin s -> ~ (s == 0)%Q ->
  normalize_over_1 (map Fin qs) = map Fin (map (fun q => q / s)%Q qs).
Proof.
  intros Es Hs. unfold normalize_over_1. rewrite Es. rewrite !map_map.
  apply map_ext. intro q. simpl.
  apply Qis_zero_false in Hs. rewrite Hs. reflexivity.
Qed.

(** [normalize_over_1], as its docstring has it.  On finite values whose
    sum is not zero the new values are the old ones divided by the sum, and
    they sum to 1; when no value is negative, each new value lies between 0
    and 1. *)
Theorem normalize_over_1_sums_to_one (qs : list Q) :
  ~ (Qsum qs == 0)%Q ->
  exists es : list Q,
    normalize_over_1 (map Fin qs) = map Fin es
    /\ Forall2 (fun q e => (e == q / Qsum qs)%Q) qs es
    /\ feq (py_sum (map Fin es)) (Fin 1)
    /\ ((forall q, In q qs -> (0 <= q)%Q) ->
        forall e, In e es -> (0 <= e)%Q /\ (e <= 1)%Q).
Proof.
  intro Hs.
  destruct (py_sum_Fin qs) as [s [Es Hq]].
  assert (Hs' : ~ (s == 0)%Q) by (rewrite Hq; exact Hs).
  exists (map (fun q => q / s)%Q qs).
  split; [apply normalize_over_1_Fin; assumption|].
  split.
  { apply Forall2_map_of. intros q _. rewrite Hq. reflexivity. }
  split.
  { destruct (py_sum_Fin (map (fun q => q / s)%Q qs)) as [t [Et Ht]].
    rewrite Et. simpl. rewrite Ht, Qsum_map_div by exact Hs'.
    rewrite Hq. field. exact Hs. }
  intros Hpos e He. apply in_map_iff in He. destruct He as [q [<- Hin]].
  assert (H0 : (0 <= Qsum qs)%Q) by (apply Qsum_nonneg; exact Hpos).
  assert (Hp : (0 < s)%Q) by lra.
  assert (Hq0 : (0 <= q)%Q) by (apply Hpos; exact Hin).
  assert (Hq1 : (q <= Qsum qs)%Q) by (apply Qsum_bounds; assumption).
  split.
  - apply Qle_shift_div_l; [exact Hp | lra].
  - apply Qle_shift_div_r; [exact Hp | lra].
Qed.

(** The singular values 8, 4 and 2 of the tetrahedron. *)
Lemma normalize_over_1_sums_to_one_witness :
  exists es : list Q,
    normalize_over_1 (map Fin [8; 4; 2]%Q) = map Fin es
    /\ Forall2 (fun q e => (e == q / Qsum [8; 4; 2])%Q) [8; 4; 2]%Q es
    /\ feq (py_sum (map Fin es)) (Fin 1)
    /\ ((forall q, In q [8; 4; 2]%Q -> (0 <= q)%Q) ->
        forall e, In e es -> (0 <= e)%Q /\ (e <= 1)%Q).
Proof.
  apply (normalize_over_1_sums_to_one [8; 4; 2]%Q). discriminate.
Defined.

(** ** The triangle of the barycentric coordinates *)

(** [features3d] on the eigenvalues that [normalize_over_1] returns
    (exact arithmetic).  For three eigenvalues by decreasing order, none
    negative, the first one positive and 2^300 at most, so that their sum
    does not overflow, alpha and beta are not negative and
    alpha + beta <= 1: the point lies in the triangle.  Its corners:
    alpha = 1 and beta = 0 when only the first eigenvalue is not zero (a
    line); alpha = 0 and beta = 1 when the first two are equal and the
    third is zero (a plane); alpha = beta = 0 when the three are equal. *)
Theorem barycentric_triangle (l0 l1 l2 : Q) :
  (0 < l0)%Q -> (l0 <= huge)%Q -> (l1 <= l0)%Q -> (l2 <= l1)%Q -> (0 <= l2)%Q ->
  exists alpha beta : Q,
    features3d (normalize_over_1 [Fin l0; Fin l1; Fin l2])
    = Ok [Fin alpha; Fin beta]
    /\ (alpha == (l0 - l1) / (l0 + l1 + l2))%Q
    /\ (beta == 2 * (l1 - l2) / (l0 + l1 + l2))%Q
    /\ (0 <= alpha)%Q /\ (0 <= beta)%Q /\ (alpha + beta <= 1)%Q
    /\ ((l1 == 0)%Q -> (alpha == 1)%Q /\ (beta == 0)%Q)
    /\ ((l1 == l0)%Q -> (l2 == 0)%Q -> (alpha == 0)%Q /\ (beta == 1)%Q)
    /\ ((l2 == l0)%Q -> (alpha == 0)%Q /\ (beta == 0)%Q).
Proof.
  intros H0 _ H1 H2 H3.
  assert (Hs : ~ (inject_Z 0 + l0 + l1 + l2 == 0)%Q) by (unfold inject_Z; lra).
  assert (Hs' : ~ (l0 + l1 + l2 == 0)%Q) by lra.
  assert (Hp : (0 < l0 + l1 + l2)%Q) by lra.
  unfold normalize_over_1, py_sum. simpl.
  apply Qis_zero_false in Hs. rewrite Hs. apply Qis_zero_false in Hs.
  unfold features3d. simpl.
  eexists. eexists. split; [reflexivity|].
  set (s := (inject_Z 0 + l0 + l1 + l2)%Q) in *.
  assert (Es : (s == l0 + l1 + l2)%Q) by (unfold s, inject_Z; ring).
  assert (A : (l0 / s + - (l1 / s) == (l0 - l1) / (l0 + l1 + l2))%Q).
  { rewrite Es. field. exact Hs'. }
  assert (B : (inject_Z 2 * (l0 / s) + inject_Z 4 * (l1 / s) + - inject_Z 2
               == 2 * (l1 - l2) / (l0 + l1 + l2))%Q).
  { rewrite Es. unfold inject_Z. field. exact Hs'. }
  split; [exact A|]. split; [exact B|].
  rewrite A, B.
  split; [apply Qle_shift_div_l; [exact Hp | lra]|].
  split; [apply Qle_shift_div_l; [exact Hp | lra]|].
  split.
  { setoid_replace ((l0 - l1) / (l0 + l1 + l2) + 2 * (l1 - l2) / (l0 + l1 + l2))%Q
      with ((l0 + l1 - 2 * l2) / (l0 + l1 + l2))%Q by (field; exact Hs').
    apply Qle_shift_div_r; [exact Hp | lra]. }
  split.
  { intro E1. assert (E2 : (l2 == 0)%Q) by lra. rewrite E1, E2.
    split; field; lra. }
  split.
  { intros E1 E2. rewrite E1, E2. split; field; lra. }
  intro E2. assert (E1 : (l1 == l0)%Q) by lra. rewrite E1, E2.
  split; field; lra.
Qed.

(** The singular values 8, 4 and 2 of the tetrahedron: alpha = 2/7 and
    beta = 2/7. *)
Lemma barycentric_triangle_witness :
  exists alpha beta : Q,
    features3d (normalize_over_1 [Fin 8; Fin 4; Fin 2])
    = Ok [Fin alpha; Fin beta]
    /\ (alpha == (8 - 4) / (8 + 4 + 2))%Q
    /\ (beta == 2 * (4 - 2) / (8 + 4 + 2))%Q
    /\ (0 <= alpha)%Q /\ (0 <= beta)%Q /\ (alpha + beta <= 1)%Q.
Proof.
  destruct (barycentric_triangle 8 4 2) as [a [b [E [A [B [C [D [F _]]]]]]]];
    try discriminate; try reflexivity.
  exists a, b. repeat split; assumption.
Defined.

(** ** The 3D features of positive eigenvalues *)

Section Features3D.
Context {libm : Libm}.

(** What [compute_3D_features] returns on three positive eigenvalues, in
    terms of the normalised ones. *)
Lemma compute_3D_features_positive (l0 l1 l2 : Q) :
  (0 < l0)%Q -> (0 < l1)%Q -> (0 < l2)%Q ->
  exists s e0 e1 e2 : Q,
    (s == l0 + l1 + l2)%Q
    /\ (e0 == l0 / s)%Q /\ (e1 == l1 / s)%Q /\ (e2 == l2 / s)%Q
    /\ compute_3D_features [Fin l0; Fin l1; Fin l2]
       = Ok [Fin e2; Fin ((e0 + - e1) / e0); Fin ((e1 + - e2) / e0); Fin (e2 / e0);
             Fin (libm_pow_third (e0 * e1 * e2)); Fin ((e0 + - e2) / e0);
             Fin (inject_Z (-1)
                  * (0 + e0 * libm_log e0 + e1 * libm_log e1 + e2 * libm_log e2));
             Fin (0 + l0 + l1 + l2)].
Proof.
  intros H0 H1 H2.
  set (s := (inject_Z 0 + l0 + l1 + l2)%Q).
  assert (Es : (s == l0 + l1 + l2)%Q) by (unfold s, inject_Z; ring).
  assert (Hs : (0 < s)%Q) by lra.
  exists s, (l0 / s)%Q, (l1 / s)%Q, (l2 / s)%Q.
  split; [exact Es|]. do 3 (split; [reflexivity|]).
  assert (P0 : (0 < l0 / s)%Q) by (apply Qlt_shift_div_l; lra).
  assert (P1 : (0 < l1 / s)%Q) by (apply Qlt_shift_div_l; lra).
  assert (P2 : (0 < l2 / s)%Q) by (apply Qlt_shift_div_l; lra).
  assert (P : (0 < l0 / s * (l1 / s) * (l2 / s))%Q).
  { apply Qmult_lt_0_compat; [apply Qmult_lt_0_compat|]; assumption. }
  unfold compute_3D_features, normalize_over_1, py_sum. simpl. fold s.
  assert (Zs : Qis_zero s = false) by (apply Qis_zero_false; lra).
  rewrite Zs. simpl.
  assert (Z0 : Qis_zero (l0 / s) = false) by (apply Qis_zero_false; lra).
  rewrite Z0.
  assert (L0 : Qle_bool (l0 / s) 0 = false) by (apply Qle_bool_false; exact P0).
  assert (L1 : Qle_bool (l1 / s) 0 = false) by (apply Qle_bool_false; exact P1).
  assert (L2 : Qle_bool (l2 / s) 0 = false) by (apply Qle_bool_false; exact P2).
  rewrite L0, L1, L2. simpl.
  assert (ZP : Qis_zero (l0 / s * (l1 / s) * (l2 / s)) = false)
    by (apply Qis_zero_false; lra).
  assert (NP : Qsgn_neg (l0 / s * (l1 / s) * (l2 / s)) = false)
    by (apply Qsgn_neg_false; lra).
  rewrite ZP, NP. reflexivity.
Qed.

End Features3D.

(** [compute_3D_features] on three positive eigenvalues.  It returns its
    eight values.  Linearity, planarity and scattering add up to 1, and
    anisotropy is linearity plus planarity.  The normalisation does not show
    in them: they are (l0 - l1) / l0, (l1 - l2) / l0 and l2 / l0.  The
    change of curvature is l2 over the sum of the eigenvalues, and the last
    value is that sum. *)
Theorem dimensionality_features_add_up (libm : Libm) (l0 l1 l2 : Q) :
  (0 < l0)%Q -> (0 < l1)%Q -> (0 < l2)%Q ->
  exists curvature_change linearity planarity scattering omnivariance
         anisotropy eigenentropy eigenvalue_sum : Q,
    compute_3D_features [Fin l0; Fin l1; Fin l2]
    = Ok [Fin curvature_change; Fin linearity; Fin planarity; Fin scattering;
          Fin omnivariance; Fin anisotropy; Fin eigenentropy; Fin eigenvalue_sum]
    /\ (linearity + planarity + scattering == 1)%Q
    /\ (anisotropy == linearity + planarity)%Q
    /\ (linearity == (l0 - l1) / l0)%Q
    /\ (planarity == (l1 - l2) / l0)%Q
    /\ (scattering == l2 / l0)%Q
    /\ (curvature_change == l2 / (l0 + l1 + l2))%Q
    /\ (eigenvalue_sum == l0 + l1 + l2)%Q.
Proof.
  intros H0 H1 H2.
  destruct (compute_3D_features_positive l0 l1 l2 H0 H1 H2)
    as [s [e0 [e1 [e2 [Es [E0 [E1 [E2 E]]]]]]]].
  do 8 eexists. split; [exact E|].
  assert (Hs : ~ (s == 0)%Q) by lra.
  assert (Hl : ~ (l0 == 0)%Q) by lra.
  assert (He : ~ (e0 == 0)%Q).
  { rewrite E0. intro A. apply Hl.
    setoid_replace l0 with (l0 / s * s)%Q by (field; exact Hs).
    rewrite A. ring. }
  split; [field; exact He|].
  split; [field; exact He|].
  split; [rewrite E0, E1; field; split; assumption|].
  split; [rewrite E0, E1, E2; field; split; assumption|].
  split; [rewrite E0, E2; field; split; assumption|].
  split; [rewrite E2, Es; reflexivity|].
  ring.
Qed.

(** The singular values 8, 4 and 2 of the tetrahedron. *)
Lemma dimensionality_features_add_up_witness :
  exists curvature_change linearity planarity scattering omnivariance
         anisotropy eigenentropy eigenvalue_sum : Q,
    @compute_3D_features rounding_libm [Fin 8; Fin 4; Fin 2]
    = Ok [Fin curvature_change; Fin linearity; Fin planarity; Fin scattering;
          Fin omnivariance; Fin anisotropy; Fin eigenentropy; Fin eigenvalue_sum]
    /\ (linearity + planarity + scattering == 1)%Q
    /\ (anisotropy == linearity + planarity)%Q
    /\ (linearity == (8 - 4) / 8)%Q
    /\ (planarity == (4 - 2) / 8)%Q
    /\ (scattering == 2 / 8)%Q
    /\ (curvature_change == 2 / (8 + 4 + 2))%Q
    /\ (eigenvalue_sum == 8 + 4 + 2)%Q.
Proof.
  apply (dimensionality_features_add_up rounding_libm 8 4 2); reflexivity.
Defined.

(** [compute_3D_features] on positive eigenvalues by decreasing order
    (exact arithmetic), the largest 2^300 at most and the smallest 2^-300
    at least, so that neither their sum overflows nor a normalised
    eigenvalue underflows: linearity, planarity and anisotropy lie in
    [[0, 1)], scattering in [(0, 1]], and the change of curvature in
    [(0, 1/3]]. *)
Theorem dimensionality_features_in_range (libm : Libm) (l0 l1 l2 : Q) :
  (l0 <= huge)%Q -> (l1 <= l0)%Q -> (l2 <= l1)%Q -> (tiny <= l2)%Q ->
  exists curvature_change linearity planarity scattering omnivariance
         anisotropy eigenentropy eigenvalue_sum : Q,
    compute_3D_features [Fin l0; Fin l1; Fin l2]
    = Ok [Fin curvature_change; Fin linearity; Fin planarity; Fin scattering;
          Fin omnivariance; Fin anisotropy; Fin eigenentropy; Fin eigenvalue_sum]
    /\ (0 <= linearity)%Q /\ (linearity < 1)%Q
    /\ (0 <= planarity)%Q /\ (planarity < 1)%Q
    /\ (0 < scattering)%Q /\ (scattering <= 1)%Q
    /\ (0 <= anisotropy)%Q /\ (anisotropy < 1)%Q
    /\ (0 < curvature_change)%Q /\ (curvature_change <= 1 # 3)%Q.
Proof.
  intros _ H1 H2 Ht.
  assert (H3 : (0 < l2)%Q) by (assert (P := tiny_pos); lra).
  assert (P0 : (0 < l0)%Q) by lra.
  assert (P1 : (0 < l1)%Q) by lra.
  destruct (compute_3D_features_positive l0 l1 l2 P0 P1 H3)
    as [s [e0 [e1 [e2 [Es [E0 [E1 [E2 E]]]]]]]].
  do 8 eexists. split; [exact E|].
  assert (Hs : (0 < s)%Q) by lra.
  assert (Q0 : (0 < e0)%Q) by (rewrite E0; apply Qlt_shift_div_l; lra).
  assert (Q2 : (0 < e2)%Q) by (rewrite E2; apply Qlt_shift_div_l; lra).
  assert (Q1 : (e1 <= e0)%Q).
  { rewrite E0, E1. apply Qle_shift_div_l; [exact Hs|].
    setoid_replace (l1 / s * s)%Q with l1 by (field; lra). exact H1. }
  assert (Q12 : (e2 <= e1)%Q).
  { rewrite E1, E2. apply Qle_shift_div_l; [exact Hs|].
    setoid_replace (l2 / s * s)%Q with l2 by (field; lra). exact H2. }
  assert (Q3 : (e2 <= 1 # 3)%Q).
  { rewrite E2. apply Qle_shift_div_r; [exact Hs | lra]. }
  split; [apply Qle_shift_div_l; [exact Q0 | lra]|].
  split; [apply Qlt_shift_div_r; [exact Q0 | lra]|].
  split; [apply Qle_shift_div_l; [exact Q0 | lra]|].
  split; [apply Qlt_shift_div_r; [exact Q0 | lra]|].
  split; [apply Qlt_shift_div_l; [exact Q0 | lra]|].
  split; [apply Qle_shift_div_r; [exact Q0 | lra]|].
  split; [apply Qle_shift_div_l; [exact Q0 | lra]|].
  split; [apply Qlt_shift_div_r; [exact Q0 | lra]|].
  split; [exact Q2 | exact Q3].
Qed.

(** The singular values 8, 4 and 2 of the tetrahedron. *)
Lemma dimensionality_features_in_range_witness :
  exists curvature_change linearity planarity scattering omnivariance
         anisotropy eigenentropy eigenvalue_sum : Q,
    @compute_3D_features rounding_libm [Fin 8; Fin 4; Fin 2]
    = Ok [Fin curvature_change; Fin linearity; Fin planarity; Fin scattering;
          Fin omnivariance; Fin anisotropy; Fin eigenentropy; Fin eigenvalue_sum]
    /\ (0 <= linearity)%Q /\ (linearity < 1)%Q
    /\ (0 <= planarity)%Q /\ (planarity < 1)%Q
    /\ (0 < scattering)%Q /\ (scattering <= 1)%Q
    /\ (0 <= anisotropy)%Q /\ (anisotropy < 1)%Q
    /\ (0 < curvature_change)%Q /\ (curvature_change <= 1 # 3)%Q.
Proof.
  apply (dimensionality_features_in_range rounding_libm 8 4 2);
    [apply Qle_bool_imp_le; vm_compute; reflexivity
    | discriminate | discriminate
    | apply Qle_bool_imp_le; vm_compute; reflexivity].
Defined.

(** ** The planar radius *)

(** The rounded-down square root is positive on positive numbers. *)
Lemma rounding_libm_sqrt_positive : sqrt_positive rounding_libm.
Proof.
  intros q Hq. simpl. unfold Qsqrt_down.
  rewrite Qred_correct.
  destruct q as [n d]. unfold Qlt in *. simpl in *.
  rewrite Z.mul_1_r in *.
  assert (Hn : (0 < n)%Z) by lia.
  assert (Hs : (0 < 2 ^ scale_bits)%Z) by reflexivity.
  assert (Hp : (0 < n * Z.pos d * 2 ^ scale_bits * 2 ^ scale_bits)%Z).
  { repeat apply Z.mul_pos_pos; try assumption; reflexivity. }
  apply Z.sqrt_pos in Hp. exact Hp.
Qed.

Section Planar.
Context {libm : Libm}.
Hypothesis sqrt_pos : sqrt_positive libm.

Lemma spec_planar_distance_nonneg (px py x y : Q) :
  (0 <= spec_planar_distance px py x y)%Q.
Proof.
  unfold spec_planar_distance, Qsqrt.
  set (s := ((x - px) * (x - px) + (y - py) * (y - py))%Q).
  destruct (Qis_zero s) eqn:Z; [lra|].
  apply Qis_zero_false in Z.
  assert (Hs : (0 <= s)%Q).
  { unfold s. assert (A := Qsquare_nonneg (x - px)).
    assert (B := Qsquare_nonneg (y - py)). lra. }
  apply Qlt_le_weak. apply sqrt_pos. lra.
Qed.

Lemma spec_planar_distance_zero (px py x y : Q) :
  (spec_planar_distance px py x y == 0)%Q <-> (x == px)%Q /\ (y == py)%Q.
Proof.
  unfold spec_planar_distance, Qsqrt.
  set (s := ((x - px) * (x - px) + (y - py) * (y - py))%Q).
  assert (A := Qsquare_nonneg (x - px)).
  assert (B := Qsquare_nonneg (y - py)).
  split.
  - intro H. destruct (Qis_zero s) eqn:Z.
    + apply Qis_zero_true in Z. unfold s in Z.
      assert (Zx : ((x - px) * (x - px) == 0)%Q) by lra.
      assert (Zy : ((y - py) * (y - py) == 0)%Q) by lra.
      split.
      * destruct (Qmult_integral _ _ Zx); lra.
      * destruct (Qmult_integral _ _ Zy); lra.
    + apply Qis_zero_false in Z.
      assert (P : (0 < libm_sqrt s)%Q) by (apply sqrt_pos; unfold s in *; lra).
      lra.
  - intros [Hx Hy].
    assert (Z : (s == 0)%Q) by (unfold s; rewrite Hx, Hy; ring).
    apply Qis_zero_true in Z. rewrite Z. reflexivity.
Qed.

End Planar.

(** [compute_2D_properties] on a finite point and finite neighbors
    (exact arithmetic), with a square root that is positive on positive
    numbers.  Without neighbors it raises [ValueError] (the maximum of no
    distance).  When every neighbor has the (x, y) of the point it raises
    [ZeroDivisionError].  When the offsets of the neighbors are in the
    range of binary64 squares (none beyond 2^300, one of 2^-300 at least)
    it returns a positive radius and a positive density. *)
Theorem compute_2D_properties_returns (libm : Libm) (px py : Q)
  (pts : list (Q * Q)) :
  sqrt_positive libm ->
  (pts = [] ->
   compute_2D_properties [Fin px; Fin py] (map row2 pts) = Raise ValueError)
  /\ (pts <> [] -> (forall p, In p pts -> same_xy px py p) ->
      compute_2D_properties [Fin px; Fin py] (map row2 pts)
      = Raise ZeroDivisionError)
  /\ (offsets_in_binary64_range px py pts ->
      exists radius_2D density_2D : Q,
        compute_2D_properties [Fin px; Fin py] (map row2 pts)
        = Ok [Fin radius_2D; Fin density_2D]
        /\ (0 < radius_2D)%Q /\ (0 < density_2D)%Q).
Proof.
  intro Hsqrt. split; [intros ->; reflexivity|]. split.
  - intros Hne Hall.
    destruct (compute_2D_properties_spec px py pts Hne) as [r [[Ir _] [Hz _]]].
    apply Hz.
    apply in_map_iff in Ir. destruct Ir as [d [Ed Id]]. injection Ed as ->.
    apply in_map_iff in Id. destruct Id as [p [<- Ip]].
    apply (spec_planar_distance_zero Hsqrt). apply (Hall p Ip).
  - intros [_ [p [Ip Hoff]]].
    assert (Hp : ~ same_xy px py p).
    { intros [Hx Hy]. destruct Hoff as [T|T];
        apply Qabs_tiny_not_zero in T; apply T; lra. }
    assert (Hne : pts <> []) by (destruct pts; [destruct Ip | discriminate]).
    destruct (compute_2D_properties_spec px py pts Hne) as [r [[Ir Br] [_ Hnz]]].
    assert (Hd : (0 < spec_planar_distance px py (fst p) (snd p))%Q).
    { assert (A := spec_planar_distance_nonneg Hsqrt px py (fst p) (snd p)).
      assert (B : ~ (spec_planar_distance px py (fst p) (snd p) == 0)%Q).
      { intro Z. apply Hp. apply (spec_planar_distance_zero Hsqrt). exact Z. }
      lra. }
    assert (Hr : (0 < r)%Q).
    { assert (A : (Fin (spec_planar_distance px py (fst p) (snd p)) <=? Fin r)%f64 = true).
      { apply Br. apply in_map. apply in_map_iff. exists p. split; [reflexivity | exact Ip]. }
      apply fleb_Fin_true in A. lra. }
    destruct Hnz as [d [E Ed]]; [lra|].
    exists r, d. split; [exact E|]. split; [exact Hr|].
    rewrite Ed. unfold spec_density_2D.
    assert (P := Qpi_pos).
    apply Qlt_shift_div_l.
    + apply Qmult_lt_0_compat; [exact P|]. apply Qmult_lt_0_compat; exact Hr.
    + assert (N : (0 <= inject_Z (Z.of_nat (length pts)))%Q).
      { unfold Qle. simpl. lia. }
      lra.
Qed.

(** The point (4, 2), with a neighbor at its place and one at (4, -2). *)
Lemma compute_2D_properties_returns_witness :
  (exists radius_2D density_2D : Q,
     @compute_2D_properties rounding_libm [Fin 4; Fin 2]
       (map row2 [(4, 2); (4, -2)]%Q)
     = Ok [Fin radius_2D; Fin density_2D]
     /\ (0 < radius_2D)%Q /\ (0 < density_2D)%Q)
  /\ @compute_2D_properties rounding_libm [Fin 4; Fin 2] (map row2 [(4, 2)]%Q)
     = Raise ZeroDivisionError.
Proof.
  destruct (compute_2D_properties_returns rounding_libm 4 2 [(4, 2); (4, -2)]%Q
              rounding_libm_sqrt_positive) as [_ [_ A]].
  destruct (compute_2D_properties_returns rounding_libm 4 2 [(4, 2)]%Q
              rounding_libm_sqrt_positive) as [_ [B _]].
  split.
  - apply A. split.
    + intros p [<-|[<-|[]]]; split; apply Qle_bool_imp_le; vm_compute; reflexivity.
    + exists (4, -2)%Q. split; [right; left; reflexivity|].
      right. apply Qle_bool_imp_le. vm_compute. reflexivity.
  - apply B; [discriminate|].
    intros p [<-|[]]. split; reflexivity.
Defined.

(** ** The density of a neighborhood *)

Lemma of_nat_succ_pos (n : nat) : (0 < inject_Z (Z.of_nat (n + 1)))%Q.
Proof. unfold Qlt. simpl. lia. Qed.

(** [compute_3D_properties] on finite neighbors that are not empty,
    at distances that are not negative (exact arithmetic).  It does not
    raise.  The z-range is not negative.  The radius is zero when every
    distance is zero and only then (neighbors at the place of the point,
    or a neighborhood of the point alone), and the density is then
    infinite.  For a radius between 2^-300 and 2^300, whose cube binary64
    represents, the density is a positive number. *)
Theorem density_of_coincident_neighbors (libm : Libm) (zs ds : list Q) :
  zs <> [] -> ds <> [] -> (forall d, In d ds -> (0 <= d)%Q) ->
  exists (radius z_range : Q) (std_deviation density : float64),
    compute_3D_properties (map Fin zs) (map Fin ds)
    = Ok [Fin radius; Fin z_range; std_deviation; density; NaN]
    /\ (0 <= z_range)%Q
    /\ (0 <= radius)%Q
    /\ ((radius == 0)%Q <-> (forall d, In d ds -> (d == 0)%Q))
    /\ ((radius == 0)%Q -> density = PInf)
    /\ (in_binary64_range radius -> exists q : Q, density = Fin q /\ (0 < q)%Q).
Proof.
  intros Hz Hd Hpos.
  destruct (np_max_Fin _ Hd) as [r [Er [Ir Br]]].
  destruct (np_max_Fin _ Hz) as [zmax [Ezmax [Izmax Bzmax]]].
  destruct (np_min_Fin _ Hz) as [zmin [Ezmin [Izmin Bzmin]]].
  assert (Hr : (0 <= r)%Q) by (apply Hpos; exact Ir).
  assert (P := Qpi_pos).
  assert (N := of_nat_succ_pos (length (map Fin ds))).
  exists r, (zmax - zmin)%Q. eexists. eexists.
  split.
  { unfold compute_3D_properties, np_ptp. rewrite Er, Ezmax, Ezmin. reflexivity. }
  split; [assert (A := Bzmax zmin Izmin); lra|].
  split; [exact Hr|].
  split.
  { split.
    - intros Z d Id. assert (A := Br d Id). assert (B := Hpos d Id). lra.
    - intro Z. apply Z. exact Ir. }
  split.
  - intro Z. unfold cube, math_pi, of_nat, of_Z. cbn [fmul np_div].
    assert (Zd : Qis_zero ((4 # 3) * Qpi * (r * r * r)) = true).
    { apply Qis_zero_true. rewrite Z. ring. }
    rewrite Zd.
    assert (Zn : Qis_zero (inject_Z (Z.of_nat (length (map Fin ds) + 1))) = false)
      by (apply Qis_zero_false; lra).
    assert (Sn : Qsgn_neg (inject_Z (Z.of_nat (length (map Fin ds) + 1))) = false)
      by (apply Qsgn_neg_false; lra).
    rewrite Zn, Sn. reflexivity.
  - intro Hrange. assert (Hp := in_binary64_range_pos r Hrange).
    unfold cube, math_pi, of_nat, of_Z. cbn [fmul np_div].
    assert (Pd : (0 < (4 # 3) * Qpi * (r * r * r))%Q).
    { apply Qmult_lt_0_compat; [apply Qmult_lt_0_compat; [reflexivity | exact P]|].
      apply Qmult_lt_0_compat; [apply Qmult_lt_0_compat|]; exact Hp. }
    assert (Zd : Qis_zero ((4 # 3) * Qpi * (r * r * r)) = false)
      by (apply Qis_zero_false; lra).
    rewrite Zd. eexists. split; [reflexivity|].
    apply Qlt_shift_div_l; [exact Pd | lra].
Qed.

(** A neighborhood of the point alone, and one with a neighbor at
    distance 2. *)
Lemma density_of_coincident_neighbors_witness :
  (exists radius z_range std_deviation,
     @compute_3D_properties rounding_libm (map Fin [1]%Q) (map Fin [0]%Q)
     = Ok [Fin radius; z_range; std_deviation; PInf; NaN]
     /\ (radius == 0)%Q)
  /\ (exists radius z_range std_deviation q,
        @compute_3D_properties rounding_libm (map Fin [1; -1]%Q) (map Fin [0; 2]%Q)
        = Ok [Fin radius; z_range; std_deviation; Fin q; NaN]
        /\ (0 < radius)%Q /\ (0 < q)%Q).
Proof.
  split.
  - destruct (density_of_coincident_neighbors rounding_libm [1]%Q [0]%Q)
      as [r [zr [sd [dens [E [_ [_ [[_ Z] [I _]]]]]]]]].
    + discriminate.
    + discriminate.
    + intros d [<-|[]]. discriminate.
    + assert (Hr : (r == 0)%Q) by (apply Z; intros d [<-|[]]; reflexivity).
      rewrite (I Hr) in E. exists r, (Fin zr), sd. split; [exact E | exact Hr].
  - destruct (density_of_coincident_neighbors rounding_libm [1; -1]%Q [0; 2]%Q)
      as [r [zr [sd [dens [E [_ [Hr [_ [_ F]]]]]]]]].
    + discriminate.
    + discriminate.
    + intros d [<-|[<-|[]]]; discriminate.
    + assert (Er : r = 2%Q).
      { unfold compute_3D_properties in E. simpl in E.
        injection E as E _. exact (eq_sym E). }
      assert (Hrange : in_binary64_range r).
      { rewrite Er. split; apply Qle_bool_imp_le; vm_compute; reflexivity. }
      destruct (F Hrange) as [q [-> Hq]].
      exists r, (Fin zr), sd, q. split; [exact E|].
      split; [rewrite Er; reflexivity | exact Hq].
Defined.

(** ** Normalisation of a sample *)

Lemma normalized_row (M S : nat -> float64) (row : list float64) (a : nat) :
  map (fun t => match t with (x, m, s) => ((x - m) / s)%f64 end)
      (combine (combine row (map M (seq a (length row))))
               (map S (seq a (length row))))
  = map (fun jx => ((snd jx - M (fst jx)) / S (fst jx))%f64)
        (combine (seq a (length row)) row).
Proof.
  revert a. induction row as [|x row IH]; intro a; [reflexivity|].
  simpl. f_equal. apply IH.
Qed.

Lemma nth_normalized_row (M S : nat -> float64) (row : list float64) (j : nat) :
  (j < length row)%nat ->
  nth j (map (fun jx => ((snd jx - M (fst jx)) / S (fst jx))%f64)
             (combine (seq 0 (length row)) row)) NaN
  = ((nth j row NaN - M j) / S j)%f64.
Proof.
  intro Hj.
  change NaN with ((fun jx => ((snd jx - M (fst jx)) / S (fst jx))%f64) (0%nat, NaN))
    at 1.
  rewrite map_nth. rewrite combine_nth by apply length_seq.
  rewrite seq_nth by exact Hj. reflexivity.
Qed.

Lemma nth_Fin (r : list Q) (j : nat) :
  (j < length r)%nat -> nth j (map Fin r) NaN = Fin (nth j r 0%Q).
Proof.
  intro Hj. rewrite (nth_indep _ NaN (Fin 0)) by (rewrite length_map; exact Hj).
  apply map_nth.
Qed.

Lemma column_Fin (rows : list (list Q)) (k j : nat) :
  Forall (fun r => length r = k) rows -> (j < k)%nat ->
  column (array_of rows) j = map Fin (Qcolumn rows j).
Proof.
  intros Hk Hj. unfold column, array_of, Qcolumn. rewrite !map_map.
  apply map_ext_in. intros r Hr.
  apply nth_Fin. rewrite Forall_forall in Hk. rewrite (Hk r Hr). exact Hj.
Qed.

Section Normalized.
Context {libm : Libm}.

(** The entries of the normalised sample, by row. *)
Lemma standard_normalization_rows (sample : list (list float64)) (k : nat) :
  sample <> [] -> Forall (fun row => length row = k) sample ->
  standard_normalization sample
  = map (fun row =>
           map (fun jx => ((snd jx - np_mean (column sample (fst jx)))
                           / np_std (column sample (fst jx)))%f64)
               (combine (seq 0 k) row))
        sample.
Proof.
  intros Hne Hk. unfold standard_normalization.
  assert (Hhd : length (hd [] sample) = k).
  { destruct sample as [|r0 rest]; [congruence|]. inversion Hk; subst. reflexivity. }
  rewrite Hhd. apply map_ext_in. intros row Hrow.
  rewrite Forall_forall in Hk. rewrite <- (Hk row Hrow).
  apply (normalized_row (fun j => np_mean (column sample j))
                        (fun j => np_std (column sample j)) row 0).
Qed.

(** Column [j] of the normalised sample. *)
Lemma standard_normalization_column (sample : list (list float64)) (k j : nat) :
  sample <> [] -> Forall (fun row => length row = k) sample -> (j < k)%nat ->
  column (standard_normalization sample) j
  = map (fun x => ((x - np_mean (column sample j)) / np_std (column sample j))%f64)
        (column sample j).
Proof.
  intros Hne Hk Hj. rewrite (standard_normalization_rows sample k Hne Hk).
  set (M := fun j => np_mean (column sample j)).
  set (S := fun j => np_std (column sample j)).
  change (np_mean (column sample j)) with (M j).
  change (np_std (column sample j)) with (S j).
  unfold column. rewrite !map_map.
  apply map_ext_in. intros row Hrow.
  rewrite Forall_forall in Hk. rewrite <- (Hk row Hrow) in *.
  apply (nth_normalized_row M S row j Hj).
Qed.

End Normalized.

Lemma inject_length_pos {A : Type} (l : list A) :
  l <> [] -> (0 < inject_Z (Z.of_nat (length l)))%Q.
Proof.
  intro H. destruct l; [congruence|]. unfold Qlt. simpl. lia.
Qed.

(** The mean of finite values. *)
Lemma np_mean_Fin (qs : list Q) :
  qs <> [] ->
  exists m : Q,
    np_mean (map Fin qs) = Fin m
    /\ (m == Qsum qs / inject_Z (Z.of_nat (length qs)))%Q.
Proof.
  intro H. unfold np_mean.
  destruct (np_sum_Fin qs) as [s [Es Hs]]. rewrite Es.
  rewrite length_map. unfold of_nat, of_Z. cbn [np_div].
  assert (P := inject_length_pos qs H).
  assert (Z : Qis_zero (inject_Z (Z.of_nat (length qs))) = false)
    by (apply Qis_zero_false; lra).
  rewrite Z. eexists. split; [reflexivity|]. rewrite Hs. reflexivity.
Qed.

Lemma Qsum_squares_nonneg (qs : list Q) (m : Q) :
  (0 <= Qsum (map (fun q => (q + - m) * (q + - m)) qs))%Q.
Proof.
  apply Qsum_nonneg. intros x Hx. apply in_map_iff in Hx.
  destruct Hx as [q [<- _]]. apply Qsquare_nonneg.
Qed.

Lemma Qsum_positive (qs : list Q) (x : Q) :
  (forall q, In q qs -> (0 <= q)%Q) -> In x qs -> (0 < x)%Q -> (0 < Qsum qs)%Q.
Proof.
  induction qs as [|a qs IH]; intros H Hx Px; [destruct Hx|].
  simpl.
  assert (Ha : (0 <= a)%Q) by (apply H; now left).
  assert (Hs : (0 <= Qsum qs)%Q) by (apply Qsum_nonneg; intros q Hq; apply H; now right).
  destruct Hx as [->|Hx]; [lra|].
  assert (0 < Qsum qs)%Q by (apply IH; [intros q Hq; apply H; now right | exact Hx | exact Px]).
  lra.
Qed.

Section Deviation.
Context {libm : Libm}.

(** The deviation of finite values: the square root of the mean of the
    squares of their differences to the mean. *)
Lemma np_std_Fin (qs : list Q) :
  qs <> [] ->
  exists m v : Q,
    np_mean (map Fin qs) = Fin m
    /\ (v == Qsum (map (fun q => (q + - m) * (q + - m)) qs)
             / inject_Z (Z.of_nat (length qs)))%Q
    /\ (0 <= v)%Q
    /\ np_std (map Fin qs) = Fin (Qsqrt v).
Proof.
  intro H. destruct (np_mean_Fin qs H) as [m [Em Hm]].
  assert (Hsq : map (fun x => square (x - np_mean (map Fin qs))) (map Fin qs)
                = map Fin (map (fun q => (q + - m) * (q + - m))%Q qs)).
  { rewrite Em, !map_map. reflexivity. }
  assert (H' : map (fun q => (q + - m) * (q + - m))%Q qs <> [])
    by (destruct qs; [congruence | discriminate]).
  destruct (np_mean_Fin _ H') as [v [Ev Hv]].
  rewrite length_map in Hv.
  assert (P := inject_length_pos qs H).
  assert (Nv : (0 <= v)%Q).
  { rewrite Hv. apply Qle_shift_div_l; [exact P|].
    assert (A := Qsum_squares_nonneg qs m). lra. }
  exists m, v. split; [exact Em|]. split; [exact Hv|]. split; [exact Nv|].
  unfold np_std. cbv zeta. rewrite Hsq, Ev.
  unfold np_sqrt, math_sqrt, Qsqrt.
  destruct (Qis_zero v); [reflexivity|].
  apply Qsgn_neg_false in Nv. rewrite Nv. reflexivity.
Qed.

End Deviation.

Lemma Qsum_centred (qs : list Q) (m s : Q) :
  ~ (s == 0)%Q ->
  (Qsum (map (fun q => (q + - m) / s) qs)
   == (Qsum qs - inject_Z (Z.of_nat (length qs)) * m) / s)%Q.
Proof.
  intro Hs. induction qs as [|a qs IH].
  - simpl. field. exact Hs.
  - cbn [map Qsum fold_right length]. fold (Qsum (map (fun q => (q + - m) / s) qs)).
    fold (Qsum qs). rewrite IH.
    rewrite Nat2Z.inj_succ, <- Z.add_1_r, inject_Z_plus.
    field. exact Hs.
Qed.

(** [standard_normalization] on a 2D array of finite values.  A column
    that holds two different values is sent to finite values: each one is
    the old value less the mean of the column, over a positive deviation,
    so that the order of the values is kept, and the new values sum to
    zero. *)
Theorem standard_normalization_centres (libm : Libm) (rows : list (list Q))
  (k j : nat) (a b : list Q) :
  sqrt_positive libm ->
  Forall (fun r => length r = k) rows -> (j < k)%nat ->
  In a rows -> In b rows -> ~ (nth j a 0 == nth j b 0)%Q ->
  exists (m s : Q) (out : list Q),
    column (standard_normalization (array_of rows)) j = map Fin out
    /\ (m == Qsum (Qcolumn rows j) / inject_Z (Z.of_nat (length rows)))%Q
    /\ (0 < s)%Q
    /\ Forall2 (fun x o => (o == (x - m) / s)%Q) (Qcolumn rows j) out
    /\ (Qsum out == 0)%Q.
Proof.
  intros Hsqrt Hk Hj Ia Ib Hab.
  assert (Hne : rows <> []) by (destruct rows; [destruct Ia | discriminate]).
  assert (Hne' : array_of rows <> []) by (destruct rows; [congruence | discriminate]).
  assert (Hk' : Forall (fun row => length row = k) (array_of rows)).
  { unfold array_of. apply Forall_map_of. intros r Hr. rewrite length_map.
    rewrite Forall_forall in Hk. apply Hk. exact Hr. }
  assert (Hc : Qcolumn rows j <> []) by (destruct rows; [congruence | discriminate]).
  rewrite (standard_normalization_column _ k j Hne' Hk' Hj).
  rewrite (column_Fin rows k j Hk Hj).
  destruct (np_std_Fin (Qcolumn rows j) Hc) as [m [v [Em [Hv [Nv Es]]]]].
  destruct (np_mean_Fin (Qcolumn rows j) Hc) as [m' [Em' Hm]].
  rewrite Em in Em'. injection Em' as <-.
  assert (Hlen : length (Qcolumn rows j) = length rows) by apply length_map.
  rewrite Hlen in Hm, Hv.
  assert (P := inject_length_pos rows Hne).
  (* one of the two values differs from the mean *)
  assert (Hx : exists x, In x (Qcolumn rows j) /\ ~ (x == m)%Q).
  { destruct (Qeq_dec (nth j a 0) m) as [E|N].
    - exists (nth j b 0%Q). split.
      + unfold Qcolumn. apply in_map_iff. exists b. split; [reflexivity | exact Ib].
      + intro E'. apply Hab. rewrite E, E'. reflexivity.
    - exists (nth j a 0%Q). split; [|exact N].
      unfold Qcolumn. apply in_map_iff. exists a. split; [reflexivity | exact Ia]. }
  destruct Hx as [x [Ix Nx]].
  assert (Pv : (0 < v)%Q).
  { rewrite Hv. apply Qlt_shift_div_l; [exact P|].
    setoid_replace (0 * inject_Z (Z.of_nat (length rows)))%Q with 0%Q by ring.
    apply (Qsum_positive _ ((x + - m) * (x + - m))%Q).
    - intros q Hq. apply in_map_iff in Hq. destruct Hq as [y [<- _]].
      apply Qsquare_nonneg.
    - apply in_map_iff. exists x. split; [reflexivity | exact Ix].
    - assert (A := Qsquare_nonneg (x + - m)).
      assert (B : ~ ((x + - m) * (x + - m) == 0)%Q).
      { intro Z. destruct (Qmult_integral _ _ Z); apply Nx; lra. }
      lra. }
  assert (Ps : (0 < Qsqrt v)%Q).
  { unfold Qsqrt.
    assert (Z : Qis_zero v = false) by (apply Qis_zero_false; lra).
    rewrite Z. apply Hsqrt. exact Pv. }
  set (s := Qsqrt v) in *.
  assert (Zs : Qis_zero s = false) by (apply Qis_zero_false; lra).
  exists m, s, (map (fun q => (q + - m) / s)%Q (Qcolumn rows j)).
  split.
  { rewrite Em, Es. rewrite !map_map. apply map_ext. intro q.
    simpl. rewrite Zs. reflexivity. }
  split; [exact Hm|]. split; [exact Ps|].
  split.
  { apply Forall2_map_of. intros q _. reflexivity. }
  rewrite Qsum_centred by lra. rewrite Hlen, Hm. field. split; lra.
Qed.

(** Three rows of two columns. *)
Lemma standard_normalization_centres_witness :
  exists (m s : Q) (out : list Q),
    column (@standard_normalization rounding_libm
              (array_of [[1; 5]; [2; 5]; [6; 8]]%Q)) 0
    = map Fin out
    /\ (m == Qsum (Qcolumn [[1; 5]; [2; 5]; [6; 8]]%Q 0) / inject_Z 3)%Q
    /\ (0 < s)%Q
    /\ Forall2 (fun x o => (o == (x - m) / s)%Q)
               (Qcolumn [[1; 5]; [2; 5]; [6; 8]]%Q 0) out
    /\ (Qsum out == 0)%Q.
Proof.
  apply (standard_normalization_centres rounding_libm
           [[1; 5]; [2; 5]; [6; 8]]%Q 2 0 [1; 5]%Q [2; 5]%Q
           rounding_libm_sqrt_positive).
  - repeat constructor.
  - lia.
  - left; reflexivity.
  - right; left; reflexivity.
  - discriminate.
Defined.

Section OneRow.
Context {libm : Libm}.

Lemma single_value_normalized (q : Q) :
  ((Fin q - np_mean [Fin q]) / np_std [Fin q])%f64 = NaN.
Proof.
  unfold np_std, np_mean, np_sum, np_sqrt, math_sqrt, square. simpl.
  assert (Z1 : Qis_zero (q + - ((0 + q) / inject_Z 1)) = true).
  { apply Qis_zero_true. unfold inject_Z. field. }
  assert (Z2 : Qis_zero
                 ((0 + (q + - ((0 + q) / inject_Z 1)) * (q + - ((0 + q) / inject_Z 1)))
                  / inject_Z 1) = true).
  { apply Qis_zero_true. unfold inject_Z. field. }
  rewrite Z2. simpl. rewrite Z1. reflexivity.
Qed.

End OneRow.

(** [standard_normalization] on a sample of one row: every column has the
    deviation zero, every value is at the mean of its column, and every
    entry of the result is NaN, the quotient of zero by zero.  Nothing is
    raised. *)
Theorem standard_normalization_of_one_row (libm : Libm) (row : list Q) :
  standard_normalization (array_of [row]) = [map (fun _ => NaN) row].
Proof.
  assert (Hne : array_of [row] <> []) by discriminate.
  assert (Hk : Forall (fun r => length r = length row) (array_of [row])).
  { constructor; [apply length_map | constructor]. }
  rewrite (standard_normalization_rows _ (length row) Hne Hk).
  cbn [array_of map]. f_equal.
  apply (nth_ext _ _ NaN NaN).
  - rewrite !length_map. rewrite length_combine, length_seq, length_map. lia.
  - intros n Hn. rewrite length_map, length_combine, length_seq, length_map in Hn.
    assert (Hn' : (n < length row)%nat) by lia.
    rewrite <- (length_map Fin row) at 1.
    rewrite (nth_normalized_row
               (fun j => np_mean (column [map Fin row] j))
               (fun j => np_std (column [map Fin row] j)) (map Fin row) n)
      by (rewrite length_map; exact Hn').
    cbn [column map]. rewrite nth_Fin by exact Hn'.
    rewrite single_value_normalized.
    symmetry. exact (map_nth (fun _ : Q => NaN) row 0%Q n).
Qed.

(** ** The statistics of a cell *)

Lemma Forall2_of_map {A B C : Type} (R : B -> C -> Prop) (f : A -> B)
  (l : list A) (l' : list C) :
  Forall2 R (map f l) l' -> Forall2 (fun a c => R (f a) c) l l'.
Proof.
  revert l'. induction l as [|a l IH]; intros l' H; inversion H; subst; constructor.
  - assumption.
  - apply IH. assumption.
Qed.



Lemma filter_not_nan_Fin (qs : list Q) :
  filter (fun x => negb (is_nan x)) (map Fin qs) = map Fin qs.
Proof.
  induction qs as [|q qs IH]; [reflexivity|]. simpl. rewrite IH. reflexivity.
Qed.

Lemma pd_count_Fin (qs : list Q) : pd_count (map Fin qs) = length qs.
Proof. unfold pd_count. rewrite filter_not_nan_Fin. apply length_map. Qed.


Section CellDeviation.
Context {libm : Libm}.


(** The table of a finite cloud, row by row: beside the coordinates of a
    point, the statistics of the z-coordinates of the points of its cell. *)
Lemma accumulation_cells (pts : list (Q * Q * Q)) (bs buf : Q) :
  pts <> [] -> (0 < bs)%Q -> (0 < buf)%Q ->
  exists (xmin xmax ymin ymax : Q) (table : list acc_row),
    let xb := edges xmin xmax bs buf in
    let yb := edges ymin ymax bs buf in
    (forall p, In p pts -> (xmin <= qx p)%Q /\ (qx p <= xmax)%Q
                           /\ (ymin <= qy p)%Q /\ (qy p <= ymax)%Q)
    /\ is_min_of (Fin xmin) (map Fin (map qx pts))
    /\ is_min_of (Fin ymin) (map Fin (map qy pts))
    /\ build_accumulation_features (map row3 pts) (Fin bs) (Fin buf) = Ok table
    /\ map xyz_of table = map row3 pts
    /\ Forall2
         (fun p row =>
            exists c,
              bp_cell (binned_of xb yb p) = Some c
              /\ let zs := map qz (filter (fun q => in_cell c (binned_of xb yb q)) pts) in
                 In (qz p) zs
                 /\ col_count row = of_nat (length zs)
                 /\ col_std row = pd_std (map Fin zs)
                 /\ col_z_range row = (pd_max (map Fin zs) - pd_min (map Fin zs))%f64)
         pts table.
Proof.
  intros Hp Hbs Hbuf.
  destruct (accumulation_table pts bs buf Hp Hbs Hbuf)
    as [xmin [xmax [ymin [ymax [Hext [Mx [My [_ [Et [_ Hrows]]]]]]]]]].
  destruct (accumulation_rows pts bs buf Hp Hbs Hbuf) as [table [Et' Hxyz]].
  rewrite Et in Et'. injection Et' as Et'. rewrite Et' in *.
  exists xmin, xmax, ymin, ymax, table. cbv zeta.
  split; [exact Hext|]. split; [exact Mx|]. split; [exact My|].
  split; [exact Et|]. split; [exact Hxyz|].
  set (xb := edges xmin xmax bs buf) in *.
  set (yb := edges ymin ymax bs buf) in *.
  apply Forall2_of_map in Hrows.
  assert (Hself : Forall (fun p => In p pts) pts) by (apply Forall_forall; auto).
  assert (H2 := Forall2_Forall_l _ _ _ _ Hrows Hself).
  eapply Forall2_impl; [|exact H2].
  intros p row [[c [Hc ->]] Hin]. exists c. split; [exact Hc|].
  assert (Ez : map bp_z (filter (in_cell c) (map (binned_of xb yb) pts))
               = map Fin (map qz (filter (fun q => in_cell c (binned_of xb yb q)) pts))).
  { rewrite filter_map_comm, !map_map. reflexivity. }
  cbn [with_stats cell_statistics col_count col_std col_z_range cs_count cs_std cs_z_range].
  rewrite Ez. rewrite pd_count_Fin.
  split; [|repeat split].
  apply in_map. apply filter_In. split; [exact Hin|].
  rewrite (in_cell_of _ c c Hc). apply cell_eqb_refl.
Qed.

End CellDeviation.

(** ** The statistics of the cells, in the words of the specification *)



Section SampleDeviation.
Context {libm : Libm}.





End SampleDeviation.









(** ** The lookup of the points of the cloud *)

Lemma same_point_row3_iff (p q : Q * Q * Q) (r : acc_row) :
  xyz_of r = row3 q ->
  same_point (Fin (qx p)) (Fin (qy p)) (Fin (qz p)) r = true <-> same_place p q.
Proof.
  intro Hr. split; [|intro H; apply (same_point_row3 p q r H Hr)].
  destruct q as [[x y] z]. unfold xyz_of in Hr. simpl in Hr.
  injection Hr as Ex Ey Ez. unfold same_point. rewrite Ex, Ey, Ez. simpl.
  unfold same_place, qx, qy, qz. simpl.
  rewrite !andb_true_iff, !Qeq_bool_true. intros [[A B] C].
  repeat split; symmetry; assumption.
Qed.

Lemma filter_none {A : Type} (f : A -> bool) (l : list A) :
  (forall x, In x l -> f x = false) -> filter f l = [].
Proof.
  induction l as [|a l IH]; intro H; [reflexivity|].
  simpl. rewrite (H a) by now left. apply IH. intros x Hx. apply H. now right.
Qed.


Lemma table_row_of_point (table : list acc_row) (pts : list (Q * Q * Q))
  (n : nat) :
  map xyz_of table = map row3 pts ->
  (forall u, nth_error pts n = Some u ->
     exists r, nth_error table n = Some r /\ xyz_of r = row3 u)
  /\ (forall r, nth_error table n = Some r ->
        exists u, nth_error pts n = Some u /\ xyz_of r = row3 u).
Proof.
  intro Hxyz.
  assert (A : nth_error (map xyz_of table) n = nth_error (map row3 pts) n)
    by (rewrite Hxyz; reflexivity).
  rewrite !nth_error_map in A. split.
  - intros u Hu. rewrite Hu in A.
    destruct (nth_error table n) as [r|]; [|discriminate].
    exists r. split; [reflexivity|]. simpl in A. injection A as A. exact A.
  - intros r Hr. rewrite Hr in A.
    destruct (nth_error pts n) as [u|]; [|discriminate].
    exists u. split; [reflexivity|]. simpl in A. injection A as A. exact A.
Qed.



(** ** C10: the lookup, by the places of the points *)







(** The errors of the lookup.  A point that has not three coordinates
    cannot be unpacked: [ValueError].  A point with a NaN coordinate equals
    no row, whatever the table: [AssertionError].  And in the table of a
    finite cloud, a finite point at the place of no point of the cloud is
    not found: [AssertionError]. *)
Theorem lookup_of_absent_point (libm : Libm) :
  (forall (point : list float64) (features : list acc_row),
     length point <> 3%nat ->
     retrieve_accumulation_features point features = Raise ValueError)
  /\ (forall (px py pz : float64) (features : list acc_row),
        is_nan px || is_nan py || is_nan pz = true ->
        retrieve_accumulation_features [px; py; pz] features
        = Raise AssertionError)
  /\ (forall (pts : list (Q * Q * Q)) (bin_size buf : Q) (u : Q * Q * Q),
        pts <> [] -> (0 < bin_size)%Q -> (0 < buf)%Q ->
        (forall p, In p pts -> ~ same_place u p) ->
        exists table : list acc_row,
          build_accumulation_features (map row3 pts) (Fin bin_size) (Fin buf)
          = Ok table
          /\ retrieve_accumulation_features (row3 u) table
             = Raise AssertionError).
Proof.
  split; [|split].
  - intros point features H.
    destruct point as [|x [|y [|z [|t point]]]]; try reflexivity.
    simpl in H. congruence.
  - intros px py pz features H.
    apply retrieve_not_one. unfold occurrences.
    rewrite filter_none; [discriminate|].
    intros r _. unfold same_point.
    destruct px, py, pz; try discriminate H;
      destruct (col_x r), (col_y r), (col_z r); simpl;
      rewrite ?andb_false_r; reflexivity.
  - intros pts bin_size buf u Hp Hbs Hbuf Habs.
    destruct (accumulation_rows pts bin_size buf Hp Hbs Hbuf) as [table [Et Hxyz]].
    exists table. split; [exact Et|].
    rewrite row3_eta. apply retrieve_not_one. unfold occurrences.
    rewrite filter_none; [discriminate|].
    intros r Hr. apply In_nth_error in Hr. destruct Hr as [n Hn].
    destruct (table_row_of_point table pts n Hxyz) as [_ T2].
    destruct (T2 r Hn) as [q [Hq Xq]].
    destruct (same_point (Fin (qx u)) (Fin (qy u)) (Fin (qz u)) r) eqn:E; [|reflexivity].
    apply (same_point_row3_iff u q r Xq) in E.
    exfalso. apply (Habs q (nth_error_In _ _ Hq) E).
Qed.

(** A point of two coordinates, a point with a NaN, and the origin looked
    up in the table of the tetrahedron. *)
Lemma lookup_of_absent_point_witness :
  retrieve_accumulation_features [Fin 1; Fin 2] [] = Raise ValueError
  /\ retrieve_accumulation_features [Fin 1; NaN; Fin 2] [] = Raise AssertionError
  /\ exists table : list acc_row,
       @build_accumulation_features rounding_libm (map row3 tetrahedron_points)
         default_bin_size default_buf = Ok table
       /\ retrieve_accumulation_features (row3 (0, 0, 0)%Q) table
          = Raise AssertionError.
Proof.
  destruct (lookup_of_absent_point rounding_libm) as [A [B C]].
  split; [apply A; discriminate|].
  split; [apply B; reflexivity|].
  apply (C tetrahedron_points (1 # 4) (1 # 1000) (0, 0, 0)%Q);
    [discriminate | reflexivity | reflexivity |].
  intros p Hp [Hx _].
  destruct Hp as [<-|[<-|[<-|[<-|[]]]]]; discriminate Hx.
Defined.

(** ** The rows of a run *)

(** The generator yields the rows of the points in their order, up to the
    first point whose row raises. *)
Lemma yield_all_prefix (f : list float64 -> result (list float64))
  (l : list (list float64)) :
  let s := yield_all f (map Ok l) in
  (length (fst s) <= length l)%nat
  /\ (forall i row, nth_error (fst s) i = Some row ->
        exists p, nth_error l i = Some p /\ f p = Ok row)
  /\ (forall p, nth_error l (length (fst s)) = Some p ->
        exists e, f p = Raise e /\ snd s = Some e)
  /\ (snd s = None <-> length (fst s) = length l).
Proof.
  induction l as [|a l [IH1 [IH2 [IH3 IH4]]]]; cbv zeta.
  - simpl. split; [lia|]. split; [intros i row H; destruct i; discriminate|].
    split; [intros p H; discriminate|]. split; reflexivity.
  - cbn [map yield_all bind]. destruct (f a) as [row|e] eqn:E.
    + cbn [fst snd length]. split; [lia|]. split; [|split].
      * intros i r H. destruct i as [|i].
        -- simpl in H. injection H as <-. exists a. split; [reflexivity | exact E].
        -- simpl in H. apply IH2. exact H.
      * intros p H. simpl in H. apply IH3. exact H.
      * rewrite IH4. split; lia.
    + cbn [fst snd length]. split; [lia|]. split; [|split].
      * intros i r H. destruct i; discriminate.
      * intros p H. simpl in H. injection H as <-. exists e. split; [exact E | reflexivity].
      * split; [discriminate | intro H; simpl in H; lia].
Qed.

(** A run of [generate_features] over all the points.  It does not draw
    from the random generator.  When the accumulation table cannot be built
    the run ends with that exception, before any row.  Otherwise the rows
    yielded are those of the first points of the cloud, in their order; the
    run stops at the first point whose row raises, with that exception; and
    it ends without exception exactly when it has yielded a row for every
    point. *)
Theorem rows_until_the_first_failure (libm : Libm) (sk : Sklearn)
  (rng : NumpyRandom) (point_cloud : list (list float64)) (nb_neighbors : nat)
  (st : rng_state) :
  let run := generate_features point_cloud nb_neighbors None st in
  let rows := fst (fst run) in
  let raised := snd (fst run) in
  snd run = st
  /\ (length rows <= length point_cloud)%nat
  /\ (forall e,
        build_accumulation_features (map (firstn 3) point_cloud)
          default_bin_size default_buf = Raise e ->
        rows = [] /\ raised = Some e)
  /\ (forall acc_features,
        build_accumulation_features (map (firstn 3) point_cloud)
          default_bin_size default_buf = Ok acc_features ->
        let row_of := point_features point_cloud nb_neighbors acc_features
                        (map (firstn 3) point_cloud) in
        (forall i row, nth_error rows i = Some row ->
           exists point, nth_error point_cloud i = Some point
                         /\ row_of point = Ok row)
        /\ (forall point, nth_error point_cloud (length rows) = Some point ->
              exists e, row_of point = Raise e /\ raised = Some e)
        /\ (raised = None <-> length rows = length point_cloud)).
Proof.
  cbv zeta. unfold generate_features.
  destruct (build_accumulation_features _ _ _) as [acc|e0] eqn:Eb.
  - cbn [sample_mask]. rewrite getitem_all.
    destruct (yield_all_prefix
                (point_features point_cloud nb_neighbors acc
                                (map (firstn 3) point_cloud)) point_cloud)
      as [H1 [H2 [H3 H4]]].
    cbn [fst snd].
    split; [reflexivity|]. split; [exact H1|].
    split; [intros e H; discriminate|].
    intros acc' H. injection H as <-.
    split; [exact H2|]. split; [exact H3 | exact H4].
  - cbn [fst snd length].
    split; [reflexivity|]. split; [lia|].
    split; [|intros acc' H; discriminate].
    intros e H. injection H as <-. split; reflexivity.
Qed.

(** ** Requests that no run can serve *)

Section Requests.
Context {libm : Libm} {sk : Sklearn} {rng : NumpyRandom}.

Lemma first_point_raises (pes : list ((Q * Q * Q) * list float64))
  (nb_neighbors : nat) (st : rng_state) (e : exn) :
  pes <> [] ->
  (forall acc_features pe,
     point_features (map with_extras pes) nb_neighbors acc_features
       (map row3 (map fst pes)) (with_extras pe) = Raise e) ->
  generate_features (map with_extras pes) nb_neighbors None st
  = (([], Some e), st).
Proof.
  intros Hne H.
  assert (Hne' : map fst pes <> []) by (destruct pes; [congruence | discriminate]).
  destruct (accumulation_rows (map fst pes) (1 # 4) (1 # 1000) Hne' eq_refl eq_refl)
    as [table [Et _]].
  unfold generate_features. rewrite firstn_cloud.
  change default_bin_size with (Fin (1 # 4)). change default_buf with (Fin (1 # 1000)).
  rewrite Et. cbn [sample_mask]. rewrite getitem_all.
  set (f := point_features (map with_extras pes) nb_neighbors table
              (map row3 (map fst pes))).
  assert (Hf : forall pe, f (with_extras pe) = Raise e) by (intro pe; apply H).
  clearbody f. destruct pes as [|pe pes]; [congruence|].
  cbn [map yield_all bind]. rewrite Hf. reflexivity.
Qed.

End Requests.

(** More neighbors than the cloud has points.  On a finite cloud, a run
    over all the points that asks for more neighbors than there are points
    raises [ValueError] at the first point and yields no row. *)
Theorem more_neighbors_than_points (libm : Libm) (sk : Sklearn)
  (rng : NumpyRandom) (pes : list ((Q * Q * Q) * list float64))
  (nb_neighbors : nat) (st : rng_state) :
  pes <> [] -> (length pes < nb_neighbors)%nat ->
  generate_features (map with_extras pes) nb_neighbors None st
  = (([], Some ValueError), st).
Proof.
  intros Hne Hk. apply first_point_raises; [exact Hne|].
  intros acc pe. unfold point_features, build_neighborhood, KDTree_query.
  cbv zeta. rewrite !length_map.
  assert (E : (nb_neighbors <=? length pes)%nat = false) by (apply Nat.leb_gt; exact Hk).
  rewrite E. reflexivity.
Qed.

(** Five neighbors asked of the four points of the tetrahedron. *)
Lemma more_neighbors_than_points_witness :
  run_all (map with_extras (no_extras tetrahedron_points)) 5
  = ([], Some ValueError).
Proof.
  unfold run_all.
  rewrite (more_neighbors_than_points rounding_libm exhaustive_sklearn dealing_rng
             (no_extras tetrahedron_points) 5 0%nat);
    [reflexivity | discriminate | simpl; lia].
Defined.

(** A sample larger than the cloud.  On a finite cloud, a run that asks
    for more sample points than the cloud has raises [ValueError] before
    any row, and leaves the random generator as it was. *)
Theorem larger_sample_than_cloud (libm : Libm) (sk : Sklearn)
  (rng : NumpyRandom) (pes : list ((Q * Q * Q) * list float64))
  (nb_neighbors nb_points : nat) (st : rng_state) :
  pes <> [] -> (length pes < nb_points)%nat ->
  generate_features (map with_extras pes) nb_neighbors (Some nb_points) st
  = (([], Some ValueError), st).
Proof.
  intros Hne Hn.
  assert (Hne' : map fst pes <> []) by (destruct pes; [congruence | discriminate]).
  destruct (accumulation_rows (map fst pes) (1 # 4) (1 # 1000) Hne' eq_refl eq_refl)
    as [table [Et _]].
  unfold generate_features. rewrite firstn_cloud.
  change default_bin_size with (Fin (1 # 4)). change default_buf with (Fin (1 # 1000)).
  rewrite Et. unfold sample_mask. rewrite length_map.
  assert (E : (nb_points <=? length pes)%nat = false) by (apply Nat.leb_gt; exact Hn).
  rewrite E. reflexivity.
Qed.

(** Five sample points asked of the four points of the tetrahedron. *)
Lemma larger_sample_than_cloud_witness :
  @generate_features rounding_libm exhaustive_sklearn dealing_rng
    (map with_extras (no_extras tetrahedron_points)) 4 (Some 5%nat) 7%nat
  = (([], Some ValueError), 7%nat).
Proof.
  apply (larger_sample_than_cloud rounding_libm exhaustive_sklearn dealing_rng
           (no_extras tetrahedron_points) 4 5 7%nat);
    [discriminate | simpl; lia].
Defined.

(** The shape of the cloud.  A run on a cloud with a point of fewer than
    three coordinates fails the assertion of [build_accumulation_features]
    on the first [next]: [AssertionError], no row, no draw from the random
    generator.  A run on a cloud of no point raises [ValueError]: the least
    of no coordinate. *)
Theorem cloud_shape_errors (libm : Libm) (sk : Sklearn) (rng : NumpyRandom)
  (nb_neighbors : nat) (nb_points : option nat) (st : rng_state) :
  (forall (point_cloud : list (list float64)) (point : list float64),
     In point point_cloud -> (length point < 3)%nat ->
     generate_features point_cloud nb_neighbors nb_points st
     = (([], Some AssertionError), st))
  /\ generate_features [] nb_neighbors nb_points st = (([], Some ValueError), st).
Proof.
  split; [|reflexivity].
  intros point_cloud point Hin Hlen.
  unfold generate_features, build_accumulation_features, bin_points.
  assert (E : forallb (fun row => (length row =? 3)%nat) (map (firstn 3) point_cloud)
              = false).
  { apply not_true_is_false. intro A. rewrite forallb_forall in A.
    specialize (A (firstn 3 point) (in_map _ _ _ Hin)).
    apply Nat.eqb_eq in A. rewrite length_firstn in A. lia. }
  rewrite E. reflexivity.
Qed.

(** A cloud of points of the plane. *)
Lemma cloud_shape_errors_witness :
  run_all [[Fin 0; Fin 0]; [Fin 1; Fin 2]] 2 = ([], Some AssertionError).
Proof.
  destruct (cloud_shape_errors rounding_libm exhaustive_sklearn dealing_rng
              2 None 0%nat) as [A _].
  unfold run_all.
  rewrite (A [[Fin 0; Fin 0]; [Fin 1; Fin 2]] [Fin 0; Fin 0]);
    [reflexivity | left; reflexivity | simpl; lia].
Defined.

(** ** Fewer than three neighbors *)

Lemma mapM_getitem_in_range {A : Type} (l : list A) (idx : list nat) :
  Forall (fun i => (i < length l)%nat) idx ->
  exists rows, mapM (fun i => getitem l i) idx = Ok rows
               /\ length rows = length idx.
Proof.
  induction 1 as [|i idx Hi Hidx [rows [E L]]].
  - exists []. split; reflexivity.
  - apply nth_error_Some in Hi.
    destruct (nth_error l i) as [x|] eqn:Ex; [|congruence].
    exists (x :: rows). split.
    + cbn [mapM]. unfold getitem at 1. rewrite Ex. cbn [bind]. rewrite E. reflexivity.
    + simpl. rewrite L. reflexivity.
Qed.

Lemma insert_by_distance_length (e : float64 * nat) (l : list (float64 * nat)) :
  length (insert_by_distance e l) = S (length l).
Proof.
  induction l as [|h t IH]; [reflexivity|].
  simpl. destruct (fst e <? fst h)%f64; simpl; [reflexivity | rewrite IH; reflexivity].
Qed.

Lemma insert_by_distance_In (e x : float64 * nat) (l : list (float64 * nat)) :
  In x (insert_by_distance e l) -> x = e \/ In x l.
Proof.
  induction l as [|h t IH]; simpl.
  - intros [<-|[]]. now left.
  - destruct (fst e <? fst h)%f64; simpl.
    + intros [<-|H]; [now left | now right].
    + intros [<-|H]; [right; now left|].
      destruct (IH H) as [->|H']; [now left | right; now right].
Qed.

Lemma insert_all (es acc : list (float64 * nat)) :
  length (fold_left (fun a e => insert_by_distance e a) es acc)
  = (length es + length acc)%nat
  /\ (forall x, In x (fold_left (fun a e => insert_by_distance e a) es acc) ->
        In x es \/ In x acc).
Proof.
  revert acc. induction es as [|e es IH]; intro acc; simpl.
  - split; [reflexivity | intros x H; now right].
  - destruct (IH (insert_by_distance e acc)) as [L I]. split.
    + rewrite L, insert_by_distance_length. lia.
    + intros x H. destruct (I x H) as [H'|H']; [left; now right|].
      destruct (insert_by_distance_In e x acc H') as [->|H'']; [left; now left | now right].
Qed.

(** The exhaustive search answers with [k] indices of the data. *)
Lemma exhaustive_sklearn_answers : answers_k_neighbors exhaustive_sklearn.
Proof.
  intros data point k Hk. simpl. unfold exhaustive_query. cbn [snd].
  unfold nearest_first.
  set (es := combine (map (squared_distance point) data) (seq 0 (length data))).
  destruct (insert_all es []) as [L I].
  assert (Les : length es = length data).
  { unfold es. rewrite length_combine, length_map, length_seq. lia. }
  split.
  - rewrite length_map, length_firstn, L, Les. simpl. lia.
  - apply Forall_forall. intros i Hi. apply in_map_iff in Hi.
    destruct Hi as [[d i'] [E Hin]]. simpl in E. subst i'.
    assert (Hin' : In (d, i) (fold_left (fun a e => insert_by_distance e a) es [])).
    { rewrite <- (firstn_skipn k). apply in_or_app. left. exact Hin. }
    destruct (I _ Hin') as [H|[]].
    unfold es in H. apply in_combine_r in H. apply in_seq in H. lia.
Qed.

(** Fewer than three neighbors.  On a finite cloud, with a tree that
    answers a query for [k] neighbors with [k] points of the cloud, a run
    over all the points that asks for fewer than three neighbors raises
    [ValueError] at the first point and yields no row: the PCA of three
    components has fewer than three samples. *)
Theorem fewer_than_three_neighbors (libm : Libm) (sk : Sklearn)
  (rng : NumpyRandom) (pes : list ((Q * Q * Q) * list float64))
  (nb_neighbors : nat) (st : rng_state) :
  answers_k_neighbors sk -> pes <> [] -> (nb_neighbors < 3)%nat ->
  generate_features (map with_extras pes) nb_neighbors None st
  = (([], Some ValueError), st).
Proof.
  intros Hsk Hne Hk. apply first_point_raises; [exact Hne|].
  intros acc pe. unfold point_features, build_neighborhood, KDTree_query.
  cbv zeta.
  destruct (nb_neighbors <=? length (map row3 (map fst pes)))%nat eqn:E;
    [|reflexivity].
  apply Nat.leb_le in E. cbn [bind indices].
  destruct (Hsk (map row3 (map fst pes)) (firstn 3 (with_extras pe)) nb_neighbors E)
    as [L R].
  assert (R' : Forall (fun i => (i < length (map with_extras pes))%nat)
                      (snd (kd_tree_query (map row3 (map fst pes))
                                          (firstn 3 (with_extras pe)) nb_neighbors))).
  { eapply Forall_impl; [|exact R]. intros i Hi. rewrite !length_map in *. exact Hi. }
  destruct (mapM_getitem_in_range _ _ R') as [rows [Er Lr]].
  rewrite Er. cbn [bind]. unfold _pca.
  assert (F : (3 <=? Nat.min (length (map (firstn 3) rows))
                             (length (hd [] (map (firstn 3) rows))))%nat = false).
  { apply Nat.leb_gt. rewrite length_map, Lr, L. lia. }
  rewrite F. reflexivity.
Qed.

(** Two neighbors asked of the tetrahedron. *)
Lemma fewer_than_three_neighbors_witness :
  run_all (map with_extras (no_extras tetrahedron_points)) 2
  = ([], Some ValueError).
Proof.
  unfold run_all.
  rewrite (fewer_than_three_neighbors rounding_libm exhaustive_sklearn dealing_rng
             (no_extras tetrahedron_points) 2 0%nat exhaustive_sklearn_answers);
    [reflexivity | discriminate | lia].
Defined.

(** ** The grid without its margin *)




Section WithoutMargin.
Context {libm : Libm}.



End WithoutMargin.




(** ** The extra channels and the features *)

Lemma getitem_map {A B : Type} (g : A -> B) (l : list A) (i : nat) :
  getitem (map g l) i = (x <- getitem l i ;; Ok (g x)).
Proof.
  unfold getitem. rewrite nth_error_map. destruct (nth_error l i); reflexivity.
Qed.

Lemma mapM_getitem_map {A B : Type} (g : A -> B) (l : list A) (idx : list nat) :
  mapM (fun i => getitem (map g l) i) idx
  = (rows <- mapM (fun i => getitem l i) idx ;; Ok (map g rows)).
Proof.
  induction idx as [|i idx IH]; [reflexivity|].
  cbn [mapM]. rewrite getitem_map, IH.
  destruct (getitem l i); [|reflexivity]. cbn [bind].
  destruct (mapM (fun i0 => getitem l i0) idx); reflexivity.
Qed.

Lemma skipn_firstn_same {A : Type} (n : nat) (l : list A) :
  skipn n (firstn n l) = [].
Proof. apply skipn_all2. apply firstn_le_length. Qed.

Section Channels.
Context {libm : Libm} {sk : Sklearn}.

(** The row of a point is the row of its coordinates in the cloud of the
    coordinates, followed by its extra channels over 255. *)
Lemma point_features_of_coordinates (point_cloud : list (list float64))
  (nb_neighbors : nat) (acc_features : list acc_row)
  (kd_tree : list (list float64)) (point : list float64) :
  point_features point_cloud nb_neighbors acc_features kd_tree point
  = (core <- point_features (map (firstn 3) point_cloud) nb_neighbors
               acc_features kd_tree (firstn 3 point) ;;
     Ok (core ++ rgb_tolist (skipn 3 point))).
Proof.
  unfold point_features. cbv zeta.
  replace (firstn 3 (firstn 3 point)) with (firstn 3 point)
    by (rewrite firstn_firstn; reflexivity).
  rewrite skipn_firstn_same.
  destruct (build_neighborhood (firstn 3 point) nb_neighbors kd_tree) as [nbh|e];
    [|reflexivity].
  cbn [bind]. rewrite mapM_getitem_map.
  destruct (mapM (fun i => getitem point_cloud i) (indices nbh)) as [rows|e];
    [|reflexivity].
  cbn [bind].
  assert (E : map (firstn 3) (map (firstn 3) rows) = map (firstn 3) rows).
  { rewrite map_map. apply map_ext. intro r. apply firstn_firstn. }
  rewrite E.
  repeat match goal with
         | |- bind ?r _ = bind (bind ?r _) _ =>
             destruct r; [|reflexivity]; cbn [bind]
         end.
  cbn [rgb_tolist map]. rewrite app_nil_r. rewrite <- !app_assoc. reflexivity.
Qed.

Lemma yield_all_of_coordinates (f f3 : list float64 -> result (list float64))
  (point_cloud : list (list float64)) (mask : list nat) :
  (forall point, f point
                 = (core <- f3 (firstn 3 point) ;;
                    Ok (core ++ rgb_tolist (skipn 3 point)))) ->
  let run := yield_all f (map (fun idx => getitem point_cloud idx) mask) in
  let run3 := yield_all f3 (map (fun idx => getitem (map (firstn 3) point_cloud) idx)
                                mask) in
  snd run = snd run3
  /\ length (fst run) = length (fst run3)
  /\ forall i row, nth_error (fst run) i = Some row ->
       exists core idx point,
         nth_error (fst run3) i = Some core
         /\ nth_error mask i = Some idx
         /\ nth_error point_cloud idx = Some point
         /\ row = core ++ rgb_tolist (skipn 3 point).
Proof.
  intro Hf. cbv zeta. induction mask as [|idx mask [IH1 [IH2 IH3]]].
  - simpl. split; [reflexivity|]. split; [reflexivity|].
    intros i row H. destruct i; discriminate.
  - cbn [map yield_all]. rewrite getitem_map.
    destruct (getitem point_cloud idx) as [point|e0] eqn:Eg.
    + assert (Ep : nth_error point_cloud idx = Some point).
      { unfold getitem in Eg. destruct (nth_error point_cloud idx); [|discriminate].
        injection Eg as ->. reflexivity. }
      cbn [bind]. rewrite Hf.
      destruct (f3 (firstn 3 point)) as [core|e]; cbn [bind fst snd].
      * split; [exact IH1|]. split; [simpl; rewrite IH2; reflexivity|].
        intros i row H. destruct i as [|i].
        -- simpl in H. injection H as <-. exists core, idx, point.
           repeat split; [exact Ep].
        -- simpl in H. destruct (IH3 i row H) as [c [j [p [A [B [C D]]]]]].
           exists c, j, p. repeat split; assumption.
      * split; [reflexivity|]. split; [reflexivity|].
        intros i row H. destruct i; discriminate.
    + cbn [bind fst snd]. split; [reflexivity|]. split; [reflexivity|].
      intros i row H. destruct i; discriminate.
Qed.

End Channels.

(** The extra channels play no part in the features.  A run of
    [generate_features] on a cloud and the run on its coordinates alone,
    from the same state of the random generator, end the same way and leave
    the generator in the same state; they yield as many rows, and each row
    of the first run is the row of the second one followed by the extra
    channels of its point, each over 255. *)
Theorem features_ignore_extra_channels (libm : Libm) (sk : Sklearn)
  (rng : NumpyRandom) (point_cloud : list (list float64))
  (nb_neighbors : nat) (nb_points : option nat) (st : rng_state) :
  let run := generate_features point_cloud nb_neighbors nb_points st in
  let run3 := generate_features (map (firstn 3) point_cloud) nb_neighbors
                nb_points st in
  snd run = snd run3
  /\ snd (fst run) = snd (fst run3)
  /\ length (fst (fst run)) = length (fst (fst run3))
  /\ forall i row, nth_error (fst (fst run)) i = Some row ->
       exists core point,
         nth_error (fst (fst run3)) i = Some core
         /\ In point point_cloud
         /\ (nb_points = None -> nth_error point_cloud i = Some point)
         /\ row = core ++ rgb_tolist (skipn 3 point).
Proof.
  cbv zeta. unfold generate_features.
  assert (E : map (firstn 3) (map (firstn 3) point_cloud) = map (firstn 3) point_cloud).
  { rewrite map_map. apply map_ext. intro r. apply firstn_firstn. }
  rewrite E, length_map.
  destruct (build_accumulation_features _ _ _) as [acc|e].
  - destruct (sample_mask (length point_cloud) nb_points st) as [[mask|e] st'] eqn:Em.
    + destruct (yield_all_of_coordinates
                  (point_features point_cloud nb_neighbors acc (map (firstn 3) point_cloud))
                  (point_features (map (firstn 3) point_cloud) nb_neighbors acc
                                  (map (firstn 3) point_cloud))
                  point_cloud mask) as [H1 [H2 H3]].
      { intro point. apply point_features_of_coordinates. }
      cbn [fst snd]. split; [reflexivity|]. split; [exact H1|]. split; [exact H2|].
      intros i row H. destruct (H3 i row H) as [core [idx [point [A [B [C D]]]]]].
      exists core, point. split; [exact A|].
      split; [apply (nth_error_In _ _ C)|]. split; [|exact D].
      intros ->. cbn [sample_mask] in Em. injection Em as <- _.
      apply nth_error_seq_0 in B. subst idx. exact C.
    + cbn [fst snd]. split; [reflexivity|]. split; [reflexivity|]. split; [reflexivity|].
      intros i row H. destruct i; discriminate.
  - cbn [fst snd]. split; [reflexivity|]. split; [reflexivity|]. split; [reflexivity|].
    intros i row H. destruct i; discriminate.
Qed.

(** ** The accumulation features of a row *)



